(** * redac_core: text redaction and document re-rendering

    A shallow embedding of [redac_core/services/redaction.py] and
    [redac_core/services/document_handler.py], with the Python built-ins
    they rely on, followed by the properties of the redaction algorithm,
    the batch loop and the PDF branch of the document handler.

    Conventions.  A Python [str] is a Rocq [string]; one [ascii] stands
    for one code point, so the texts covered are those whose code points
    lie in 0..255.  [len] is [String.length], [list(text)] is
    [list_ascii_of_string] and ["".join(chars)] is [string_of_list_ascii].
    Python integers are [Z].  A field called [end] in the source is
    [end_] here.  Floats that are only copied around are rationals. *)

From Stdlib Require Import ZArith NArith List String Ascii Strings.Byte Bool Lia.
From Stdlib Require Import Permutation Sorted QArith Qround DecimalString.
Import ListNotations.

Local Open Scope string_scope.
Local Open Scope Z_scope.
Local Open Scope list_scope.

(* ===================================================================== *)
(** ** Python built-ins used by the source *)
(* ===================================================================== *)

Module Py.

Definition str := string.
Definition bytes := list byte.

(** [len(s)] *)
Definition len (s : str) : Z := Z.of_nat (String.length s).

(** [list(s)] and ["".join(chars)] *)
Definition chars_of (s : str) : list ascii := list_ascii_of_string s.
Definition join (cs : list ascii) : str := string_of_list_ascii cs.

(** Truthiness of a string and of a list. *)
Definition truthy_str (s : str) : bool :=
  match s with EmptyString => false | _ => true end.
Definition truthy_list {A} (l : list A) : bool :=
  match l with [] => false | _ => true end.

(** Slice bounds as CPython adjusts them for a step of one: a
    negative index counts from the end, and both ends are clamped to
    [0, length]. *)
Definition adjust_index (i n : Z) : Z :=
  if i <? 0 then Z.max 0 (i + n) else Z.min i n.

(** [l[start:stop] = v]: the slice is replaced by [v], whatever its
    length; an inverted slice is an insertion at [start]. *)
Definition slice_assign {A} (l : list A) (start stop : Z) (v : list A)
  : list A :=
  let n := Z.of_nat (List.length l) in
  let lo := adjust_index start n in
  let hi := Z.max lo (adjust_index stop n) in
  firstn (Z.to_nat lo) l ++ v ++ skipn (Z.to_nat hi) l.

(** [s[:k]] for a non-negative [k]. *)
Definition prefix (k : nat) (s : str) : str := String.substring 0 k s.

(** [sorted(l, key=key, reverse=True)].  Python's sort is stable and
    keeps the input order of equal keys under [reverse=True] as well;
    a stable sort is determined by that, so it is given here as
    insertion from the right. *)
Fixpoint insert_desc {A} (key : A -> Z) (x : A) (l : list A) : list A :=
  match l with
  | [] => [x]
  | y :: l' =>
      if key y <=? key x then x :: y :: l'
      else y :: insert_desc key x l'
  end.

Fixpoint sorted_desc {A} (key : A -> Z) (l : list A) : list A :=
  match l with
  | [] => []
  | x :: l' => insert_desc key x (sorted_desc key l')
  end.

(** The order [sorted_desc] puts a list in: keys do not increase. *)
Definition key_desc {A} (key : A -> Z) (a b : A) : Prop := key b <= key a.

(** [c.lower()] on code points below 256: A-Z and the accented
    capitals U+00C0..U+00DE (the sign U+00D7 excepted). *)
Definition lower_char (c : ascii) : ascii :=
  let n := N_of_ascii c in
  if ((65 <=? n) && (n <=? 90))%N then ascii_of_N (n + 32)
  else if ((192 <=? n) && (n <=? 222) && negb (n =? 215))%N
       then ascii_of_N (n + 32)
  else c.

Fixpoint lower (s : str) : str :=
  match s with
  | EmptyString => EmptyString
  | String c s' => String (lower_char c) (lower s')
  end.

(** [c.isspace()] on code points below 256. *)
Definition isspace (c : ascii) : bool :=
  let n := N_of_ascii c in
  (((9 <=? n) && (n <=? 13)) || ((28 <=? n) && (n <=? 32))
   || (n =? 133) || (n =? 160))%N.

Fixpoint lstrip (s : str) : str :=
  match s with
  | EmptyString => EmptyString
  | String c s' => if isspace c then lstrip s' else s
  end.

Fixpoint rstrip (s : str) : str :=
  match s with
  | EmptyString => EmptyString
  | String c s' =>
      match rstrip s' with
      | EmptyString => if isspace c then EmptyString
                       else String c EmptyString
      | r => String c r
      end
  end.

(** [s.strip()] *)
Definition strip (s : str) : str := rstrip (lstrip s).

(** [s.lstrip(".")] *)
Fixpoint lstrip_dot (s : str) : str :=
  match s with
  | String "." s' => lstrip_dot s'
  | _ => s
  end.

(** [s.split("\n")]: never empty, one more piece than separators. *)
Fixpoint split_on (sep : ascii) (s : str) : list str :=
  match s with
  | EmptyString => [EmptyString]
  | String c s' =>
      if Ascii.eqb c sep then EmptyString :: split_on sep s'
      else match split_on sep s' with
           | [] => [String c EmptyString]
           | p :: ps => String c p :: ps
           end
  end.

Definition newline : ascii := ascii_of_N 10.

(** [s.startswith(p)] and [s.endswith(p)] *)
Definition startswith (s p : str) : bool := String.prefix p s.
Definition endswith (s p : str) : bool :=
  let ls := String.length s in
  let lp := String.length p in
  (lp <=? ls)%nat && String.eqb (String.substring (ls - lp) lp s) p.

(** [s.encode("utf-8")] on code points below 256: one byte below 128,
    two bytes from 128 on. *)
Definition utf8_char (c : ascii) : bytes :=
  let n := N_of_ascii c in
  if (n <? 128)%N then [byte_of_ascii c]
  else [ byte_of_ascii (ascii_of_N (192 + N.shiftr n 6));
         byte_of_ascii (ascii_of_N (128 + N.land n 63)) ].

Fixpoint encode_utf8 (s : str) : bytes :=
  match s with
  | EmptyString => []
  | String c s' => utf8_char c ++ encode_utf8 s'
  end.

(** The exceptions the model distinguishes: an [IndexError] of the
    interpreter, and whatever a collaborator raises (any subclass of
    [Exception], with its message). *)
Inductive exn : Type :=
| IndexError
| Raised (msg : str).

(** A computation that returns or raises. *)
Inductive result (A : Type) : Type :=
| Ok (a : A)
| Err (e : exn).
Arguments Ok {A} a.
Arguments Err {A} e.

Definition bind {A B} (c : result A) (k : A -> result B) : result B :=
  match c with
  | Ok a => k a
  | Err e => Err e
  end.

(** [l[i]] for [i >= 0] *)
Definition index {A} (l : list A) (i : nat) : result A :=
  match nth_error l i with
  | Some a => Ok a
  | None => Err IndexError
  end.

End Py.

Notation "x <- c ;; k" := (Py.bind c (fun x => k))
  (at level 61, c at next level, right associativity).

(* ===================================================================== *)
(** ** [hashlib.md5]: the MD5 digest of RFC 1321 *)
(* ===================================================================== *)

Module Hashlib.

(** 32-bit words are integers reduced modulo 2^32. *)
Definition w32 (x : Z) : Z := x mod 4294967296.
Definition not32 (x : Z) : Z := Z.lxor x 4294967295.
Definition rotl32 (x c : Z) : Z :=
  w32 (Z.lor (Z.shiftl x c) (Z.shiftr x (32 - c))).

Definition shifts : list Z :=
  [ 7; 12; 17; 22; 7; 12; 17; 22; 7; 12; 17; 22; 7; 12; 17; 22;
    5; 9; 14; 20; 5; 9; 14; 20; 5; 9; 14; 20; 5; 9; 14; 20;
    4; 11; 16; 23; 4; 11; 16; 23; 4; 11; 16; 23; 4; 11; 16; 23;
    6; 10; 15; 21; 6; 10; 15; 21; 6; 10; 15; 21; 6; 10; 15; 21 ].

(** floor(2^32 * |sin(i + 1)|) for i = 0..63 *)
Definition sines : list Z :=
  [ 3614090360; 3905402710; 606105819; 3250441966; 4118548399;
    1200080426; 2821735955; 4249261313; 1770035416; 2336552879;
    4294925233; 2304563134; 1804603682; 4254626195; 2792965006;
    1236535329; 4129170786; 3225465664; 643717713; 3921069994;
    3593408605; 38016083; 3634488961; 3889429448; 568446438;
    3275163606; 4107603335; 1163531501; 2850285829; 4243563512;
    1735328473; 2368359562; 4294588738; 2272392833; 1839030562;
    4259657740; 2763975236; 1272893353; 4139469664; 3200236656;
    681279174; 3936430074; 3572445317; 76029189; 3654602809;
    3873151461; 530742520; 3299628645; 4096336452; 1126891415;
    2878612391; 4237533241; 1700485571; 2399980690; 4293915773;
    2240044497; 1873313359; 4264355552; 2734768916; 1309151649;
    4149444226; 3174756917; 718787259; 3951481745 ].

(** The [k] low bytes of [x], least significant first. *)
Fixpoint le_bytes (k : nat) (x : Z) : list Z :=
  match k with
  | O => []
  | S k' => x mod 256 :: le_bytes k' (x / 256)
  end.

Fixpoint of_le_bytes (bs : list Z) : Z :=
  match bs with
  | [] => 0
  | b :: bs' => b + 256 * of_le_bytes bs'
  end.

(** Consecutive pieces of [k] elements. *)
Fixpoint chunks {A} (fuel k : nat) (l : list A) : list (list A) :=
  match fuel, l with
  | O, _ | _, [] => []
  | S fuel', _ => firstn k l :: chunks fuel' k (skipn k l)
  end.

(** The message, a one bit, zero bits up to 56 modulo 64 bytes, and
    the bit length on 64 bits. *)
Definition pad (msg : list Z) : list Z :=
  let n := Z.of_nat (List.length msg) in
  msg ++ [128] ++ repeat 0 (Z.to_nat ((55 - n) mod 64))
      ++ le_bytes 8 ((8 * n) mod 18446744073709551616).

Definition state : Type := Z * Z * Z * Z.

Definition init : state :=
  (1732584193, 4023233417, 2562383102, 271733878).

Definition step (M : list Z) (st : state) (i : nat) : state :=
  let '(a, b, c, d) := st in
  let zi := Z.of_nat i in
  let '(f, g) :=
    match (i / 16)%nat with
    | 0%nat => (Z.lor (Z.land b c) (Z.land (not32 b) d), zi)
    | 1%nat => (Z.lor (Z.land d b) (Z.land (not32 d) c),
                (5 * zi + 1) mod 16)
    | 2%nat => (Z.lxor (Z.lxor b c) d, (3 * zi + 5) mod 16)
    | _ => (Z.lxor c (Z.lor b (not32 d)), (7 * zi) mod 16)
    end in
  let f' := w32 (f + a + nth i sines 0 + nth (Z.to_nat g) M 0) in
  (d, w32 (b + rotl32 f' (nth i shifts 0)), b, c).

Definition block (st : state) (blk : list Z) : state :=
  let M := map of_le_bytes (chunks 16 4 blk) in
  let '(a, b, c, d) := st in
  let '(a', b', c', d') := fold_left (step M) (seq 0 64) st in
  (w32 (a + a'), w32 (b + b'), w32 (c + c'), w32 (d + d')).

Definition md5_state (msg : Py.bytes) : state :=
  let bs := pad (map (fun b => Z.of_N (Byte.to_N b)) msg) in
  fold_left block (chunks (List.length bs) 64 bs) init.

(** [md5(msg).digest()] as sixteen byte values. *)
Definition digest (msg : Py.bytes) : list Z :=
  let '(a, b, c, d) := md5_state msg in
  le_bytes 4 a ++ le_bytes 4 b ++ le_bytes 4 c ++ le_bytes 4 d.

Definition hex_digits : list ascii :=
  list_ascii_of_string "0123456789abcdef".

Definition hexdig (n : Z) : ascii := nth (Z.to_nat n) hex_digits "f"%char.

Definition hex2 (b : Z) : list ascii := [hexdig (b / 16); hexdig (b mod 16)].

(** [md5(msg).hexdigest()] *)
Definition md5_hexdigest (msg : Py.bytes) : Py.str :=
  string_of_list_ascii (flat_map hex2 (digest msg)).

End Hashlib.

(* ===================================================================== *)
(** ** The detection collaborator ([openmed]) *)
(* ===================================================================== *)

Module Openmed.

Import Py.

(** [openmed.PIIEntity]: a detected span [[start, end)] of the text. *)
Record PIIEntity : Type := {
  text : str;
  label : str;
  confidence : Q;
  start : Z;
  end_ : Z
}.

(** What [extract_pii] returns. *)
Record ExtractionResult : Type := { entities : list PIIEntity }.

(** An entity of a de-identification result: a span and, when the
    attribute is there, the text that replaced it. *)
Record ReplacedEntity : Type := {
  entity : PIIEntity;
  entity_redacted_text : option str
}.

(** [openmed.DeidentificationResult], as far as [redact_text] reads
    it with [getattr].  For [pii_entities] and [mapping], which the
    code only tests for truth, an attribute that is missing or [None]
    is [None] here.  For [entities], [None] stands for a missing
    attribute only: an attribute that is there is taken to hold a
    list (on the value [None] the loop over the entities would raise
    [TypeError]; that value is not represented). *)
Record DeidentificationResult : Type := {
  deidentified_text : str;
  attr_pii_entities : option (list ReplacedEntity);
  attr_entities : option (list ReplacedEntity);
  attr_mapping : option (list (str * str))
}.

(** The keyword arguments [redact_text] builds for [deidentify]; an
    absent key is [None]. *)
Record DeidKwargs : Type := {
  kw_method : str;
  kw_model_name : str;
  kw_confidence_threshold : Q;
  kw_use_smart_merging : bool;
  kw_date_shift_days : option Z;
  kw_keep_mapping : option bool
}.

(** The collaborators: the two entry points of [openmed], each of
    which returns or raises, and whether [torch] can be imported and
    sees a CUDA device. *)
Record Collaborators : Type := {
  extract_pii : str -> str -> Q -> bool -> result ExtractionResult;
  deidentify : str -> DeidKwargs -> result DeidentificationResult;
  torch_cuda : option bool
}.

(** One call to a collaborator, with its arguments. *)
Inductive call : Type :=
| CallExtractPii (txt model_name : str) (threshold : Q) (merging : bool)
| CallDeidentify (txt : str) (kwargs : DeidKwargs).

(** A computation that calls collaborators: the calls made, in
    order, and how it ended. *)
Definition io (A : Type) : Type := list call * result A.

Definition ret {A} (a : A) : io A := ([], Ok a).

Definition iobind {A B} (c : io A) (k : A -> io B) : io B :=
  match c with
  | (log, Ok a) => let '(log', r) := k a in (log ++ log', r)
  | (log, Err e) => (log, Err e)
  end.

(** [try: c except Exception as e: handler e] *)
Definition try_except {A} (c : io A) (handler : exn -> io A) : io A :=
  match c with
  | (log, Ok a) => (log, Ok a)
  | (log, Err e) => let '(log', r) := handler e in (log ++ log', r)
  end.

(** A step that calls nobody. *)
Definition lift {A} (r : result A) : io A := ([], r).

Definition calls {A} (c : io A) : list call := fst c.
Definition outcome {A} (c : io A) : result A := snd c.

End Openmed.

Notation "x <~ c ;; k" := (Openmed.iobind c (fun x => k))
  (at level 61, c at next level, right associativity).

(* ===================================================================== *)
(** ** [redac_core/schemas.py] *)
(* ===================================================================== *)

Module Schemas.

Import Py.

Inductive RedactionMethod : Type :=
| MASK | REMOVE | REPLACE | HASH | SHIFT_DATES.

Definition method_value (m : RedactionMethod) : str :=
  match m with
  | MASK => "mask"
  | REMOVE => "remove"
  | REPLACE => "replace"
  | HASH => "hash"
  | SHIFT_DATES => "shift_dates"
  end.

Inductive DeviceType : Type := AUTO | CPU | CUDA.

Definition device_value (d : DeviceType) : str :=
  match d with
  | AUTO => "auto"
  | CPU => "cpu"
  | CUDA => "cuda"
  end.

Inductive OutputFormat : Type := SAME | TXT | JSON.

Record RedactionConfig : Type := {
  model : str;
  confidence_threshold : Q;
  use_smart_merging : bool;
  method : RedactionMethod;
  date_shift_days : option Z;
  entity_types : option (list str);
  exclude_entity_types : option (list str);
  include_mapping : bool;
  output_format : OutputFormat;
  device : DeviceType
}.

Record EntityInfo : Type := {
  text : str;
  label : str;
  confidence : Q;
  start : Z;
  end_ : Z;
  redacted_text : option str
}.

Record RedactionResult : Type := {
  original_text : str;
  result_redacted_text : str;
  result_entities : list EntityInfo;
  entity_count : Z;
  mapping : option (list (str * str));
  result_method : str;
  result_model : str;
  result_confidence_threshold : Q
}.

Record BatchRedactionResult : Type := {
  results : list RedactionResult;
  total_items : Z;
  successful_items : Z;
  failed_items : Z;
  total_entities : Z;
  processing_time_seconds : Q
}.

End Schemas.

(* ===================================================================== *)
(** ** [redac_core/services/redaction.py]: class [RedactionService] *)
(* ===================================================================== *)

Module Redaction.

Import Py.
Import Openmed.

(** The part of the service object the methods read. *)
Record RedactionService : Type := { active_model_name : str }.

(** Python truthiness of an optional list: [None] and [[]] are false. *)
Definition truthy_opt {A} (o : option (list A)) : bool :=
  match o with
  | Some (_ :: _) => true
  | _ => false
  end.

Definition types_of (o : option (list str)) : list str :=
  match o with
  | Some l => l
  | None => []
  end.

(** [x in s] for a set of strings. *)
Definition member (x : str) (s : list str) : bool :=
  existsb (String.eqb x) s.

(** [f"item_{i}"] *)
Definition item_id (i : nat) : str :=
  String.append "item_" (DecimalString.NilZero.string_of_uint (Nat.to_uint i)).

(** [round(x, 3)]: to the nearest thousandth, ties to even. *)
Definition round3 (x : Q) : Q :=
  let y := Qmult x (1000 # 1) in
  let f := Qfloor y in
  let r := Qminus y (inject_Z f) in
  let n :=
    match Qcompare r (1 # 2) with
    | Lt => f
    | Gt => f + 1
    | Eq => if Z.even f then f else f + 1
    end in
  Qmake n 1000.

Section Service.

Variable world : Collaborators.
Variable self : RedactionService.

Definition _get_device (device : str) : str :=
  if String.eqb device "auto" then
    match torch_cuda world with
    | Some true => "cuda"
    | Some false => "cpu"
    | None => "cpu"
    end
  else device.

Definition _filter_entities (entities : list PIIEntity)
    (include_types exclude_types : option (list str)) : list PIIEntity :=
  let filtered := entities in
  let filtered :=
    if truthy_opt include_types then
      let include_set := map lower (types_of include_types) in
      filter (fun e => member (lower (label e)) include_set) filtered
    else filtered in
  let filtered :=
    if truthy_opt exclude_types then
      let exclude_set := map lower (types_of exclude_types) in
      filter (fun e => negb (member (lower (label e)) exclude_set)) filtered
    else filtered in
  filtered.

Definition _entity_to_info (entity : PIIEntity)
    (redacted_text : option str) : Schemas.EntityInfo :=
  {| Schemas.text := text entity;
     Schemas.label := label entity;
     Schemas.confidence := confidence entity;
     Schemas.start := start entity;
     Schemas.end_ := end_ entity;
     Schemas.redacted_text := redacted_text |}.

(** The call to [extract_pii], recorded. *)
Definition call_extract_pii (txt model_name : str) (threshold : Q)
    (merging : bool) : io ExtractionResult :=
  ([CallExtractPii txt model_name threshold merging],
   extract_pii world txt model_name threshold merging).

(** The call to [deidentify], recorded. *)
Definition call_deidentify (txt : str) (kwargs : DeidKwargs)
    : io DeidentificationResult :=
  ([CallDeidentify txt kwargs], deidentify world txt kwargs).

Definition model_name_of (config : Schemas.RedactionConfig) : str :=
  if truthy_str (Schemas.model config) then Schemas.model config
  else active_model_name self.

Definition extract_entities (txt : str)
    (config : Schemas.RedactionConfig) : io (list Schemas.EntityInfo) :=
  let model_name := model_name_of config in
  let device := _get_device (Schemas.device_value (Schemas.device config)) in
  result <~ call_extract_pii txt model_name
              (Schemas.confidence_threshold config)
              (Schemas.use_smart_merging config) ;;
  let entities := _filter_entities (entities result)
                    (Schemas.entity_types config)
                    (Schemas.exclude_entity_types config) in
  ret (map (fun e => _entity_to_info e None) entities).

Definition mask_fragment (entity : PIIEntity) : str :=
  String.append "[" (String.append (label entity) "]").

Definition _generate_replacement (entity : PIIEntity) (method : str)
    : str :=
  if String.eqb method "mask" then mask_fragment entity
  else if String.eqb method "remove" then ""
  else if String.eqb method "hash" then
    prefix 8 (Hashlib.md5_hexdigest (encode_utf8 (text entity)))
  else if String.eqb method "replace" then mask_fragment entity
  else mask_fragment entity.

(** The body of the loop of [_redact_manual]: [n] is [len(text)],
    the length of the text the call was given, and [chars] the
    working buffer. *)
Definition redact_step (n : Z) (method : str) (chars : list ascii)
    (entity : PIIEntity) : list ascii :=
  if (start entity <? 0) || (end_ entity >? n) then chars
  else
    let replacement := _generate_replacement entity method in
    slice_assign chars (start entity) (end_ entity)
                 (chars_of replacement).

Definition _redact_manual (txt : str) (entities : list PIIEntity)
    (method : str) : str :=
  let sorted_entities := sorted_desc start entities in
  let chars := chars_of txt in
  join (fold_left (redact_step (len txt) method) sorted_entities chars).

(** The test [redact_text] branches on. *)
Definition filtering_needed (config : Schemas.RedactionConfig) : bool :=
  match Schemas.entity_types config, Schemas.exclude_entity_types config with
  | None, None => false
  | _, _ => true
  end.

Definition entities_raw (result : DeidentificationResult)
    : list ReplacedEntity :=
  match attr_pii_entities result with
  | Some (e :: es) => e :: es
  | _ =>
      match attr_entities result with
      | Some es => es
      | None => []
      end
  end.

Definition redact_text (txt : str) (config : Schemas.RedactionConfig)
    : io Schemas.RedactionResult :=
  let model_name := model_name_of config in
  let method := Schemas.method_value (Schemas.method config) in
  let device := _get_device (Schemas.device_value (Schemas.device config)) in
  if filtering_needed config || negb (String.eqb method "replace") then
    extraction_result <~ call_extract_pii txt model_name
                           (Schemas.confidence_threshold config)
                           (Schemas.use_smart_merging config) ;;
    let all_entities := entities extraction_result in
    let filtered_entities :=
      _filter_entities all_entities (Schemas.entity_types config)
                       (Schemas.exclude_entity_types config) in
    let redacted_text := _redact_manual txt filtered_entities method in
    let final_entities :=
      map (fun e => _entity_to_info e None) filtered_entities in
    ret {| Schemas.original_text := txt;
           Schemas.result_redacted_text := redacted_text;
           Schemas.result_entities := final_entities;
           Schemas.entity_count := Z.of_nat (List.length final_entities);
           Schemas.mapping := None;
           Schemas.result_method := method;
           Schemas.result_model := model_name;
           Schemas.result_confidence_threshold :=
             Schemas.confidence_threshold config |}
  else
    let kwargs :=
      {| kw_method := method;
         kw_model_name := model_name;
         kw_confidence_threshold := Schemas.confidence_threshold config;
         kw_use_smart_merging := Schemas.use_smart_merging config;
         kw_date_shift_days :=
           if String.eqb method "shift_dates"
           then Schemas.date_shift_days config else None;
         kw_keep_mapping :=
           if Schemas.include_mapping config then Some true else None |} in
    result <~ call_deidentify txt kwargs ;;
    let entities :=
      map (fun e => _entity_to_info (entity e) (entity_redacted_text e))
          (entities_raw result) in
    let mapping :=
      if Schemas.include_mapping config then
        match attr_mapping result with
        | Some (p :: ps) => Some (p :: ps)
        | _ => None
        end
      else None in
    ret {| Schemas.original_text := txt;
           Schemas.result_redacted_text := deidentified_text result;
           Schemas.result_entities := entities;
           Schemas.entity_count := Z.of_nat (List.length entities);
           Schemas.mapping := mapping;
           Schemas.result_method := method;
           Schemas.result_model := model_name;
           Schemas.result_confidence_threshold :=
             Schemas.confidence_threshold config |}.

(** The three accumulators of the loop of [redact_batch]. *)
Record batch_state : Type := {
  acc_results : list Schemas.RedactionResult;
  acc_failed : Z;
  acc_total_entities : Z
}.

(** The result the handler appends for an item that failed. *)
Definition fallback_result (txt : str)
    (config : Schemas.RedactionConfig) : Schemas.RedactionResult :=
  {| Schemas.original_text := txt;
     Schemas.result_redacted_text := txt;
     Schemas.result_entities := [];
     Schemas.entity_count := 0;
     Schemas.mapping := None;
     Schemas.result_method := Schemas.method_value (Schemas.method config);
     Schemas.result_model := Schemas.model config;
     Schemas.result_confidence_threshold :=
       Schemas.confidence_threshold config |}.

(** One iteration: the [try] body, and the handler, which first
    formats the log line with [ids[i]]. *)
Definition batch_item (ids : list str) (config : Schemas.RedactionConfig)
    (i : nat) (txt : str) (st : batch_state) : io batch_state :=
  try_except
    (result <~ redact_text txt config ;;
     ret {| acc_results := acc_results st ++ [result];
            acc_failed := acc_failed st;
            acc_total_entities :=
              acc_total_entities st + Schemas.entity_count result |})
    (fun e =>
       logged_id <~ lift (index ids i) ;;
       ret {| acc_results := acc_results st ++ [fallback_result txt config];
              acc_failed := acc_failed st + 1;
              acc_total_entities := acc_total_entities st |}).

(** [for i, text in enumerate(texts)], from index [i] on. *)
Fixpoint batch_loop (ids : list str) (config : Schemas.RedactionConfig)
    (i : nat) (texts : list str) (st : batch_state) : io batch_state :=
  match texts with
  | [] => ret st
  | txt :: rest =>
      st' <~ batch_item ids config i txt st ;;
      batch_loop ids config (S i) rest st'
  end.

(** [start_time] and [end_time] are the two readings of
    [time.time()], before and after the loop. *)
Definition redact_batch (texts : list str) (ids : option (list str))
    (config : Schemas.RedactionConfig) (start_time end_time : Q)
    : io Schemas.BatchRedactionResult :=
  let ids :=
    match ids with
    | None => map item_id (seq 0 (List.length texts))
    | Some l => l
    end in
  st <~ batch_loop ids config 0 texts
          {| acc_results := []; acc_failed := 0; acc_total_entities := 0 |} ;;
  let processing_time := Qminus end_time start_time in
  ret {| Schemas.results := acc_results st;
         Schemas.total_items := Z.of_nat (List.length texts);
         Schemas.successful_items :=
           Z.of_nat (List.length texts) - acc_failed st;
         Schemas.failed_items := acc_failed st;
         Schemas.total_entities := acc_total_entities st;
         Schemas.processing_time_seconds := round3 processing_time |}.

End Service.

End Redaction.

(* ===================================================================== *)
(** ** [pathlib]: suffix and stem of a POSIX path *)
(* ===================================================================== *)

Module Pathlib.

Import Py.

(** The last component of the path; empty and ["."] components do
    not count. *)
Definition name (p : str) : str :=
  last (filter (fun c => negb (String.eqb c "" || String.eqb c "."))
               (split_on "/"%char p)) "".

(** [s.rfind(".")] *)
Fixpoint rfind_dot_from (i : nat) (s : str) (found : option nat)
    : option nat :=
  match s with
  | EmptyString => found
  | String c s' =>
      rfind_dot_from (S i) s'
        (if Ascii.eqb c "."%char then Some i else found)
  end.

Definition rfind_dot (s : str) : option nat := rfind_dot_from 0 s None.

(** Where the suffix starts: the last dot, when it is neither the
    first nor the last character of the name. *)
Definition suffix_at (nm : str) : option nat :=
  match rfind_dot nm with
  | Some i =>
      if ((0 <? i) && (i <? String.length nm - 1))%nat then Some i else None
  | None => None
  end.

(** [Path(p).suffix] *)
Definition suffix (p : str) : str :=
  let nm := name p in
  match suffix_at nm with
  | Some i => String.substring i (String.length nm - i) nm
  | None => ""
  end.

(** [Path(p).stem] *)
Definition stem (p : str) : str :=
  let nm := name p in
  match suffix_at nm with
  | Some i => String.substring 0 i nm
  | None => nm
  end.

End Pathlib.

(* ===================================================================== *)
(** ** The rendering collaborators: PyMuPDF ([fitz]) and python-docx *)
(* ===================================================================== *)

Module Fitz.

Import Py.

Record Rect : Type := { x0 : Q; y0 : Q; x1 : Q; y1 : Q }.

Definition colour : Type := (Q * Q * Q)%type.

(** The operations of PyMuPDF the handler calls.  A document is a
    value each operation takes and gives back changed; a page is
    named by its index; every operation returns or raises. *)
Record API : Type := {
  Document : Type;
  (** [fitz.open(stream=content, filetype="pdf")] *)
  open_stream : bytes -> result Document;
  (** [fitz.open()] *)
  open_new : result Document;
  (** the pages [for page in doc] runs through *)
  page_count : Document -> nat;
  (** [page.search_for(needle)] *)
  search_for : Document -> nat -> str -> result (list Rect);
  (** [page.add_redact_annot(rect, fill=, text=, text_color=, fontsize=)] *)
  add_redact_annot :
    Document -> nat -> Rect -> colour -> option str -> option colour -> Z
    -> result Document;
  (** [page.apply_redactions()] *)
  apply_redactions : Document -> nat -> result Document;
  (** [doc.tobytes()] *)
  tobytes : Document -> result bytes;
  (** [doc.close()] *)
  close : Document -> result unit;
  (** [doc.new_page()]: the document with one more page, and its index *)
  new_page : Document -> result (Document * nat);
  (** [page.rect.height] *)
  page_height : Document -> nat -> Q;
  (** [page.new_shape()] and [shape.commit()] *)
  new_shape : Document -> nat -> result unit;
  shape_commit : Document -> nat -> result Document;
  (** [page.insert_text(point, line, fontsize=, fontname=)] *)
  insert_text :
    Document -> nat -> Z * Z -> str -> Z -> str -> result Document
}.

End Fitz.

Module Docx.

Import Py.

(** The operations of python-docx the handler calls. *)
Record API : Type := {
  Document : Type;
  (** [Document()] *)
  new_document : result Document;
  (** [doc.add_paragraph(para)] *)
  add_paragraph : Document -> str -> result Document;
  (** [doc.save(buffer)] followed by reading the buffer back *)
  save : Document -> result bytes
}.

End Docx.

(* ===================================================================== *)
(** ** [redac_core/services/document_handler.py]: class [DocumentHandler] *)
(* ===================================================================== *)

Module DocumentHandler.

Import Py.

(** A loop whose body may raise: the state is threaded through the
    iterations, and the first exception ends the loop. *)
Fixpoint for_each {A S} (body : S -> A -> result S) (l : list A) (s : S)
    : result S :=
  match l with
  | [] => Ok s
  | a :: l' => s' <- body s a ;; for_each body l' s'
  end.

(** [redacted_text.split("\n\n")] *)
Fixpoint split_paragraphs (s : str) : list str :=
  match s with
  | EmptyString => [EmptyString]
  | String c s' =>
      let keep :=
        match split_paragraphs s' with
        | [] => [String c EmptyString]
        | p :: ps => String c p :: ps
        end in
      match s' with
      | String c' s'' =>
          if Ascii.eqb c newline && Ascii.eqb c' newline
          then EmptyString :: split_paragraphs s''
          else keep
      | EmptyString => keep
      end
  end.

Definition get_file_type (filename : str) : str :=
  let ext := lower (Pathlib.suffix filename) in
  if String.eqb ext ".doc" || String.eqb ext ".docx" then "docx"
  else lstrip_dot ext.

Definition redacted_name (stem ext : str) : str :=
  String.append stem (String.append "_redacted" ext).

Section Handler.

Variable fitz : Fitz.API.
Variable docx : Docx.API.

Definition fill_colour (method : str) : Fitz.colour :=
  if String.eqb method "remove" then (1, 1, 1)%Q
  else if String.eqb method "replace" || String.eqb method "hash"
       then (9 # 10, 9 # 10, 9 # 10)
  else (0, 0, 0)%Q.

Definition text_colour (method : str) : option Fitz.colour :=
  if String.eqb method "remove" then None
  else if String.eqb method "replace" || String.eqb method "hash"
       then Some (3 # 10, 3 # 10, 3 # 10)
  else None.

Definition annot_text (method : str) (entity : Schemas.EntityInfo)
    : option str :=
  if String.eqb method "replace" then
    Some (String.append "[" (String.append (Schemas.label entity) "]"))
  else if String.eqb method "hash" then
    Some (prefix 8 (Hashlib.md5_hexdigest
                      (encode_utf8 (Schemas.text entity))))
  else None.

(** [for rect in hits]: one redaction annotation per hit. *)
Definition mark_hit (method : str) (entity : Schemas.EntityInfo)
    (pno : nat) (doc : Fitz.Document fitz) (rect : Fitz.Rect)
    : result (Fitz.Document fitz) :=
  Fitz.add_redact_annot fitz doc pno rect (fill_colour method)
    (annot_text method entity) (text_colour method) 8.

(** [for entity in entities]: blank texts are passed over, the
    others searched for on the page. *)
Definition mark_entity (method : str) (pno : nat)
    (doc : Fitz.Document fitz) (entity : Schemas.EntityInfo)
    : result (Fitz.Document fitz) :=
  if negb (truthy_str (Schemas.text entity))
     || negb (truthy_str (strip (Schemas.text entity)))
  then Ok doc
  else
    hits <- Fitz.search_for fitz doc pno (Schemas.text entity) ;;
    for_each (mark_hit method entity pno) hits doc.

(** [for page in doc]: mark, then apply the redactions of the page. *)
Definition mark_page (method : str) (entities : list Schemas.EntityInfo)
    (doc : Fitz.Document fitz) (pno : nat)
    : result (Fitz.Document fitz) :=
  doc' <- for_each (mark_entity method pno) entities doc ;;
  Fitz.apply_redactions fitz doc' pno.

(** Strategy 1 of [_create_redacted_pdf], from the opened document
    to the returned pair.  The set [unique_texts] the source builds
    first is never read. *)
Definition in_place (doc : Fitz.Document fitz) (stem : str)
    (entities : list Schemas.EntityInfo) (method : str)
    : result (bytes * str) :=
  doc' <- for_each (mark_page method entities)
            (seq 0 (Fitz.page_count fitz doc)) doc ;;
  output <- Fitz.tobytes fitz doc' ;;
  _ <- Fitz.close fitz doc' ;;
  Ok (output, redacted_name stem ".pdf").

(** The state of the loop over the lines: the document, the page
    being written and the height reached on it. *)
Definition flow_state : Type := (Fitz.Document fitz * nat * Z)%type.

Definition margin : Z := 50.
Definition line_height : Z := 12.
Definition fontsize : Z := 10.
Definition fontname : str := "helv".

Definition flow_line (page_height : Q) (st : flow_state) (line : str)
    : result flow_state :=
  let '(doc, current_page, y) := st in
  st1 <-
    (if Qlt_le_dec (Qminus page_height (inject_Z margin)) (inject_Z y)
     then
       doc1 <- Fitz.shape_commit fitz doc current_page ;;
       p <- Fitz.new_page fitz doc1 ;;
       _ <- Fitz.new_shape fitz (fst p) (snd p) ;;
       Ok (fst p, snd p, margin)
     else Ok (doc, current_page, y)) ;;
  let '(doc2, page2, y2) := st1 in
  doc3 <- Fitz.insert_text fitz doc2 page2 (margin, y2) line
            fontsize fontname ;;
  Ok (doc3, page2, y2 + line_height).

(** Strategy 2 of [_create_redacted_pdf]: a new document with the
    redacted text, line by line. *)
Definition reconstruct (doc : Fitz.Document fitz) (redacted_text stem : str)
    : result (bytes * str) :=
  _ <- Fitz.close fitz doc ;;
  doc0 <- Fitz.open_new fitz ;;
  let lines := split_on newline redacted_text in
  p <- Fitz.new_page fitz doc0 ;;
  let page_height := Fitz.page_height fitz (fst p) (snd p) in
  _ <- Fitz.new_shape fitz (fst p) (snd p) ;;
  st <- for_each (flow_line page_height) lines (fst p, snd p, margin) ;;
  let '(doc1, _, _) := st in
  output <- Fitz.tobytes fitz doc1 ;;
  _ <- Fitz.close fitz doc1 ;;
  Ok (output, redacted_name stem ".pdf").

(** The body of the [try] of [_create_redacted_pdf]. *)
Definition pdf_try_body (original_content : bytes) (redacted_text stem : str)
    (entities : list Schemas.EntityInfo) (method : str)
    : result (bytes * str) :=
  doc <- Fitz.open_stream fitz original_content ;;
  if truthy_list entities then in_place doc stem entities method
  else reconstruct doc redacted_text stem.

Definition _create_redacted_pdf (original_content : bytes)
    (redacted_text stem : str) (entities : list Schemas.EntityInfo)
    (method : str) : bytes * str :=
  if negb (truthy_list entities) then
    (original_content, redacted_name stem ".pdf")
  else
    match pdf_try_body original_content redacted_text stem entities method with
    | Ok r => r
    | Err e => (encode_utf8 redacted_text, redacted_name stem ".txt")
    end.

Definition docx_try_body (redacted_text stem : str)
    : result (bytes * str) :=
  doc <- Docx.new_document docx ;;
  let paragraphs := split_paragraphs redacted_text in
  doc' <- for_each
            (fun d para =>
               if truthy_str (strip para) then Docx.add_paragraph docx d para
               else Ok d)
            paragraphs doc ;;
  output <- Docx.save docx doc' ;;
  Ok (output, redacted_name stem ".docx").

Definition _create_redacted_docx (redacted_text stem : str)
    : bytes * str :=
  match docx_try_body redacted_text stem with
  | Ok r => r
  | Err e => (encode_utf8 redacted_text, redacted_name stem ".txt")
  end.

(** [if output_format and output_format != "same": file_type =
    output_format]: a forced format replaces the type of the file. *)
Definition override_file_type (file_type : str)
    (output_format : option str) : str :=
  match output_format with
  | Some fmt =>
      if truthy_str fmt && negb (String.eqb fmt "same") then fmt
      else file_type
  | None => file_type
  end.

(** The file type [create_redacted_document] renders. *)
Definition effective_file_type (filename : str)
    (output_format : option str) : str :=
  override_file_type (get_file_type filename) output_format.

Definition create_redacted_document (original_content : bytes)
    (filename redacted_text : str) (output_format : option str)
    (entities : option (list Schemas.EntityInfo)) (method : str)
    : bytes * str :=
  let file_type := get_file_type filename in
  let stem := Pathlib.stem filename in
  let entities :=
    match entities with
    | Some (e :: es) => e :: es
    | _ => []
    end in
  let file_type := override_file_type file_type output_format in
  if String.eqb file_type "pdf" then
    _create_redacted_pdf original_content redacted_text stem entities method
  else if String.eqb file_type "docx" then
    _create_redacted_docx redacted_text stem
  else if String.eqb file_type "txt" || String.eqb file_type "md" then
    let ext := if String.eqb file_type "md" then ".md" else ".txt" in
    (encode_utf8 redacted_text, redacted_name stem ext)
  else if String.eqb file_type "json" then
    (encode_utf8 redacted_text, redacted_name stem ".json")
  else
    (encode_utf8 redacted_text, redacted_name stem ".txt").

End Handler.

End DocumentHandler.

(* ===================================================================== *)
(** ** Vocabulary of the properties *)
(* ===================================================================== *)

Module Spans.

Import Py.
Import Openmed.

(** The number of characters of the span [[start, end)]. *)
Definition span_length (e : PIIEntity) : Z := end_ e - start e.

Fixpoint span_sum (E : list PIIEntity) : Z :=
  match E with
  | [] => 0
  | e :: E' => span_length e + span_sum E'
  end.

(** Two spans overlap when some character position lies in both. *)
Definition overlap (a b : PIIEntity) : Prop :=
  exists i, (start a <= i < end_ a) /\ (start b <= i < end_ b).

(** No two entries of the list overlap. *)
Definition non_overlapping (E : list PIIEntity) : Prop :=
  ForallOrdPairs (fun a b => ~ overlap a b) E.

(** [0 <= start <= end <= len(text)] *)
Definition in_bounds (txt : str) (e : PIIEntity) : Prop :=
  0 <= start e /\ start e <= end_ e /\ end_ e <= len txt.

(** [0 <= start < end <= len(text)]: in bounds and not empty. *)
Definition proper (txt : str) (e : PIIEntity) : Prop :=
  0 <= start e /\ start e < end_ e /\ end_ e <= len txt.

(** The guard of the loop of [_redact_manual]. *)
Definition skipped (txt : str) (e : PIIEntity) : bool :=
  (start e <? 0) || (end_ e >? len txt).

(** The working buffer once the entities [done] have been handled. *)
Definition buffer_after (txt method : str) (done : list PIIEntity)
    : list ascii :=
  fold_left (Redaction.redact_step (len txt) method) done (chars_of txt).

(** The offsets of [e] still point at the characters they pointed at
    in the text: the buffer agrees with the text up to [end]. *)
Definition unshifted (txt : str) (buffer : list ascii) (e : PIIEntity)
    : Prop :=
  firstn (Z.to_nat (end_ e)) buffer
  = firstn (Z.to_nat (end_ e)) (chars_of txt).

(** The order the specification words describe: [start] descending,
    and among equal [start]s the larger [end] first. *)
Definition spec_before (a b : PIIEntity) : bool :=
  (start b <? start a) || ((start b =? start a) && (end_ b <=? end_ a)).

Fixpoint spec_insert (x : PIIEntity) (l : list PIIEntity)
    : list PIIEntity :=
  match l with
  | [] => [x]
  | y :: l' => if spec_before x y then x :: y :: l'
               else y :: spec_insert x l'
  end.

Fixpoint spec_processing_order (l : list PIIEntity) : list PIIEntity :=
  match l with
  | [] => []
  | x :: l' => spec_insert x (spec_processing_order l')
  end.

(** A lower-case hexadecimal digit. *)
Definition is_hex (c : ascii) : Prop := In c Hashlib.hex_digits.

End Spans.

Module Batch.

Import Py.
Import Openmed.

Section Expected.

Variable world : Collaborators.
Variable self : Redaction.RedactionService.
Variable config : Schemas.RedactionConfig.

(** What an isolated item contributes: its own result, or the
    fallback when [redact_text] raised. *)
Definition item_result (txt : str) : Schemas.RedactionResult :=
  match outcome (Redaction.redact_text world self txt config) with
  | Ok r => r
  | Err _ => Redaction.fallback_result txt config
  end.

Definition item_failed (txt : str) : bool :=
  match outcome (Redaction.redact_text world self txt config) with
  | Ok _ => false
  | Err _ => true
  end.

Definition count_failed (texts : list str) : Z :=
  Z.of_nat (List.length (filter item_failed texts)).

Fixpoint sum_entity_count (rs : list Schemas.RedactionResult) : Z :=
  match rs with
  | [] => 0
  | r :: rs' => Schemas.entity_count r + sum_entity_count rs'
  end.

End Expected.

End Batch.

(* ===================================================================== *)
(** ** Concrete collaborators and inputs for the examples *)
(* ===================================================================== *)

Module Examples.

Import Py.
Import Openmed.

Definition small_model : str := "openmed/OpenMed-PII-ClinicalE5-Small-33M-v1".

Definition span (t l : str) (s e : Z) : PIIEntity :=
  {| text := t; label := l; confidence := 9 # 10; start := s; end_ := e |}.

Definition john : PIIEntity := span "John" "first_name" 0 4.

(** A detector that finds John in "John Doe", nothing elsewhere, and
    fails on the text "b". *)
Definition detector (txt model_name : str) (threshold : Q) (merging : bool)
    : result ExtractionResult :=
  if String.eqb txt "b" then Err (Raised "detection failed")
  else if String.eqb txt "John Doe" then Ok {| entities := [john] |}
  else Ok {| entities := [] |}.

Definition synthesiser (txt : str) (kwargs : DeidKwargs)
    : result DeidentificationResult :=
  Ok {| deidentified_text := "Jane Doe";
        attr_pii_entities :=
          Some [ {| entity := john; entity_redacted_text := Some "Jane" |} ];
        attr_entities := None;
        attr_mapping := Some [("Jane", "John")] |}.

Definition world : Collaborators :=
  {| extract_pii := detector; deidentify := synthesiser; torch_cuda := None |}.

Definition service : Redaction.RedactionService :=
  {| Redaction.active_model_name := small_model |}.

Definition config_with (m : Schemas.RedactionMethod)
    (include_types : option (list str)) : Schemas.RedactionConfig :=
  {| Schemas.model := small_model;
     Schemas.confidence_threshold := 6 # 10;
     Schemas.use_smart_merging := true;
     Schemas.method := m;
     Schemas.date_shift_days := None;
     Schemas.entity_types := include_types;
     Schemas.exclude_entity_types := None;
     Schemas.include_mapping := false;
     Schemas.output_format := Schemas.SAME;
     Schemas.device := Schemas.AUTO |}.

Definition john_info : Schemas.EntityInfo :=
  Redaction._entity_to_info john None.

(** A renderer with pages of text lines.  Searching always finds one
    hit; whether annotating raises is the parameter. *)
Definition toy_fitz (annotating_raises : bool) : Fitz.API :=
  {| Fitz.Document := list (list str);
     Fitz.open_stream := fun content => Ok [["John Doe"]];
     Fitz.open_new := Ok [];
     Fitz.page_count := fun doc => List.length doc;
     Fitz.search_for := fun doc pno needle =>
       Ok [ {| Fitz.x0 := 0; Fitz.y0 := 0; Fitz.x1 := 1; Fitz.y1 := 1 |} ];
     Fitz.add_redact_annot := fun doc pno rect fill txt colour size =>
       if annotating_raises then Err (Raised "annotation failed")
       else Ok doc;
     Fitz.apply_redactions := fun doc pno => Ok (map (fun _ => []) doc);
     Fitz.tobytes := fun doc =>
       Ok (encode_utf8 (String.concat "|" ("%PDF" :: List.concat doc)));
     Fitz.close := fun doc => Ok tt;
     Fitz.new_page := fun doc => Ok (doc ++ [[]], List.length doc);
     Fitz.page_height := fun doc pno => 842 # 1;
     Fitz.new_shape := fun doc pno => Ok tt;
     Fitz.shape_commit := fun doc pno => Ok doc;
     Fitz.insert_text := fun doc pno point line size font =>
       Ok (firstn pno doc ++ [nth pno doc [] ++ [line]]
             ++ skipn (S pno) doc) |}.

(** A document builder that keeps the paragraphs. *)
Definition toy_docx : Docx.API :=
  {| Docx.Document := list str;
     Docx.new_document := Ok [];
     Docx.add_paragraph := fun doc para => Ok (doc ++ [para]);
     Docx.save := fun doc => Ok (encode_utf8 (String.concat "|" doc)) |}.

Definition pdf_bytes : bytes := encode_utf8 "%PDF-1.7 John Doe".

End Examples.

(* ===================================================================== *)
(** ** Further vocabulary: the redacted text, piece by piece *)
(* ===================================================================== *)

Module Splice.

Import Py.
Import Openmed.

(** [cs[a:b]] for [0 <= a <= b]. *)
Definition between (a b : Z) (cs : list ascii) : list ascii :=
  firstn (Z.to_nat (b - a)) (skipn (Z.to_nat a) cs).

(** The characters of the text from [pos] up to [upto], read left to
    right along entities in ascending order: what lies before a span
    is copied, the span gives way to its replacement. *)
Fixpoint render_upto (method : str) (cs : list ascii) (pos : Z)
    (ascending : list PIIEntity) (upto : Z) : list ascii :=
  match ascending with
  | [] => between pos upto cs
  | e :: rest =>
      between pos (start e) cs
      ++ chars_of (Redaction._generate_replacement e method)
      ++ render_upto method cs (end_ e) rest upto
  end.

(** The text with every span replaced by its fragment. *)
Definition rendered (txt method : str) (E : list PIIEntity) : str :=
  join (render_upto method (chars_of txt) 0
          (rev (sorted_desc start E)) (len txt)).

(** The total length of the replacement fragments. *)
Fixpoint fragment_sum (method : str) (E : list PIIEntity) : Z :=
  match E with
  | [] => 0
  | e :: E' =>
      len (Redaction._generate_replacement e method) + fragment_sum method E'
  end.

(** No two entries of the list start at the same offset. *)
Definition distinct_starts (E : list PIIEntity) : Prop :=
  ForallOrdPairs (fun a b => start a <> start b) E.

End Splice.

(* ===================================================================== *)
(** ** Further vocabulary: configurations and the service object *)
(* ===================================================================== *)

Module Configs.

Import Py.

(** The configuration with another method, all else the same. *)
Definition with_method (c : Schemas.RedactionConfig)
    (m : Schemas.RedactionMethod) : Schemas.RedactionConfig :=
  {| Schemas.model := Schemas.model c;
     Schemas.confidence_threshold := Schemas.confidence_threshold c;
     Schemas.use_smart_merging := Schemas.use_smart_merging c;
     Schemas.method := m;
     Schemas.date_shift_days := Schemas.date_shift_days c;
     Schemas.entity_types := Schemas.entity_types c;
     Schemas.exclude_entity_types := Schemas.exclude_entity_types c;
     Schemas.include_mapping := Schemas.include_mapping c;
     Schemas.output_format := Schemas.output_format c;
     Schemas.device := Schemas.device c |}.

(** Two configurations that differ at most in [date_shift_days],
    [output_format] and [device]. *)
Definition same_detection_settings (c c' : Schemas.RedactionConfig) : Prop :=
  Schemas.model c = Schemas.model c'
  /\ Schemas.confidence_threshold c = Schemas.confidence_threshold c'
  /\ Schemas.use_smart_merging c = Schemas.use_smart_merging c'
  /\ Schemas.method c = Schemas.method c'
  /\ Schemas.entity_types c = Schemas.entity_types c'
  /\ Schemas.exclude_entity_types c = Schemas.exclude_entity_types c'
  /\ Schemas.include_mapping c = Schemas.include_mapping c'.

(** Two worlds with the same [openmed] entry points. *)
Definition same_openmed (w w' : Openmed.Collaborators) : Prop :=
  Openmed.extract_pii w = Openmed.extract_pii w'
  /\ Openmed.deidentify w = Openmed.deidentify w'.

(** [RedactionService.set_active_model] *)
Definition set_active_model (self : Redaction.RedactionService)
    (model_name : str) : Redaction.RedactionService :=
  {| Redaction.active_model_name := model_name |}.

(** A label matches a requested type when they are equal once both are
    in lower case. *)
Definition matches (label type : str) : Prop := lower type = lower label.

(** The test [redact_text] makes before it takes the manual path. *)
Definition manual (c : Schemas.RedactionConfig) : bool :=
  Redaction.filtering_needed c
  || negb (String.eqb (Schemas.method_value (Schemas.method c)) "replace").

End Configs.

(* ===================================================================== *)
(** ** [document_handler.py]: support test and text extraction *)
(* ===================================================================== *)

Module Extraction.

Import Py.

(** What the extractors and their callers see raised: a [ValueError]
    with its message, or whatever a collaborator raised. *)
Inductive raised : Type :=
| ValueError (msg : str)
| Foreign (e : exn).

(** [str(e)], as it appears in an f-string. *)
Definition message (e : raised) : str :=
  match e with
  | ValueError msg => msg
  | Foreign IndexError => "list index out of range"
  | Foreign (Raised msg) => msg
  end.

(** A computation that returns or raises one of the above. *)
Definition outcome (A : Type) : Type := (A + raised)%type.

Definition returned {A} (a : A) : outcome A := inl a.
Definition raise {A} (e : raised) : outcome A := inr e.

Definition and_then {A B} (c : outcome A) (k : A -> outcome B) : outcome B :=
  match c with
  | inl a => k a
  | inr e => inr e
  end.

(** A call to a collaborator. *)
Definition foreign {A} (r : result A) : outcome A :=
  match r with
  | Ok a => inl a
  | Err e => inr (Foreign e)
  end.

(** [except Exception as e: raise ValueError(f"{prefix}{e}")] *)
Definition reraise_as_value_error {A} (prefix : str) (c : outcome A)
    : outcome A :=
  match c with
  | inl a => inl a
  | inr e => inr (ValueError (String.append prefix (message e)))
  end.

(** The readers the extractors rely on: the text of a page of an
    opened PDF, the paragraph texts of a DOCX package, and the strict
    UTF-8 decoder ([None] when it raises [UnicodeDecodeError]). *)
Record Readers (fitz : Fitz.API) : Type := {
  get_text : Fitz.Document fitz -> nat -> result str;
  paragraph_texts : bytes -> result (list str);
  decode_utf8 : bytes -> option str
}.
Arguments get_text {fitz} _ _ _.
Arguments paragraph_texts {fitz} _ _.
Arguments decode_utf8 {fitz} _ _.

(** [content.decode("latin-1")]: one character per byte; it cannot
    fail. *)
Definition decode_latin1 (content : bytes) : str :=
  string_of_list_ascii (map ascii_of_byte content).

(** [DocumentHandler.SUPPORTED_EXTENSIONS] *)
Definition SUPPORTED_EXTENSIONS : list str :=
  [".pdf"; ".docx"; ".doc"; ".txt"; ".md"].

Definition is_supported (filename : str) : bool :=
  let ext := lower (Pathlib.suffix filename) in
  Redaction.member ext SUPPORTED_EXTENSIONS.

(** [f"--- Page {page_num + 1} ---\n{text}"] *)
Definition page_block (page_num : nat) (text : str) : str :=
  String.append "--- Page "
    (String.append
       (DecimalString.NilZero.string_of_uint (Nat.to_uint (page_num + 1)))
       (String.append " ---" (String newline text))).

Definition blank_line_separator : str :=
  String newline (String newline EmptyString).

Section Extractors.

Variable fitz : Fitz.API.
Variable readers : Readers fitz.

(** The loop over the pages of [_extract_from_pdf]. *)
Fixpoint page_blocks (doc : Fitz.Document fitz) (page_nums : list nat)
    (text_parts : list str) : outcome (list str) :=
  match page_nums with
  | [] => returned text_parts
  | page_num :: rest =>
      and_then (foreign (get_text readers doc page_num)) (fun text =>
      page_blocks doc rest
        (if truthy_str (strip text)
         then text_parts ++ [page_block page_num text]
         else text_parts))
  end.

Definition _extract_from_pdf (content : bytes) : outcome str :=
  reraise_as_value_error "Failed to process PDF: "
    (and_then (foreign (Fitz.open_stream fitz content)) (fun doc =>
     and_then (page_blocks doc (seq 0 (Fitz.page_count fitz doc)) [])
       (fun text_parts =>
     and_then (foreign (Fitz.close fitz doc)) (fun _ =>
     let extracted := String.concat blank_line_separator text_parts in
     if negb (truthy_str (strip extracted)) then
       raise (ValueError
         "No text found in PDF. Scanned documents (images) are not supported.")
     else returned extracted)))).

Definition _extract_from_docx (content : bytes) : outcome str :=
  reraise_as_value_error "Failed to process DOCX: "
    (and_then (foreign (paragraph_texts readers content)) (fun texts =>
     let paragraphs := filter (fun p => truthy_str (strip p)) texts in
     let extracted := String.concat blank_line_separator paragraphs in
     if negb (truthy_str (strip extracted)) then
       raise (ValueError "No text found in DOCX.")
     else returned extracted)).

Definition _extract_from_text (content : bytes) : outcome str :=
  reraise_as_value_error "Failed to process text file: "
    (let text :=
       match decode_utf8 readers content with
       | Some t => t
       | None => decode_latin1 content
       end in
     if negb (truthy_str (strip text)) then raise (ValueError "File is empty.")
     else returned text).

Definition extract_text (file_content : bytes) (filename : str)
    : outcome str :=
  let file_type := DocumentHandler.get_file_type filename in
  if String.eqb file_type "pdf" then _extract_from_pdf file_content
  else if String.eqb file_type "docx" then _extract_from_docx file_content
  else if String.eqb file_type "txt" || String.eqb file_type "md"
  then _extract_from_text file_content
  else raise (ValueError
                (String.append "Unsupported file type: " file_type)).

End Extractors.

(** A text with a character that is not white space. *)
Definition has_content (text : str) : Prop := strip text <> "".

(** A decoder that undoes [encode_utf8]. *)
Definition decodes_what_is_encoded (decode : bytes -> option str) : Prop :=
  forall s, decode (encode_utf8 s) = Some s.

(** No newline among the characters. *)
Definition single_line (s : str) : Prop := ~ In newline (chars_of s).

(** An entity [mark_entity] searches for: its text is not blank. *)
Definition searchable (e : Schemas.EntityInfo) : bool :=
  truthy_str (Schemas.text e) && truthy_str (strip (Schemas.text e)).

End Extraction.

(* ===================================================================== *)
(** ** Concrete readers for the examples *)
(* ===================================================================== *)

Module Readers.

Import Py.

(** A UTF-8 decoder for code points below 256: one byte below 128, two
    bytes (lead 0xC2 or 0xC3) from 128 on; any other sequence is
    refused. *)
Fixpoint decode_two_byte (content : bytes) : option str :=
  match content with
  | [] => Some EmptyString
  | b :: rest =>
      let n := Byte.to_N b in
      if (n <? 128)%N then
        option_map (String (ascii_of_byte b)) (decode_two_byte rest)
      else
        match rest with
        | b2 :: rest' =>
            let m := Byte.to_N b2 in
            if (((n =? 194) || (n =? 195)) && (128 <=? m) && (m <? 192))%N
            then option_map
                   (String (ascii_of_N ((n - 192) * 64 + (m - 128))))
                   (decode_two_byte rest')
            else None
        | [] => None
        end
  end.

(** Readers over the toy renderer: a page reads as its lines, a DOCX
    package as three paragraphs, the second one blank. *)
Definition toy : Extraction.Readers (Examples.toy_fitz false) :=
  {| Extraction.get_text :=
       fun (doc : Fitz.Document (Examples.toy_fitz false)) page_num =>
         Ok (String.concat " " (nth page_num (doc : list (list str)) []));
     Extraction.paragraph_texts := fun content =>
       Ok ["John Doe"; "  "; "Born 1970"];
     Extraction.decode_utf8 := decode_two_byte |}.

End Readers.

(* ===================================================================== *)
(** ** [api/routers/documents.py]: helpers of the document endpoints *)
(* ===================================================================== *)

Module Api.

Import Py.

(** [_parse_entity_types] *)
Definition _parse_entity_types (entity_types : option str)
    : option (list str) :=
  match entity_types with
  | None => None
  | Some s =>
      if negb (truthy_str s) then None
      else Some (map strip
                   (filter (fun t => truthy_str (strip t))
                      (split_on ","%char s)))
  end.

(** [d.get(key, default)] on a dictionary kept as its items in
    insertion order. *)
Fixpoint dict_get {V} (d : list (str * V)) (key : str) (default : V) : V :=
  match d with
  | [] => default
  | (k, v) :: d' => if String.eqb k key then v else dict_get d' key default
  end.

(** [d[key] = value]: the value of a key already there is replaced
    where it stands, a new key goes last. *)
Fixpoint dict_set {V} (d : list (str * V)) (key : str) (value : V)
    : list (str * V) :=
  match d with
  | [] => [(key, value)]
  | (k, v) :: d' =>
      if String.eqb k key then (k, value) :: d'
      else (k, v) :: dict_set d' key value
  end.

(** The table of [_get_content_type]. *)
Definition content_types : list (str * str) :=
  [ ("pdf", "application/pdf");
    ("docx",
     "application/vnd.openxmlformats-officedocument.wordprocessingml.document");
    ("txt", "text/plain");
    ("md", "text/markdown");
    ("json", "application/json") ].

(** [_get_content_type] *)
Definition _get_content_type (filename : str) : str :=
  let ext := lower (last (split_on "."%char filename) "") in
  dict_get content_types ext "application/octet-stream".

(** [schemas.DocumentAnalysisResult] *)
Record DocumentAnalysisResult : Type := {
  filename : str;
  total_entities : Z;
  by_type : list (str * Z);
  all_types : list str
}.

(** [sorted(keys)] for strings: ascending by code points. *)
Fixpoint insert_str (x : str) (l : list str) : list str :=
  match l with
  | [] => [x]
  | y :: l' => if String.leb x y then x :: y :: l' else y :: insert_str x l'
  end.

Fixpoint sorted_str (l : list str) : list str :=
  match l with
  | [] => []
  | x :: l' => insert_str x (sorted_str l')
  end.

(** The loop of [analyze_document] over the extracted entities:
    [stats[e.label] = stats.get(e.label, 0) + 1]. *)
Definition count_label (stats : list (str * Z)) (e : Schemas.EntityInfo)
    : list (str * Z) :=
  dict_set stats (Schemas.label e) (dict_get stats (Schemas.label e) 0 + 1).

(** The result [analyze_document] builds from the entities. *)
Definition analysis (name : str) (entities : list Schemas.EntityInfo)
    : DocumentAnalysisResult :=
  let stats := fold_left count_label entities [] in
  {| filename := name;
     total_entities := Z.of_nat (List.length entities);
     by_type := stats;
     all_types := sorted_str (map fst stats) |}.

(** The number of entities with a given label. *)
Definition occurrences (label : str) (entities : list Schemas.EntityInfo)
    : Z :=
  Z.of_nat (List.length
              (filter (fun e => String.eqb (Schemas.label e) label) entities)).

Fixpoint sum_counts (d : list (str * Z)) : Z :=
  match d with
  | [] => 0
  | (_, v) :: d' => v + sum_counts d'
  end.

(** The configuration [redact_document] builds from its form fields
    ([model] already defaulted, method and format already parsed). *)
Definition form_config (model : str) (confidence_threshold : Q)
    (method : Schemas.RedactionMethod) (include_mapping : bool)
    (output_format : Schemas.OutputFormat) (entity_types : option str)
    : Schemas.RedactionConfig :=
  {| Schemas.model := model;
     Schemas.confidence_threshold := confidence_threshold;
     Schemas.use_smart_merging := true;
     Schemas.method := method;
     Schemas.date_shift_days := None;
     Schemas.entity_types := _parse_entity_types entity_types;
     Schemas.exclude_entity_types := None;
     Schemas.include_mapping := include_mapping;
     Schemas.output_format := output_format;
     Schemas.device := Schemas.AUTO |}.

End Api.

(* ===================================================================== *)
(** ** [cli/redactx/main.py]: the loop of the [batch] command *)
(* ===================================================================== *)

Module Cli.

Import Py.

(** The file system the command reads from and writes to: a state,
    [Path.read_bytes] on the input file and [Path.write_bytes] on a
    name in the output directory; both may raise. *)
Record Files : Type := {
  disk : Type;
  read_bytes : disk -> str -> result bytes;
  write_bytes : disk -> str -> bytes -> result disk
}.

Section Batch.

Variable world : Openmed.Collaborators.
Variable fitz : Fitz.API.
Variable docx : Docx.API.
Variable readers : Extraction.Readers fitz.
Variable files : Files.
Variable service : Redaction.RedactionService.

(** The counters of the loop, with the file system and the calls made
    so far. *)
Record tally : Type := {
  total_entities : Z;
  success : Z;
  failed : Z;
  on_disk : disk files;
  calls : list Openmed.call
}.

(** The configuration the command builds from its options. *)
Definition batch_config (model : str) (confidence : Q)
    (method : Schemas.RedactionMethod) (entity_types : option (list str))
    : Schemas.RedactionConfig :=
  {| Schemas.model := model;
     Schemas.confidence_threshold := confidence;
     Schemas.use_smart_merging := true;
     Schemas.method := method;
     Schemas.date_shift_days := None;
     Schemas.entity_types := entity_types;
     Schemas.exclude_entity_types := None;
     Schemas.include_mapping := false;
     Schemas.output_format := Schemas.SAME;
     Schemas.device := Schemas.AUTO |}.

(** How the body of the [try] ends for one file. *)
Inductive ending : Type := Completed | Skipped | Raised.

(** The body of the [try]: what it leaves behind and how it ends.
    [total_entities] is updated before the document is built and
    written, and keeps its new value if a later step raises. *)
Definition batch_try (config : Schemas.RedactionConfig) (st : tally)
    (file_path : str) : tally * ending :=
  let name := Pathlib.name file_path in
  match read_bytes files (on_disk st) file_path with
  | Err _ => (st, Raised)
  | Ok content =>
      match Extraction.extract_text fitz readers content name with
      | inr _ => (st, Raised)
      | inl text =>
          if negb (truthy_str (strip text)) then (st, Skipped)
          else
            let run := Redaction.redact_text world service text config in
            let st :=
              {| total_entities := total_entities st;
                 success := success st;
                 failed := failed st;
                 on_disk := on_disk st;
                 calls := calls st ++ Openmed.calls run |} in
            match Openmed.outcome run with
            | Err _ => (st, Raised)
            | Ok result =>
                let st :=
                  {| total_entities :=
                       total_entities st + Schemas.entity_count result;
                     success := success st;
                     failed := failed st;
                     on_disk := on_disk st;
                     calls := calls st |} in
                let '(redacted_content, new_filename) :=
                  DocumentHandler.create_redacted_document fitz docx
                    content name (Schemas.result_redacted_text result)
                    None (Some (Schemas.result_entities result))
                    (Schemas.method_value (Schemas.method config)) in
                match write_bytes files (on_disk st) new_filename
                        redacted_content with
                | Err _ => (st, Raised)
                | Ok written =>
                    ({| total_entities := total_entities st;
                        success := success st;
                        failed := failed st;
                        on_disk := written;
                        calls := calls st |}, Completed)
                end
            end
      end
  end.

(** One turn of the loop. *)
Definition batch_file (config : Schemas.RedactionConfig) (st : tally)
    (file_path : str) : tally :=
  if negb (Extraction.is_supported (Pathlib.name file_path)) then st
  else
    match batch_try config st file_path with
    | (st, Completed) =>
        {| total_entities := total_entities st;
           success := success st + 1;
           failed := failed st;
           on_disk := on_disk st;
           calls := calls st |}
    | (st, Skipped) => st
    | (st, Raised) =>
        {| total_entities := total_entities st;
           success := success st;
           failed := failed st + 1;
           on_disk := on_disk st;
           calls := calls st |}
    end.

(** The loop of [batch] over the files found, from counters at zero. *)
Definition batch (config : Schemas.RedactionConfig) (start : disk files)
    (found : list str) : tally :=
  fold_left (batch_file config) found
    {| total_entities := 0; success := 0; failed := 0;
       on_disk := start; calls := [] |}.

(** The files of a list that the loop does not skip for their type. *)
Definition supported (found : list str) : list str :=
  filter (fun file_path => Extraction.is_supported (Pathlib.name file_path))
    found.

(** The entities [redact_text] reports for one file as it stands on
    a disk; nothing when the file cannot be read, extracted or
    redacted. *)
Definition detected (config : Schemas.RedactionConfig) (d : disk files)
    (file_path : str) : Z :=
  match read_bytes files d file_path with
  | Err _ => 0
  | Ok content =>
      match Extraction.extract_text fitz readers content
              (Pathlib.name file_path) with
      | inr _ => 0
      | inl text =>
          match Openmed.outcome
                  (Redaction.redact_text world service text config) with
          | Err _ => 0
          | Ok result => Schemas.entity_count result
          end
      end
  end.

Definition detected_total (config : Schemas.RedactionConfig)
    (d : disk files) (found : list str) : Z :=
  fold_right (fun file_path n => detected config d file_path + n) 0
    (supported found).

End Batch.

(** An output directory that refuses every write. *)
Definition refuses_writes (files : Files) : Prop :=
  forall d name content, exists e, write_bytes files d name content = Err e.

Arguments total_entities {files} _.
Arguments success {files} _.
Arguments failed {files} _.
Arguments on_disk {files} _.
Arguments calls {files} _.

End Cli.

(** A disk for the examples: every file reads as the same bytes, and
    no file can be written. *)
Module Disks.

Definition read_only (content : Py.bytes) : Cli.Files :=
  {| Cli.disk := unit;
     Cli.read_bytes := fun _ _ => Py.Ok content;
     Cli.write_bytes := fun _ _ _ => Py.Err (Py.Raised "read-only") |}.

End Disks.

(* ===================================================================== *)
(** * Properties *)
(* ===================================================================== *)

(** ** Strings and digests *)

Section StringFacts.

Lemma chars_of_join (cs : list ascii) : Py.chars_of (Py.join cs) = cs.
Proof. apply list_ascii_of_string_of_list_ascii. Qed.

Lemma join_chars_of (s : Py.str) : Py.join (Py.chars_of s) = s.
Proof. apply string_of_list_ascii_of_string. Qed.

Lemma length_chars_of (s : Py.str) :
  List.length (Py.chars_of s) = String.length s.
Proof.
  induction s as [|c s IH]; simpl; [reflexivity|].
  now rewrite IH.
Qed.

Lemma len_join (cs : list ascii) :
  Py.len (Py.join cs) = Z.of_nat (List.length cs).
Proof.
  unfold Py.len. rewrite <- length_chars_of, chars_of_join. reflexivity.
Qed.

Lemma chars_of_prefix (k : nat) (s : Py.str) :
  Py.chars_of (Py.prefix k s) = firstn k (Py.chars_of s).
Proof.
  unfold Py.prefix. revert s.
  induction k as [|k IH]; intros [|c s]; simpl; try reflexivity.
  now rewrite IH.
Qed.

Lemma Forall_take {A} (P : A -> Prop) (k : nat) (l : list A) :
  Forall P l -> Forall P (firstn k l).
Proof.
  intros H. revert k.
  induction H as [|x l Hx Hl IH]; intros [|k]; simpl; constructor; auto.
Qed.

Lemma hexdig_is_hex (n : Z) : Spans.is_hex (Hashlib.hexdig n).
Proof.
  unfold Spans.is_hex, Hashlib.hexdig.
  destruct (nth_in_or_default (Z.to_nat n) Hashlib.hex_digits "f"%char)
    as [Hin | Hdef].
  - exact Hin.
  - rewrite Hdef. unfold Hashlib.hex_digits. simpl. tauto.
Qed.

Lemma length_le_bytes (k : nat) (x : Z) :
  List.length (Hashlib.le_bytes k x) = k.
Proof.
  revert x. induction k as [|k IH]; intros x; simpl; [reflexivity|].
  now rewrite IH.
Qed.

Lemma length_digest (msg : Py.bytes) :
  List.length (Hashlib.digest msg) = 16%nat.
Proof.
  unfold Hashlib.digest.
  destruct (Hashlib.md5_state msg) as [[[a b] c] d].
  rewrite !length_app, !length_le_bytes. reflexivity.
Qed.

Lemma length_hex (bs : list Z) :
  List.length (flat_map Hashlib.hex2 bs) = (2 * List.length bs)%nat.
Proof.
  induction bs as [|b bs IH]; simpl; [reflexivity|].
  rewrite IH. lia.
Qed.

Lemma hex_is_hex (bs : list Z) :
  Forall Spans.is_hex (flat_map Hashlib.hex2 bs).
Proof.
  induction bs as [|b bs IH]; simpl; [constructor|].
  constructor; [apply hexdig_is_hex|].
  constructor; [apply hexdig_is_hex|]. exact IH.
Qed.

(** A hexadecimal digest is 32 lower-case hexadecimal digits. *)
Lemma md5_hexdigest_shape (msg : Py.bytes) :
  List.length (Py.chars_of (Hashlib.md5_hexdigest msg)) = 32%nat
  /\ Forall Spans.is_hex (Py.chars_of (Hashlib.md5_hexdigest msg)).
Proof.
  unfold Hashlib.md5_hexdigest.
  fold (Py.join (flat_map Hashlib.hex2 (Hashlib.digest msg))).
  rewrite chars_of_join. split.
  - rewrite length_hex, length_digest. reflexivity.
  - apply hex_is_hex.
Qed.

End StringFacts.

(** The digest is the MD5 of RFC 1321: its test suite, and texts that
    need two blocks or two-byte characters. *)
Example md5_rfc1321_suite :
  Hashlib.md5_hexdigest (Py.encode_utf8 "")
    = "d41d8cd98f00b204e9800998ecf8427e"
  /\ Hashlib.md5_hexdigest (Py.encode_utf8 "a")
    = "0cc175b9c0f1b6a831c399e269772661"
  /\ Hashlib.md5_hexdigest (Py.encode_utf8 "abc")
    = "900150983cd24fb0d6963f7d28e17f72"
  /\ Hashlib.md5_hexdigest (Py.encode_utf8 "message digest")
    = "f96b697d7cb7938d525a2f31aaf161d0"
  /\ Hashlib.md5_hexdigest
       (Py.encode_utf8 (Py.join (repeat "a"%char 60)))
    = "cc7ed669cf88f201c3297c6a91e1d18d"
  /\ Hashlib.md5_hexdigest
       (Py.encode_utf8 (String (ascii_of_N 233) EmptyString))
    = "66ddcd97cfdeabb2f6fb8a999b4bc76f".
Proof. vm_compute. repeat split. Qed.

(** ** [_generate_replacement] and [_redact_manual] on simple inputs *)

Example mask_john :
  Redaction._redact_manual "John Doe" [Examples.john] "mask"
  = "[first_name] Doe".
Proof. vm_compute. reflexivity. Qed.

Example hash_john :
  Redaction._redact_manual "John Doe" [Examples.john] "hash"
  = "61409aa1 Doe".
Proof. vm_compute. reflexivity. Qed.

(** C9.  Redacting with an empty entity list returns the text
    unchanged, for every method: the five of [RedactionMethod] and any
    other method string alike. *)
Theorem redact_manual_no_entities :
  forall (T method : Py.str),
    Redaction._redact_manual T [] method = T.
Proof.
  intros T method. unfold Redaction._redact_manual. simpl.
  apply join_chars_of.
Qed.

(** C7.  For the method "hash" the replacement is the first eight
    characters of the hexadecimal MD5 digest of the entity text: eight
    hexadecimal digits that are the same for any entity carrying that
    text, whatever its label, confidence and offsets. *)
Theorem hash_replacement_is_digest_prefix :
  forall (e : Openmed.PIIEntity),
    let token := Redaction._generate_replacement e "hash" in
    token = Py.prefix 8 (Hashlib.md5_hexdigest
                           (Py.encode_utf8 (Openmed.text e)))
    /\ String.length token = 8%nat
    /\ Forall Spans.is_hex (Py.chars_of token)
    /\ (forall label confidence start end_,
          Redaction._generate_replacement
            {| Openmed.text := Openmed.text e;
               Openmed.label := label;
               Openmed.confidence := confidence;
               Openmed.start := start;
               Openmed.end_ := end_ |} "hash"
          = token).
Proof.
  intros e token.
  assert (Htok : token = Py.prefix 8 (Hashlib.md5_hexdigest
                                        (Py.encode_utf8 (Openmed.text e))))
    by reflexivity.
  destruct (md5_hexdigest_shape (Py.encode_utf8 (Openmed.text e)))
    as [Hlen Hhex].
  split; [exact Htok|]. split; [|split].
  - rewrite <- length_chars_of, Htok, chars_of_prefix.
    rewrite length_firstn, Hlen. reflexivity.
  - rewrite Htok, chars_of_prefix. now apply Forall_take.
  - reflexivity.
Qed.

(** ** The stable descending sort *)

Section SortFacts.

Context {A : Type} (key : A -> Z).

Lemma insert_desc_perm (x : A) (l : list A) :
  Permutation (x :: l) (Py.insert_desc key x l).
Proof.
  induction l as [|y l IH]; simpl; [reflexivity|].
  destruct (key y <=? key x); [reflexivity|].
  apply perm_trans with (y :: x :: l); [apply perm_swap|].
  apply perm_skip, IH.
Qed.

Lemma sorted_desc_perm (l : list A) :
  Permutation l (Py.sorted_desc key l).
Proof.
  induction l as [|x l IH]; simpl; [constructor|].
  eapply perm_trans; [apply perm_skip, IH | apply insert_desc_perm].
Qed.

Lemma insert_desc_sorted (x : A) (l : list A) :
  StronglySorted (Py.key_desc key) l ->
  StronglySorted (Py.key_desc key) (Py.insert_desc key x l).
Proof.
  induction 1 as [|y l Hs IH Hy]; simpl.
  - repeat constructor.
  - destruct (key y <=? key x) eqn:Hc.
    + apply Z.leb_le in Hc.
      constructor; [constructor; assumption|].
      constructor; [exact Hc|].
      eapply Forall_impl; [|exact Hy].
      unfold Py.key_desc. intros z Hz. lia.
    + apply Z.leb_gt in Hc.
      constructor; [exact IH|].
      eapply Permutation_Forall; [apply insert_desc_perm|].
      constructor; [unfold Py.key_desc; lia | exact Hy].
Qed.

Lemma sorted_desc_sorted (l : list A) :
  StronglySorted (Py.key_desc key) (Py.sorted_desc key l).
Proof.
  induction l as [|x l IH]; simpl; [constructor|].
  now apply insert_desc_sorted.
Qed.

(** An element that is at least as large as all the others goes
    first. *)
Lemma insert_desc_first (x : A) (l : list A) :
  Forall (fun y => key y <= key x) l ->
  Py.insert_desc key x l = x :: l.
Proof.
  intros H. destruct H as [|y l Hy Hl]; simpl; [reflexivity|].
  apply Z.leb_le in Hy. now rewrite Hy.
Qed.

Lemma filter_insert_desc (p : A -> bool) (x : A) (l : list A) :
  StronglySorted (Py.key_desc key) l ->
  filter p (Py.insert_desc key x l)
  = if p x then Py.insert_desc key x (filter p l) else filter p l.
Proof.
  induction 1 as [|y l Hs IH Hy].
  - simpl. destruct (p x); reflexivity.
  - cbn [Py.insert_desc].
    destruct (key y <=? key x) eqn:Hc.
    + cbn [filter]. destruct (p x) eqn:Hpx; [|reflexivity].
      symmetry. apply (insert_desc_first x (filter p (y :: l))).
      apply Z.leb_le in Hc.
      apply Forall_forall. intros z Hz.
      apply filter_In in Hz. destruct Hz as [[Hz | Hz] _].
      * subst z. exact Hc.
      * rewrite Forall_forall in Hy. specialize (Hy z Hz).
        unfold Py.key_desc in Hy. lia.
    + cbn [filter]. rewrite IH.
      destruct (p x), (p y); try reflexivity.
      cbn [Py.insert_desc]. now rewrite Hc.
Qed.

(** Selecting before or after sorting gives the same list. *)
Lemma filter_sorted_desc (p : A -> bool) (l : list A) :
  filter p (Py.sorted_desc key l) = Py.sorted_desc key (filter p l).
Proof.
  induction l as [|x l IH]; [reflexivity|].
  cbn [Py.sorted_desc filter].
  rewrite filter_insert_desc by apply sorted_desc_sorted.
  destruct (p x); [cbn [Py.sorted_desc]|]; now rewrite IH.
Qed.

Lemma sorted_desc_equal_keys (k : Z) (l : list A) :
  Forall (fun y => key y = k) l -> Py.sorted_desc key l = l.
Proof.
  induction 1 as [|x l Hx Hl IH]; [reflexivity|].
  cbn [Py.sorted_desc]. rewrite IH.
  apply insert_desc_first.
  eapply Forall_impl; [|exact Hl].
  intros y Hy. simpl in Hy. lia.
Qed.

(** The sort is stable: entries with one key keep their order. *)
Lemma sorted_desc_stable (k : Z) (l : list A) :
  filter (fun y => key y =? k) (Py.sorted_desc key l)
  = filter (fun y => key y =? k) l.
Proof.
  rewrite filter_sorted_desc.
  apply sorted_desc_equal_keys with (k := k).
  apply Forall_forall. intros y Hy.
  apply filter_In in Hy. destruct Hy as [_ Hy].
  now apply Z.eqb_eq in Hy.
Qed.

End SortFacts.

(** ** Slice assignment *)

Section SliceFacts.

Context {A : Type}.

Lemma adjust_index_nonneg (i n : Z) :
  0 <= i -> Py.adjust_index i n = Z.min i n.
Proof.
  intros Hi. unfold Py.adjust_index.
  destruct (Z.ltb_spec i 0); [lia | reflexivity].
Qed.

(** A slice within the list: what is before, the new elements, what
    is after. *)
Lemma slice_assign_inside (l v : list A) (s e : Z) :
  0 <= s <= e -> e <= Z.of_nat (List.length l) ->
  Py.slice_assign l s e v
  = firstn (Z.to_nat s) l ++ v ++ skipn (Z.to_nat e) l.
Proof.
  intros Hse He. unfold Py.slice_assign.
  rewrite !adjust_index_nonneg by lia.
  rewrite (Z.min_l s) by lia. rewrite (Z.min_l e) by lia.
  rewrite Z.max_r by lia. reflexivity.
Qed.

(** Assigning nothing to an empty slice changes nothing, wherever
    the slice is. *)
Lemma slice_assign_nothing (l : list A) (s : Z) :
  0 <= s -> Py.slice_assign l s s [] = l.
Proof.
  intros Hs. unfold Py.slice_assign.
  rewrite Z.max_id. simpl. apply firstn_skipn.
Qed.

(** What lies before the start of the slice is kept. *)
Lemma firstn_slice_assign (k : nat) (l v : list A) (s e : Z) :
  Z.of_nat k <= s -> (k <= List.length l)%nat ->
  firstn k (Py.slice_assign l s e v) = firstn k l.
Proof.
  intros Hks Hkl. unfold Py.slice_assign.
  rewrite (adjust_index_nonneg s) by lia.
  set (lo := Z.to_nat (Z.min s (Z.of_nat (List.length l)))).
  assert (Hlo : (k <= lo)%nat) by (unfold lo; lia).
  rewrite firstn_app, length_firstn.
  replace (k - Nat.min lo (List.length l))%nat with 0%nat by lia.
  rewrite firstn_O, app_nil_r, firstn_firstn.
  now rewrite Nat.min_l by lia.
Qed.

End SliceFacts.

(** ** Pairs of list entries and sums of spans under reordering *)

Section PairFacts.

Context {A : Type} (R : A -> A -> Prop).
Hypothesis R_sym : forall a b, R a b -> R b a.

Lemma ForallOrdPairs_perm (l l' : list A) :
  Permutation l l' -> ForallOrdPairs R l -> ForallOrdPairs R l'.
Proof.
  intros Hp. induction Hp as [|x l l' Hp IH|x y l|l l' l'' _ IH1 _ IH2];
    intros H.
  - exact H.
  - inversion H as [|? ? Hx Hl]; subst.
    constructor; [eapply Permutation_Forall; eauto | auto].
  - inversion H as [|? ? Hy Hrest]; subst.
    inversion Hrest as [|? ? Hx Hl]; subst.
    inversion Hy as [|? ? Hyx Hyl]; subst.
    constructor; [constructor; [apply R_sym; exact Hyx | exact Hx]|].
    constructor; assumption.
  - auto.
Qed.

Lemma ForallOrdPairs_before (l1 l2 : list A) (x : A) :
  ForallOrdPairs R (l1 ++ x :: l2) -> Forall (fun d => R d x) l1.
Proof.
  induction l1 as [|a l1 IH]; simpl; intros H; [constructor|].
  inversion H as [|? ? Ha Hl]; subst.
  constructor; [|auto].
  apply Forall_app in Ha. destruct Ha as [_ Ha].
  now inversion Ha.
Qed.

End PairFacts.

Lemma StronglySorted_before {A} (R : A -> A -> Prop) (l1 l2 : list A) (x : A) :
  StronglySorted R (l1 ++ x :: l2) -> Forall (fun d => R d x) l1.
Proof.
  induction l1 as [|a l1 IH]; simpl; intros H; [constructor|].
  inversion H as [|? ? Hl Ha]; subst.
  constructor; [|auto].
  apply Forall_app in Ha. destruct Ha as [_ Ha].
  now inversion Ha.
Qed.

Lemma not_overlap_sym (a b : Openmed.PIIEntity) :
  ~ Spans.overlap a b -> ~ Spans.overlap b a.
Proof.
  intros H [i [Hb Ha]]. apply H. exists i. split; assumption.
Qed.

(** Two spans that are not empty and do not overlap lie one after the
    other: the one that starts first ends before the other starts. *)
Lemma not_overlap_ordered (a b : Openmed.PIIEntity) :
  ~ Spans.overlap a b ->
  Openmed.start a < Openmed.end_ a ->
  Openmed.start b < Openmed.end_ b ->
  Openmed.start b <= Openmed.start a ->
  Openmed.end_ b <= Openmed.start a.
Proof.
  intros Hno Ha Hb Hba.
  destruct (Z_le_gt_dec (Openmed.end_ b) (Openmed.start a)) as [Hle | Hgt];
    [exact Hle|].
  exfalso. apply Hno. exists (Openmed.start a). lia.
Qed.

Lemma span_sum_perm (l l' : list Openmed.PIIEntity) :
  Permutation l l' -> Spans.span_sum l = Spans.span_sum l'.
Proof.
  induction 1; simpl; lia.
Qed.

(** ** The loop of [_redact_manual] *)

Section ManualRedaction.

Variable txt : Py.str.
Variable method : Py.str.

Let step := Redaction.redact_step (Py.len txt) method.

Lemma redact_step_skipped (chars : list ascii) (e : Openmed.PIIEntity) :
  Spans.skipped txt e = true -> step chars e = chars.
Proof.
  unfold step, Redaction.redact_step, Spans.skipped. now intros ->.
Qed.

Lemma redact_step_applied (chars : list ascii) (e : Openmed.PIIEntity) :
  Spans.skipped txt e = false ->
  step chars e
  = Py.slice_assign chars (Openmed.start e) (Openmed.end_ e)
      (Py.chars_of (Redaction._generate_replacement e method)).
Proof.
  unfold step, Redaction.redact_step, Spans.skipped. now intros ->.
Qed.

Lemma skipped_false (e : Openmed.PIIEntity) :
  0 <= Openmed.start e -> Openmed.end_ e <= Py.len txt ->
  Spans.skipped txt e = false.
Proof.
  intros Hs He. unfold Spans.skipped.
  rewrite Z.gtb_ltb.
  apply orb_false_iff. split; apply Z.ltb_ge; lia.
Qed.

(** The entities the guard rejects can be left out of the loop. *)
Lemma fold_without_skipped (l : list Openmed.PIIEntity) :
  forall chars,
    fold_left step l chars
    = fold_left step (filter (fun e => negb (Spans.skipped txt e)) l) chars.
Proof.
  induction l as [|a l IH]; intros chars; [reflexivity|].
  cbn [fold_left filter].
  destruct (Spans.skipped txt a) eqn:Ha; cbn [negb fold_left].
  - rewrite redact_step_skipped by exact Ha. apply IH.
  - apply IH.
Qed.

(** Entities that start at or after position [k] leave the first [k]
    characters of the buffer as they are. *)
Lemma fold_keeps_prefix (k : nat) (l : list Openmed.PIIEntity) :
  forall chars,
    (k <= List.length chars)%nat ->
    Forall (fun e => Z.of_nat k <= Openmed.start e) l ->
    firstn k (fold_left step l chars) = firstn k chars.
Proof.
  induction l as [|a l IH]; intros chars Hk Hl; [reflexivity|].
  inversion Hl as [|? ? Ha Hl']; subst.
  cbn [fold_left].
  assert (Hstep : firstn k (step chars a) = firstn k chars).
  { destruct (Spans.skipped txt a) eqn:Hsk.
    - now rewrite redact_step_skipped.
    - rewrite redact_step_applied by exact Hsk.
      now apply firstn_slice_assign. }
  assert (Hlen : (k <= List.length (step chars a))%nat).
  { apply (f_equal (@List.length ascii)) in Hstep.
    rewrite !length_firstn in Hstep. lia. }
  rewrite IH by assumption. exact Hstep.
Qed.

End ManualRedaction.

(** ** Removal: the length of the result *)

Section Removal.

Variable txt : Py.str.

Let step := Redaction.redact_step (Py.len txt) "remove".

(** The loop on a list in processing order.  [B] bounds the ends of
    the spans still to come that are not empty, and lies within the
    buffer: every removal so far took place at or after [B]. *)
Lemma remove_fold_length (l : list Openmed.PIIEntity) :
  StronglySorted (Py.key_desc Openmed.start) l ->
  Forall (Spans.in_bounds txt) l ->
  Spans.non_overlapping l ->
  forall (chars : list ascii) (B : Z),
    B <= Z.of_nat (List.length chars) ->
    Forall (fun e => Openmed.start e < Openmed.end_ e ->
                     Openmed.end_ e <= B) l ->
    Z.of_nat (List.length (fold_left step l chars))
    = Z.of_nat (List.length chars) - Spans.span_sum l.
Proof.
  induction 1 as [|a l Hs IH Ha]; intros Hb Hno chars B HB Hend.
  - simpl. lia.
  - inversion Hb as [|? ? Hba Hbl]; subst.
    inversion Hno as [|? ? Hna Hnl]; subst.
    inversion Hend as [|? ? Hea Hel]; subst.
    destruct Hba as [Ha0 [Hase Han]].
    cbn [fold_left Spans.span_sum]. unfold Spans.span_length.
    unfold step at 2.
    rewrite (redact_step_applied txt "remove") by (apply skipped_false; lia).
    change (Py.chars_of (Redaction._generate_replacement a "remove"))
      with (@nil ascii).
    destruct (Z.eq_dec (Openmed.start a) (Openmed.end_ a)) as [Heq | Hne].
    + rewrite <- Heq, slice_assign_nothing by lia.
      rewrite (IH Hbl Hnl chars B HB Hel). lia.
    + assert (Hlt : Openmed.start a < Openmed.end_ a) by lia.
      specialize (Hea Hlt).
      rewrite slice_assign_inside by lia.
      rewrite (IH Hbl Hnl _ (Openmed.start a)).
      * rewrite !length_app, length_firstn, length_skipn. simpl. lia.
      * rewrite !length_app, length_firstn, length_skipn. simpl. lia.
      * rewrite Forall_forall in Ha, Hna |- *.
        intros b Hb' Hbne.
        apply (not_overlap_ordered a b);
          [apply Hna; exact Hb' | exact Hlt | exact Hbne | apply (Ha b Hb')].
Qed.

End Removal.

(** C3.  With the method "remove", on entities that are in bounds and
    do not overlap one another, the result is shorter than the text by
    the total length of the spans. *)
Theorem remove_shortens_by_span_lengths :
  forall (T : Py.str) (E : list Openmed.PIIEntity),
    Forall (Spans.in_bounds T) E ->
    Spans.non_overlapping E ->
    Py.len (Redaction._redact_manual T E "remove")
    = Py.len T - Spans.span_sum E.
Proof.
  intros T E Hb Hno.
  unfold Redaction._redact_manual.
  pose proof (sorted_desc_perm Openmed.start E) as Hperm.
  rewrite len_join.
  rewrite (remove_fold_length T _ (sorted_desc_sorted Openmed.start E))
    with (B := Py.len T).
  - rewrite length_chars_of. rewrite <- (span_sum_perm _ _ Hperm).
    reflexivity.
  - eapply Permutation_Forall; eauto.
  - unfold Spans.non_overlapping.
    apply (ForallOrdPairs_perm _ not_overlap_sym E); assumption.
  - rewrite length_chars_of. unfold Py.len. lia.
  - eapply Permutation_Forall; [exact Hperm|].
    eapply Forall_impl; [|exact Hb].
    intros e [_ [_ He]] _. exact He.
Qed.

Lemma remove_shortens_by_span_lengths_witness :
  let E := [Examples.span "Doe" "last_name" 5 8; Examples.john] in
  Py.len (Redaction._redact_manual "John Doe" E "remove")
  = Py.len "John Doe" - Spans.span_sum E.
Proof.
  apply (remove_shortens_by_span_lengths "John Doe").
  - repeat (apply Forall_cons); try apply Forall_nil;
      unfold Spans.in_bounds, Py.len; simpl; lia.
  - repeat (apply FOP_cons); try apply FOP_nil;
      repeat (apply Forall_cons); try apply Forall_nil;
      intros [i H]; simpl in H; lia.
Defined.

(** ** Entities the guard rejects *)

Lemma redact_manual_without_skipped
    (txt method : Py.str) (E : list Openmed.PIIEntity) :
  Redaction._redact_manual txt E method
  = Redaction._redact_manual txt
      (filter (fun e => negb (Spans.skipped txt e)) E) method.
Proof.
  unfold Redaction._redact_manual.
  rewrite fold_without_skipped, filter_sorted_desc. reflexivity.
Qed.

Lemma redact_manual_drop_skipped
    (txt method : Py.str) (E1 E2 : list Openmed.PIIEntity)
    (e : Openmed.PIIEntity) :
  Spans.skipped txt e = true ->
  Redaction._redact_manual txt (E1 ++ e :: E2) method
  = Redaction._redact_manual txt (E1 ++ E2) method.
Proof.
  intros Hsk.
  rewrite (redact_manual_without_skipped txt method (E1 ++ e :: E2)).
  rewrite (redact_manual_without_skipped txt method (E1 ++ E2)).
  rewrite !filter_app. cbn [filter]. now rewrite Hsk.
Qed.

(** C6, as the code has it.  [_redact_manual] is a total function of
    the text, the entities and the method: no input makes it raise.
    An entity with [start < 0] or [end > len(text)], wherever it
    stands in the list, changes nothing in the output; so does an
    entity with [start > len(text)] whose span is well formed
    ([start <= end]). *)
Theorem rejected_entities_change_nothing :
  forall (txt method : Py.str) (E1 E2 : list Openmed.PIIEntity)
         (e : Openmed.PIIEntity),
    (Openmed.start e < 0 \/ Py.len txt < Openmed.end_ e ->
     Redaction._redact_manual txt (E1 ++ e :: E2) method
     = Redaction._redact_manual txt (E1 ++ E2) method)
    /\ (Py.len txt < Openmed.start e ->
        Openmed.start e <= Openmed.end_ e ->
        Redaction._redact_manual txt (E1 ++ e :: E2) method
        = Redaction._redact_manual txt (E1 ++ E2) method).
Proof.
  intros txt method E1 E2 e.
  assert (Hguard : Openmed.start e < 0 \/ Py.len txt < Openmed.end_ e ->
                   Spans.skipped txt e = true).
  { intros H. unfold Spans.skipped. rewrite Z.gtb_ltb.
    apply orb_true_iff.
    destruct H as [H | H]; [left | right]; apply Z.ltb_lt; exact H. }
  split.
  - intros H. apply redact_manual_drop_skipped. auto.
  - intros Hs Hse. apply redact_manual_drop_skipped, Hguard. right. lia.
Qed.

Lemma rejected_entities_change_nothing_witness :
  let smith := Examples.span "Smith" "last_name" 9 14 in
  (Py.len "John Doe" < Openmed.end_ smith
   /\ Redaction._redact_manual "John Doe" ([Examples.john] ++ smith :: [])
        "mask"
      = Redaction._redact_manual "John Doe" ([Examples.john] ++ []) "mask")
  /\ (Py.len "John Doe" < Openmed.start smith
      /\ Openmed.start smith <= Openmed.end_ smith
      /\ Redaction._redact_manual "John Doe" (smith :: [Examples.john])
           "hash"
         = Redaction._redact_manual "John Doe" [Examples.john] "hash").
Proof.
  intros smith.
  assert (Hend : Py.len "John Doe" < Openmed.end_ smith)
    by (vm_compute; reflexivity).
  assert (Hstart : Py.len "John Doe" < Openmed.start smith)
    by (vm_compute; reflexivity).
  assert (Hspan : Openmed.start smith <= Openmed.end_ smith)
    by (vm_compute; discriminate).
  split.
  - split; [exact Hend|].
    apply (proj1 (rejected_entities_change_nothing "John Doe" "mask"
                    [Examples.john] [] smith)).
    right. exact Hend.
  - split; [exact Hstart|]. split; [exact Hspan|].
    apply (proj2 (rejected_entities_change_nothing "John Doe" "hash"
                    [] [Examples.john] smith)); assumption.
Defined.

(** An entity with [start > len(text)] and a smaller [end] passes the
    guard; its slice is inverted, so the replacement is appended. *)
Lemma entity_past_the_end_is_applied :
  let e := Examples.span "x" "X" 5 2 in
  Py.len "abc" < Openmed.start e
  /\ Spans.skipped "abc" e = false
  /\ Redaction._redact_manual "abc" [e] "mask" = "abc[X]"
  /\ Redaction._redact_manual "abc" [e] "mask"
     <> Redaction._redact_manual "abc" [] "mask".
Proof.
  vm_compute. repeat split; try reflexivity; discriminate.
Qed.

(** ** The order of processing *)

(** C2, as the code has it.  [_redact_manual] returns the buffer
    left by its loop body run over the entities in the order of a
    stable sort on [start], descending: a rearrangement of the input
    in which [start] never increases and entities with the same
    [start] keep their input order, whatever their [end].  When the
    spans are in bounds, not empty and do not overlap, every entity
    finds the buffer unchanged up to its [end] when its turn comes in
    that run: the entities handled before it lie wholly to its right,
    the replacements made for them did not shift it, and the result
    is what the remaining entities make of the buffer once its own
    span is replaced. *)
Theorem processing_order_is_stable_by_start :
  forall (txt method : Py.str) (E : list Openmed.PIIEntity),
    let order := Py.sorted_desc Openmed.start E in
    let step := Redaction.redact_step (Py.len txt) method in
    Redaction._redact_manual txt E method
    = Py.join (fold_left step order (Py.chars_of txt))
    /\ Permutation E order
    /\ StronglySorted (Py.key_desc Openmed.start) order
    /\ (forall k : Z,
          filter (fun e => Openmed.start e =? k) order
          = filter (fun e => Openmed.start e =? k) E)
    /\ (Forall (Spans.proper txt) E ->
        Spans.non_overlapping E ->
        forall done e todo,
          order = done ++ e :: todo ->
          let buffer := fold_left step done (Py.chars_of txt) in
          Forall (fun d => Openmed.end_ e <= Openmed.start d) done
          /\ Spans.unshifted txt buffer e
          /\ Spans.unshifted txt (Spans.buffer_after txt method done) e
          /\ Redaction._redact_manual txt E method
             = Py.join (fold_left step todo (step buffer e))).
Proof.
  intros txt method E order step.
  split; [reflexivity|].
  pose proof (sorted_desc_perm Openmed.start E) as Hperm.
  pose proof (sorted_desc_sorted Openmed.start E) as Hsorted.
  fold order in Hperm, Hsorted.
  split; [exact Hperm|]. split; [exact Hsorted|].
  split; [intros k; apply sorted_desc_stable|].
  intros Hproper Hno done e todo Horder buffer.
  assert (Hrun : Redaction._redact_manual txt E method
                 = Py.join (fold_left step todo (step buffer e))).
  { unfold Redaction._redact_manual. fold order. fold step.
    rewrite Horder, fold_left_app. reflexivity. }
  assert (Hright : Forall (fun d => Openmed.end_ e <= Openmed.start d) done
                   /\ Spans.unshifted txt buffer e);
    [|destruct Hright as [Hright Hkept];
      split; [exact Hright|];
      split; [exact Hkept | split; [exact Hkept | exact Hrun]]].
  clear Hrun.
  assert (Hproper' : Forall (Spans.proper txt) order)
    by (eapply Permutation_Forall; eauto).
  assert (Hno' : Spans.non_overlapping order)
    by (apply (ForallOrdPairs_perm _ not_overlap_sym E); assumption).
  rewrite Horder in Hsorted, Hproper', Hno'.
  apply StronglySorted_before in Hsorted.
  apply ForallOrdPairs_before in Hno'.
  apply Forall_app in Hproper'. destruct Hproper' as [Hdone He].
  inversion He as [|? ? [He0 [Hese Hen]] _]; subst.
  assert (Hright : Forall (fun d => Openmed.end_ e <= Openmed.start d) done).
  { rewrite Forall_forall in Hsorted, Hno', Hdone |- *.
    intros d Hd.
    destruct (Hdone d Hd) as [Hd0 [Hdse Hdn]].
    apply (not_overlap_ordered d e);
      [apply Hno'; exact Hd | exact Hdse | exact Hese | apply (Hsorted d Hd)]. }
  split; [exact Hright|].
  unfold Spans.unshifted, buffer, step.
  apply fold_keeps_prefix.
  - rewrite length_chars_of. unfold Py.len in Hen. lia.
  - rewrite Forall_forall in Hright |- *.
    intros d Hd. rewrite Z2Nat.id by lia. exact (Hright d Hd).
Qed.

Lemma processing_order_is_stable_by_start_witness :
  let doe := Examples.span "Doe" "last_name" 5 8 in
  let E := [Examples.john; doe] in
  let step := Redaction.redact_step (Py.len "John Doe") "mask" in
  Forall (Spans.proper "John Doe") E
  /\ Spans.non_overlapping E
  /\ Py.sorted_desc Openmed.start E = [doe] ++ Examples.john :: []
  /\ Forall (fun d => Openmed.end_ Examples.john <= Openmed.start d) [doe]
  /\ Spans.unshifted "John Doe"
       (fold_left step [doe] (Py.chars_of "John Doe")) Examples.john
  /\ Spans.unshifted "John Doe"
       (Spans.buffer_after "John Doe" "mask" [doe]) Examples.john
  /\ Redaction._redact_manual "John Doe" E "mask"
     = Py.join (fold_left step []
                  (step (fold_left step [doe] (Py.chars_of "John Doe"))
                     Examples.john))
  /\ Redaction._redact_manual "John Doe" E "mask"
     = "[first_name] [last_name]".
Proof.
  intros doe E step.
  assert (Hproper : Forall (Spans.proper "John Doe") E).
  { repeat (apply Forall_cons); try apply Forall_nil;
      unfold Spans.proper, Py.len; simpl; lia. }
  assert (Hno : Spans.non_overlapping E).
  { repeat (apply FOP_cons); try apply FOP_nil;
      repeat (apply Forall_cons); try apply Forall_nil;
      intros [i H]; simpl in H; lia. }
  assert (Horder : Py.sorted_desc Openmed.start E
                   = [doe] ++ Examples.john :: []) by reflexivity.
  split; [exact Hproper|]. split; [exact Hno|]. split; [exact Horder|].
  destruct (proj2 (proj2 (proj2 (proj2
              (processing_order_is_stable_by_start "John Doe" "mask" E))))
              Hproper Hno [doe] Examples.john [] Horder)
    as [Hright [Hkept [Hkept' Hrun]]].
  split; [exact Hright|].
  split; [exact Hkept|]. split; [exact Hkept'|]. split; [exact Hrun|].
  rewrite Hrun. reflexivity.
Defined.

(** Two entities with the same [start], the first with an empty span:
    in bounds and not overlapping, they are processed in input order,
    not larger [end] first, and the insertion made for the first
    shifts the second, whose text then stays in the output. *)
Lemma equal_starts_keep_input_order :
  let txt := "abcdefg" in
  let nothing := Examples.span "" "E" 2 2 in
  let cde := Examples.span "cde" "F" 2 5 in
  let E := [nothing; cde] in
  Forall (Spans.in_bounds txt) E
  /\ Spans.non_overlapping E
  /\ Py.sorted_desc Openmed.start E = [nothing; cde]
  /\ Spans.spec_processing_order E = [cde; nothing]
  /\ Py.sorted_desc Openmed.start E <> Spans.spec_processing_order E
  /\ ~ Spans.unshifted txt (Spans.buffer_after txt "mask" [nothing]) cde
  /\ Redaction._redact_manual txt E "mask" = "ab[F]cdefg".
Proof.
  intros txt nothing cde E.
  split.
  { repeat (apply Forall_cons); try apply Forall_nil;
      unfold Spans.in_bounds, Py.len; simpl; lia. }
  split.
  { repeat (apply FOP_cons); try apply FOP_nil;
      repeat (apply Forall_cons); try apply Forall_nil;
      intros [i H]; simpl in H; lia. }
  split; [reflexivity|]. split; [reflexivity|].
  split; [discriminate|].
  split; [|vm_compute; reflexivity].
  unfold Spans.unshifted. vm_compute. discriminate.
Qed.

(** ** The choice of strategy in [redact_text] *)

Section Strategy.

Variable world : Openmed.Collaborators.
Variable self : Redaction.RedactionService.
Variable txt : Py.str.
Variable config : Schemas.RedactionConfig.

Lemma replace_only_for_REPLACE :
  String.eqb (Schemas.method_value (Schemas.method config)) "replace" = true
  <-> Schemas.method_value (Schemas.method config) = "replace".
Proof. apply String.eqb_eq. Qed.

(** The test of the [if] is false exactly when nothing is filtered
    and the method is "replace". *)
Lemma manual_test_false :
  Redaction.filtering_needed config
  || negb (String.eqb (Schemas.method_value (Schemas.method config))
                      "replace") = false
  <-> (Schemas.entity_types config = None
       /\ Schemas.exclude_entity_types config = None
       /\ Schemas.method_value (Schemas.method config) = "replace").
Proof.
  unfold Redaction.filtering_needed.
  rewrite orb_false_iff, negb_false_iff, replace_only_for_REPLACE.
  destruct (Schemas.entity_types config), (Schemas.exclude_entity_types config);
    intuition congruence.
Qed.

End Strategy.

(** C5.  [redact_text] calls [deidentify] exactly when neither
    [entity_types] nor [exclude_entity_types] is set and the method is
    "replace", and then calls nothing else.  In every other case its
    only call is [extract_pii]; if that raises, so does [redact_text];
    otherwise the detected entities go through [_filter_entities] and
    the text through [_redact_manual] with the entities kept. *)
Theorem redact_text_strategy :
  forall (world : Openmed.Collaborators) (self : Redaction.RedactionService)
         (txt : Py.str) (config : Schemas.RedactionConfig),
    let method := Schemas.method_value (Schemas.method config) in
    let model_name := Redaction.model_name_of self config in
    let run := Redaction.redact_text world self txt config in
    let delegated :=
      Schemas.entity_types config = None
      /\ Schemas.exclude_entity_types config = None
      /\ method = "replace" in
    ((exists kwargs, In (Openmed.CallDeidentify txt kwargs) (Openmed.calls run))
     <-> delegated)
    /\ (delegated ->
        exists kwargs, Openmed.calls run = [Openmed.CallDeidentify txt kwargs])
    /\ (~ delegated ->
        Openmed.calls run
        = [Openmed.CallExtractPii txt model_name
             (Schemas.confidence_threshold config)
             (Schemas.use_smart_merging config)]
        /\ match Openmed.extract_pii world txt model_name
                   (Schemas.confidence_threshold config)
                   (Schemas.use_smart_merging config) with
           | Py.Ok found =>
               let kept :=
                 Redaction._filter_entities (Openmed.entities found)
                   (Schemas.entity_types config)
                   (Schemas.exclude_entity_types config) in
               exists result,
                 Openmed.outcome run = Py.Ok result
                 /\ Schemas.result_redacted_text result
                    = Redaction._redact_manual txt kept method
                 /\ Schemas.result_entities result
                    = map (fun e => Redaction._entity_to_info e None) kept
           | Py.Err e => Openmed.outcome run = Py.Err e
           end).
Proof.
  intros world self txt config method model_name run delegated.
  pose proof (manual_test_false config) as Htest.
  fold method in Htest. fold delegated in Htest.
  assert (Hmanual : ~ delegated ->
    run = (Openmed.iobind
             (Redaction.call_extract_pii world txt model_name
                (Schemas.confidence_threshold config)
                (Schemas.use_smart_merging config))
             (fun found =>
                let kept :=
                  Redaction._filter_entities (Openmed.entities found)
                    (Schemas.entity_types config)
                    (Schemas.exclude_entity_types config) in
                Openmed.ret
                  {| Schemas.original_text := txt;
                     Schemas.result_redacted_text :=
                       Redaction._redact_manual txt kept method;
                     Schemas.result_entities :=
                       map (fun e => Redaction._entity_to_info e None) kept;
                     Schemas.entity_count :=
                       Z.of_nat (List.length
                         (map (fun e => Redaction._entity_to_info e None) kept));
                     Schemas.mapping := None;
                     Schemas.result_method := method;
                     Schemas.result_model := model_name;
                     Schemas.result_confidence_threshold :=
                       Schemas.confidence_threshold config |}))).
  { intros Hnot. unfold run, Redaction.redact_text.
    fold method. fold model_name.
    destruct (Redaction.filtering_needed config
              || negb (String.eqb method "replace")) eqn:Hc;
      [reflexivity|].
    exfalso. apply Hnot, Htest. reflexivity. }
  assert (Hdelegated : delegated ->
    exists kwargs, Openmed.calls run = [Openmed.CallDeidentify txt kwargs]).
  { intros Hd. apply Htest in Hd.
    unfold run, Redaction.redact_text.
    fold method. fold model_name. rewrite Hd.
    eexists. unfold Redaction.call_deidentify, Openmed.iobind, Openmed.calls.
    destruct (Openmed.deidentify world txt _); reflexivity. }
  assert (Hcalls : ~ delegated ->
    Openmed.calls run
    = [Openmed.CallExtractPii txt model_name
         (Schemas.confidence_threshold config)
         (Schemas.use_smart_merging config)]).
  { intros Hnot. rewrite (Hmanual Hnot).
    unfold Redaction.call_extract_pii, Openmed.iobind, Openmed.calls.
    destruct (Openmed.extract_pii world txt _ _ _); reflexivity. }
  split; [|split].
  - split.
    + intros [kwargs Hin].
      destruct (Redaction.filtering_needed config
                || negb (String.eqb method "replace")) eqn:Hc.
      * exfalso.
        assert (Hnot : ~ delegated)
          by (intros Hd; apply Htest in Hd; congruence).
        rewrite (Hcalls Hnot) in Hin.
        destruct Hin as [Hin | []]. discriminate Hin.
      * apply Htest. reflexivity.
    + intros Hd. destruct (Hdelegated Hd) as [kwargs Hk].
      exists kwargs. rewrite Hk. left. reflexivity.
  - exact Hdelegated.
  - intros Hnot. split; [exact (Hcalls Hnot)|].
    rewrite (Hmanual Hnot).
    unfold Redaction.call_extract_pii, Openmed.iobind, Openmed.outcome.
    destruct (Openmed.extract_pii world txt _ _ _) as [found | e]; simpl.
    + eexists. split; [reflexivity|]. split; reflexivity.
    + reflexivity.
Qed.

Lemma redact_text_strategy_witness :
  (exists kwargs,
     Openmed.calls
       (Redaction.redact_text Examples.world Examples.service "John Doe"
          (Examples.config_with Schemas.REPLACE None))
     = [Openmed.CallDeidentify "John Doe" kwargs])
  /\ Openmed.calls
       (Redaction.redact_text Examples.world Examples.service "John Doe"
          (Examples.config_with Schemas.REPLACE (Some ["first_name"])))
     = [Openmed.CallExtractPii "John Doe" Examples.small_model (6 # 10) true]
  /\ Openmed.calls
       (Redaction.redact_text Examples.world Examples.service "John Doe"
          (Examples.config_with Schemas.MASK None))
     = [Openmed.CallExtractPii "John Doe" Examples.small_model (6 # 10) true].
Proof.
  split; [|split].
  - apply (proj1 (proj2
             (redact_text_strategy Examples.world Examples.service "John Doe"
                (Examples.config_with Schemas.REPLACE None)))).
    simpl. repeat split; reflexivity.
  - apply (proj2 (proj2
             (redact_text_strategy Examples.world Examples.service "John Doe"
                (Examples.config_with Schemas.REPLACE (Some ["first_name"]))))).
    simpl. intros [H _]. discriminate H.
  - apply (proj2 (proj2
             (redact_text_strategy Examples.world Examples.service "John Doe"
                (Examples.config_with Schemas.MASK None)))).
    simpl. intros [_ [_ H]]. discriminate H.
Defined.

(** ** The PDF branch of [create_redacted_document] *)

Section PdfBranch.

Variable fitz : Fitz.API.
Variable docx : Docx.API.

(** With the file type "pdf" the handler is [_create_redacted_pdf] on
    the stem of the file name. *)
Lemma create_redacted_document_pdf
    (original_content : Py.bytes) (filename redacted_text : Py.str)
    (output_format : option Py.str)
    (entities : option (list Schemas.EntityInfo)) (method : Py.str) :
  DocumentHandler.effective_file_type filename output_format = "pdf" ->
  DocumentHandler.create_redacted_document fitz docx original_content
    filename redacted_text output_format entities method
  = DocumentHandler._create_redacted_pdf fitz original_content
      redacted_text (Pathlib.stem filename)
      match entities with
      | Some (e :: es) => e :: es
      | _ => []
      end
      method.
Proof.
  intros Hpdf. unfold DocumentHandler.create_redacted_document.
  fold (DocumentHandler.effective_file_type filename output_format).
  rewrite Hpdf. reflexivity.
Qed.

End PdfBranch.

(** C8.  When the file type rendered is "pdf" and no entities are
    given ([None] or an empty list), the handler returns the original
    bytes as they are, named [{stem}_redacted.pdf]; the renderer plays
    no part in the result. *)
Theorem pdf_without_entities_is_returned_unchanged :
  forall (fitz : Fitz.API) (docx : Docx.API)
         (original_content : Py.bytes) (filename redacted_text : Py.str)
         (output_format : option Py.str)
         (entities : option (list Schemas.EntityInfo)) (method : Py.str),
    DocumentHandler.effective_file_type filename output_format = "pdf" ->
    entities = None \/ entities = Some [] ->
    DocumentHandler.create_redacted_document fitz docx original_content
      filename redacted_text output_format entities method
    = (original_content,
       String.append (Pathlib.stem filename) "_redacted.pdf").
Proof.
  intros fitz docx original_content filename redacted_text output_format
         entities method Hpdf Hnone.
  rewrite create_redacted_document_pdf by exact Hpdf.
  destruct Hnone as [-> | ->]; reflexivity.
Qed.

Lemma pdf_without_entities_is_returned_unchanged_witness :
  DocumentHandler.effective_file_type "scans/Report.PDF" None = "pdf"
  /\ DocumentHandler.create_redacted_document (Examples.toy_fitz true)
       Examples.toy_docx Examples.pdf_bytes "scans/Report.PDF" "John Doe"
       None (Some []) "mask"
     = (Examples.pdf_bytes, "Report_redacted.pdf").
Proof.
  split; [reflexivity|].
  apply (pdf_without_entities_is_returned_unchanged (Examples.toy_fitz true)
           Examples.toy_docx Examples.pdf_bytes "scans/Report.PDF" "John Doe"
           None (Some []) "mask").
  - reflexivity.
  - right. reflexivity.
Defined.

(** C1, as the code has it.  When the file type rendered is "pdf" and
    the entity list is not empty, the handler opens the document and
    marks it in place.  If that returns, its output is the result,
    named [{stem}_redacted.pdf]; if it raises, at any point, the result
    is the redacted text encoded as UTF-8 and named
    [{stem}_redacted.txt].  Nothing is raised past the handler. *)
Theorem pdf_marking_failure_gives_text :
  forall (fitz : Fitz.API) (docx : Docx.API)
         (original_content : Py.bytes) (filename redacted_text : Py.str)
         (output_format : option Py.str)
         (e : Schemas.EntityInfo) (es : list Schemas.EntityInfo)
         (method : Py.str),
    DocumentHandler.effective_file_type filename output_format = "pdf" ->
    let stem := Pathlib.stem filename in
    let marking :=
      doc <- Fitz.open_stream fitz original_content ;;
      DocumentHandler.in_place fitz doc stem (e :: es) method in
    let produced :=
      DocumentHandler.create_redacted_document fitz docx original_content
        filename redacted_text output_format (Some (e :: es)) method in
    (forall output name, marking = Py.Ok (output, name) ->
       produced = (output, String.append stem "_redacted.pdf"))
    /\ (forall raised, marking = Py.Err raised ->
          produced = (Py.encode_utf8 redacted_text,
                      String.append stem "_redacted.txt")).
Proof.
  intros fitz docx original_content filename redacted_text output_format
         e es method Hpdf stem marking produced.
  assert (Hproduced : produced =
            match marking with
            | Py.Ok r => r
            | Py.Err _ => (Py.encode_utf8 redacted_text,
                           DocumentHandler.redacted_name stem ".txt")
            end).
  { unfold produced. rewrite create_redacted_document_pdf by exact Hpdf.
    unfold DocumentHandler._create_redacted_pdf, DocumentHandler.pdf_try_body.
    cbn [Py.truthy_list negb]. unfold marking, Py.bind.
    destruct (Fitz.open_stream fitz original_content); reflexivity. }
  split.
  - intros output name Hok. rewrite Hproduced, Hok.
    unfold marking, Py.bind in Hok.
    destruct (Fitz.open_stream fitz original_content) as [doc|];
      [|discriminate].
    unfold DocumentHandler.in_place, Py.bind in Hok.
    destruct (DocumentHandler.for_each _ _ _) as [doc'|]; [|discriminate].
    destruct (Fitz.tobytes fitz doc') as [out|]; [|discriminate].
    destruct (Fitz.close fitz doc'); [|discriminate].
    now inversion Hok.
  - intros raised Herr. rewrite Hproduced, Herr. reflexivity.
Qed.

Lemma pdf_marking_failure_gives_text_witness :
  DocumentHandler.create_redacted_document (Examples.toy_fitz false)
    Examples.toy_docx Examples.pdf_bytes "report.pdf" "[first_name] Doe"
    None (Some [Examples.john_info]) "mask"
  = (Py.encode_utf8 "%PDF", "report_redacted.pdf")
  /\ DocumentHandler.create_redacted_document (Examples.toy_fitz true)
       Examples.toy_docx Examples.pdf_bytes "report.pdf" "[first_name] Doe"
       None (Some [Examples.john_info]) "mask"
     = (Py.encode_utf8 "[first_name] Doe", "report_redacted.txt").
Proof.
  split.
  - apply (proj1 (pdf_marking_failure_gives_text (Examples.toy_fitz false)
                    Examples.toy_docx Examples.pdf_bytes "report.pdf"
                    "[first_name] Doe" None Examples.john_info [] "mask"
                    eq_refl)
             (Py.encode_utf8 "%PDF") "report_redacted.pdf").
    vm_compute. reflexivity.
  - apply (proj2 (pdf_marking_failure_gives_text (Examples.toy_fitz true)
                    Examples.toy_docx Examples.pdf_bytes "report.pdf"
                    "[first_name] Doe" None Examples.john_info [] "mask"
                    eq_refl)
             (Py.Raised "annotation failed")).
    vm_compute. reflexivity.
Defined.

(** A PDF whose marking raises although a reconstruction would have
    gone through: the handler returns the redacted text as a [.txt]
    payload, not a PDF. *)
Lemma pdf_marking_failure_is_not_reconstructed :
  let fitz := Examples.toy_fitz true in
  let entities := [Examples.john_info] in
  let produced :=
    DocumentHandler.create_redacted_document fitz Examples.toy_docx
      Examples.pdf_bytes "report.pdf" "[first_name] Doe" None
      (Some entities) "mask" in
  (doc <- Fitz.open_stream fitz Examples.pdf_bytes ;;
   DocumentHandler.in_place fitz doc "report" entities "mask")
  = Py.Err (Py.Raised "annotation failed")
  /\ DocumentHandler.reconstruct fitz [["John Doe"]] "[first_name] Doe"
       "report"
     = Py.Ok (Py.encode_utf8 "%PDF|[first_name] Doe", "report_redacted.pdf")
  /\ produced = (Py.encode_utf8 "[first_name] Doe", "report_redacted.txt")
  /\ snd produced <> "report_redacted.pdf".
Proof.
  vm_compute. repeat split; discriminate.
Qed.

(** ** The batch loop *)

Section BatchFacts.

Variable world : Openmed.Collaborators.
Variable self : Redaction.RedactionService.
Variable config : Schemas.RedactionConfig.

Lemma outcome_iobind {A B} (c : Openmed.io A) (k : A -> Openmed.io B) :
  Openmed.outcome (Openmed.iobind c k)
  = match Openmed.outcome c with
    | Py.Ok a => Openmed.outcome (k a)
    | Py.Err e => Py.Err e
    end.
Proof.
  destruct c as [log [a | e]]; simpl; [|reflexivity].
  destruct (k a); reflexivity.
Qed.

(** What one iteration does, by what [redact_text] and [ids[i]] do. *)
Lemma outcome_batch_item (ids : list Py.str) (i : nat) (txt : Py.str)
    (st : Redaction.batch_state) :
  Openmed.outcome (Redaction.batch_item world self ids config i txt st)
  = match Openmed.outcome (Redaction.redact_text world self txt config) with
    | Py.Ok result =>
        Py.Ok {| Redaction.acc_results :=
                   Redaction.acc_results st ++ [result];
                 Redaction.acc_failed := Redaction.acc_failed st;
                 Redaction.acc_total_entities :=
                   Redaction.acc_total_entities st
                   + Schemas.entity_count result |}
    | Py.Err _ =>
        match nth_error ids i with
        | Some _ =>
            Py.Ok {| Redaction.acc_results :=
                       Redaction.acc_results st
                       ++ [Redaction.fallback_result txt config];
                     Redaction.acc_failed := Redaction.acc_failed st + 1;
                     Redaction.acc_total_entities :=
                       Redaction.acc_total_entities st |}
        | None => Py.Err Py.IndexError
        end
    end.
Proof.
  unfold Redaction.batch_item, Openmed.try_except.
  destruct (Redaction.redact_text world self txt config)
    as [log [result | e]]; simpl; [reflexivity|].
  unfold Py.index. destruct (nth_error ids i); reflexivity.
Qed.

Lemma batch_item_raises_index_error (ids : list Py.str) (i : nat)
    (txt : Py.str) (st : Redaction.batch_state) (e : Py.exn) :
  Openmed.outcome (Redaction.batch_item world self ids config i txt st)
  = Py.Err e ->
  e = Py.IndexError.
Proof.
  rewrite outcome_batch_item.
  destruct (Openmed.outcome (Redaction.redact_text world self txt config));
    [discriminate|].
  destruct (nth_error ids i); [discriminate|].
  intros H. now inversion H.
Qed.

(** With an id for every index still to come, the loop runs to its
    end and each item contributes on its own. *)
Lemma batch_loop_isolated (ids texts : list Py.str) :
  forall (i : nat) (st : Redaction.batch_state),
    (i + List.length texts <= List.length ids)%nat ->
    Openmed.outcome (Redaction.batch_loop world self ids config i texts st)
    = Py.Ok
        {| Redaction.acc_results :=
             Redaction.acc_results st
             ++ map (Batch.item_result world self config) texts;
           Redaction.acc_failed :=
             Redaction.acc_failed st
             + Batch.count_failed world self config texts;
           Redaction.acc_total_entities :=
             Redaction.acc_total_entities st
             + Batch.sum_entity_count
                 (map (Batch.item_result world self config) texts) |}.
Proof.
  induction texts as [|txt rest IH]; intros i st Hlen.
  - cbn [Redaction.batch_loop map Batch.sum_entity_count].
    unfold Batch.count_failed. cbn [filter List.length].
    destruct st as [rs f t]. simpl.
    rewrite app_nil_r, !Z.add_0_r. reflexivity.
  - cbn [Redaction.batch_loop List.length] in *.
    rewrite outcome_iobind, outcome_batch_item.
    unfold Batch.count_failed.
    cbn [map filter Batch.sum_entity_count].
    unfold Batch.item_result at 1 3, Batch.item_failed at 1.
    destruct (Openmed.outcome
                (Redaction.redact_text world self txt config))
      as [result | e].
    + rewrite IH by lia. cbn [Redaction.acc_results Redaction.acc_failed
                               Redaction.acc_total_entities].
      rewrite <- app_assoc. cbn [app].
      f_equal. f_equal. unfold Batch.count_failed. lia.
    + destruct (nth_error ids i) eqn:Hid.
      * rewrite IH by lia.
        cbn [Redaction.acc_results Redaction.acc_failed
             Redaction.acc_total_entities List.length].
        rewrite <- app_assoc. cbn [app].
        f_equal. f_equal; unfold Batch.count_failed;
          cbn [Redaction.fallback_result Schemas.entity_count]; lia.
      * apply nth_error_None in Hid. lia.
Qed.

(** An item that fails at an index without an id ends the loop with
    an [IndexError], whatever happened before it. *)
Lemma batch_loop_short_ids (ids texts : list Py.str) :
  forall (i k : nat) (st : Redaction.batch_state) (txt : Py.str),
    nth_error texts k = Some txt ->
    (List.length ids <= i + k)%nat ->
    Batch.item_failed world self config txt = true ->
    Openmed.outcome (Redaction.batch_loop world self ids config i texts st)
    = Py.Err Py.IndexError.
Proof.
  induction texts as [|t0 rest IH]; intros i k st txt Hk Hlen Hfail.
  - destruct k; discriminate.
  - cbn [Redaction.batch_loop]. rewrite outcome_iobind.
    destruct k as [|k].
    + simpl in Hk. inversion Hk; subst t0.
      rewrite outcome_batch_item.
      unfold Batch.item_failed in Hfail.
      destruct (Openmed.outcome
                  (Redaction.redact_text world self txt config));
        [discriminate|].
      assert (Hnone : nth_error ids i = None)
        by (apply nth_error_None; lia).
      now rewrite Hnone.
    + simpl in Hk.
      destruct (Openmed.outcome
                  (Redaction.batch_item world self ids config i t0 st))
        as [st' | e] eqn:Hitem.
      * apply (IH (S i) k st' txt Hk); [lia | exact Hfail].
      * now rewrite (batch_item_raises_index_error _ _ _ _ _ Hitem).
Qed.

Lemma length_default_ids (n : nat) :
  List.length (map Redaction.item_id (seq 0 n)) = n.
Proof. now rewrite length_map, length_seq. Qed.

End BatchFacts.

(** C10.  When [ids] is given and an item at an index [i >= len(ids)]
    fails, the handler's [ids[i]] raises [IndexError] and
    [redact_batch] raises it in turn: no result is returned for the
    batch.  When [ids] is [None], or has at least as many entries as
    [texts], [redact_batch] returns: one result per text, in order,
    each the item's own or the fallback when the item failed, with the
    failures counted. *)
Theorem short_ids_abort_the_batch :
  forall (world : Openmed.Collaborators) (self : Redaction.RedactionService)
         (config : Schemas.RedactionConfig) (texts : list Py.str)
         (start_time end_time : Q),
    (forall (ids : list Py.str) (i : nat) (txt : Py.str),
       nth_error texts i = Some txt ->
       (List.length ids <= i)%nat ->
       Batch.item_failed world self config txt = true ->
       Openmed.outcome
         (Redaction.redact_batch world self texts (Some ids) config
            start_time end_time)
       = Py.Err Py.IndexError)
    /\ (forall ids : option (list Py.str),
          (ids = None
           \/ exists l, ids = Some l
                        /\ (List.length texts <= List.length l)%nat) ->
          exists batch,
            Openmed.outcome
              (Redaction.redact_batch world self texts ids config
                 start_time end_time)
            = Py.Ok batch
            /\ Schemas.results batch
               = map (Batch.item_result world self config) texts
            /\ Schemas.total_items batch = Z.of_nat (List.length texts)
            /\ Schemas.failed_items batch
               = Batch.count_failed world self config texts
            /\ Schemas.successful_items batch
               = Schemas.total_items batch - Schemas.failed_items batch
            /\ Schemas.total_entities batch
               = Batch.sum_entity_count (Schemas.results batch)).
Proof.
  intros world self config texts start_time end_time. split.
  - intros ids i txt Hi Hlen Hfail.
    unfold Redaction.redact_batch. rewrite outcome_iobind.
    now rewrite (batch_loop_short_ids world self config ids texts 0 i _ txt).
  - intros ids Hids.
    unfold Redaction.redact_batch. rewrite outcome_iobind.
    rewrite batch_loop_isolated.
    + eexists. split; [reflexivity|]. simpl. repeat split; lia.
    + destruct Hids as [-> | [l [-> Hl]]]; simpl.
      * now rewrite length_default_ids.
      * exact Hl.
Qed.

Lemma short_ids_abort_the_batch_witness :
  let config := Examples.config_with Schemas.MASK None in
  Openmed.outcome
    (Redaction.redact_batch Examples.world Examples.service ["a"; "b"]
       (Some ["first"]) config 0 1)
  = Py.Err Py.IndexError
  /\ exists batch,
       Openmed.outcome
         (Redaction.redact_batch Examples.world Examples.service ["a"; "b"]
            (Some ["first"; "second"]) config 0 1)
       = Py.Ok batch
       /\ Schemas.failed_items batch = 1
       /\ Schemas.successful_items batch = 1.
Proof.
  intros config.
  destruct (short_ids_abort_the_batch Examples.world Examples.service config
              ["a"; "b"] 0 1) as [Habort Hisolated].
  split.
  - apply (Habort ["first"] 1%nat "b").
    + reflexivity.
    + simpl. lia.
    + reflexivity.
  - destruct (Hisolated (Some ["first"; "second"])) as [batch Hbatch].
    + right. exists ["first"; "second"]. split; [reflexivity | simpl; lia].
    + exists batch.
      destruct Hbatch as [Hout [_ [Htotal [Hfailed [Hsucc _]]]]].
      split; [exact Hout|].
      assert (Hone : Schemas.failed_items batch = 1)
        by (rewrite Hfailed; reflexivity).
      split; [exact Hone|].
      rewrite Hsucc, Htotal, Hone. reflexivity.
Defined.

(** C4 on an input the code does not isolate.  Two texts, detection
    failing on the second.  Without [ids] the batch returns one
    success, one failure and the second text unchanged.  With a single
    id the handler of the second item raises [IndexError] and the
    batch returns nothing. *)
Theorem batch_with_one_id_raises :
  let config := Examples.config_with Schemas.MASK None in
  (exists batch,
     Openmed.outcome
       (Redaction.redact_batch Examples.world Examples.service ["a"; "b"]
          None config 0 1)
     = Py.Ok batch
     /\ Schemas.successful_items batch = 1
     /\ Schemas.failed_items batch = 1
     /\ Schemas.total_entities batch = 0
     /\ map Schemas.result_redacted_text (Schemas.results batch)
        = ["a"; "b"]
     /\ map Schemas.entity_count (Schemas.results batch) = [0; 0])
  /\ Batch.item_failed Examples.world Examples.service config "b" = true
  /\ Openmed.outcome
       (Redaction.redact_batch Examples.world Examples.service ["a"; "b"]
          (Some ["first"]) config 0 1)
     = Py.Err Py.IndexError.
Proof.
  intros config. split; [|split].
  - eexists. split; [vm_compute; reflexivity|].
    repeat split; reflexivity.
  - reflexivity.
  - vm_compute. reflexivity.
Qed.

(* ===================================================================== *)
(** * Further properties *)
(* ===================================================================== *)

(** ** The output of [_redact_manual], piece by piece *)

Section SpliceFacts.

Variable txt : Py.str.
Variable method : Py.str.

Let step := Redaction.redact_step (Py.len txt) method.
Let cs := Py.chars_of txt.

Lemma render_upto_snoc (l : list Openmed.PIIEntity) (e : Openmed.PIIEntity) :
  forall pos upto,
    Splice.render_upto method cs pos (l ++ [e]) upto
    = Splice.render_upto method cs pos l (Openmed.start e)
      ++ Py.chars_of (Redaction._generate_replacement e method)
      ++ Splice.between (Openmed.end_ e) upto cs.
Proof.
  induction l as [|a l IH]; intros pos upto; cbn [app Splice.render_upto].
  - reflexivity.
  - rewrite IH, <- !app_assoc. reflexivity.
Qed.

(** One replacement on a buffer that still holds the text up to [B]. *)
Lemma step_on_prefix (B : Z) (R : list ascii) (e : Openmed.PIIEntity) :
  Spans.proper txt e ->
  Openmed.end_ e <= B -> B <= Py.len txt ->
  step (firstn (Z.to_nat B) cs ++ R) e
  = firstn (Z.to_nat (Openmed.start e)) cs
    ++ Py.chars_of (Redaction._generate_replacement e method)
    ++ Splice.between (Openmed.end_ e) B cs ++ R.
Proof.
  intros [Hs [Hse Hen]] HeB HB.
  assert (Hlen : List.length cs = Z.to_nat (Py.len txt)).
  { unfold cs, Py.len. rewrite length_chars_of. lia. }
  unfold step.
  rewrite (redact_step_applied txt method) by (apply skipped_false; lia).
  rewrite slice_assign_inside.
  - rewrite firstn_app, firstn_firstn, length_firstn.
    replace (Nat.min (Z.to_nat (Openmed.start e)) (Z.to_nat B))
      with (Z.to_nat (Openmed.start e)) by lia.
    replace (Z.to_nat (Openmed.start e)
             - Nat.min (Z.to_nat B) (List.length cs))%nat
      with 0%nat by lia.
    rewrite firstn_O, app_nil_r.
    rewrite skipn_app, length_firstn, skipn_firstn_comm.
    replace (Z.to_nat (Openmed.end_ e)
             - Nat.min (Z.to_nat B) (List.length cs))%nat
      with 0%nat by lia.
    cbn [skipn]. unfold Splice.between.
    replace (Z.to_nat (B - Openmed.end_ e))
      with (Z.to_nat B - Z.to_nat (Openmed.end_ e))%nat by lia.
    reflexivity.
  - lia.
  - rewrite length_app, length_firstn. lia.
Qed.

(** The loop on a list in processing order, from a buffer that still
    holds the text up to [B], where no span to come ends after [B]. *)
Lemma fold_renders (l : list Openmed.PIIEntity) :
  StronglySorted (Py.key_desc Openmed.start) l ->
  Forall (Spans.proper txt) l ->
  Spans.non_overlapping l ->
  forall (B : Z) (R : list ascii),
    B <= Py.len txt ->
    Forall (fun e => Openmed.end_ e <= B) l ->
    fold_left step l (firstn (Z.to_nat B) cs ++ R)
    = Splice.render_upto method cs 0 (rev l) B ++ R.
Proof.
  induction 1 as [|a l Hs IH Ha]; intros Hp Hno B R HB Hend.
  - cbn [fold_left rev Splice.render_upto]. unfold Splice.between.
    now rewrite Z.sub_0_r.
  - inversion Hp as [|? ? Hpa Hpl]; subst.
    inversion Hno as [|? ? Hna Hnl]; subst.
    inversion Hend as [|? ? Hea Hel]; subst.
    cbn [fold_left rev].
    rewrite step_on_prefix by assumption.
    rewrite (IH Hpl Hnl (Openmed.start a)).
    + rewrite render_upto_snoc, <- !app_assoc. reflexivity.
    + destruct Hpa as [? [? ?]]. lia.
    + rewrite Forall_forall in Ha, Hna, Hpl |- *.
      intros b Hb. destruct Hpa as [? [? ?]].
      destruct (Hpl b Hb) as [? [? ?]].
      apply (not_overlap_ordered a b);
        [apply Hna; exact Hb | lia | lia | apply (Ha b Hb)].
Qed.

End SpliceFacts.

(** X1.  On entities that are in bounds, not empty and do not overlap,
    [_redact_manual] returns the text read left to right with each
    span replaced by its fragment and everything else copied. *)
Theorem redact_manual_renders_each_span :
  forall (txt method : Py.str) (E : list Openmed.PIIEntity),
    Forall (Spans.proper txt) E ->
    Spans.non_overlapping E ->
    Redaction._redact_manual txt E method = Splice.rendered txt method E.
Proof.
  intros txt method E Hp Hno.
  unfold Redaction._redact_manual, Splice.rendered. f_equal.
  pose proof (sorted_desc_perm Openmed.start E) as Hperm.
  assert (Hp' : Forall (Spans.proper txt) (Py.sorted_desc Openmed.start E))
    by (eapply Permutation_Forall; eauto).
  pose proof (fold_renders txt method _
                (sorted_desc_sorted Openmed.start E) Hp'
                (ForallOrdPairs_perm _ not_overlap_sym E _ Hperm Hno)
                (Py.len txt) []) as H.
  rewrite !app_nil_r in H.
  rewrite <- H.
  - f_equal. rewrite firstn_all2; [reflexivity|].
    rewrite length_chars_of. unfold Py.len. lia.
  - lia.
  - eapply Forall_impl; [|exact Hp']. intros e [_ [_ He]]. exact He.
Qed.

Lemma redact_manual_renders_each_span_witness :
  let E := [Examples.john; Examples.span "Doe" "last_name" 5 8] in
  Redaction._redact_manual "John Doe" E "mask" = Splice.rendered "John Doe" "mask" E
  /\ Splice.rendered "John Doe" "mask" E = "[first_name] [last_name]".
Proof.
  split; [|vm_compute; reflexivity].
  apply (redact_manual_renders_each_span "John Doe" "mask").
  - repeat (apply Forall_cons); try apply Forall_nil;
      unfold Spans.proper, Py.len; simpl; lia.
  - repeat (apply FOP_cons); try apply FOP_nil;
      repeat (apply Forall_cons); try apply Forall_nil;
      intros [i H]; simpl in H; lia.
Defined.

Section SpliceLength.

Variable txt : Py.str.
Variable method : Py.str.

Let step := Redaction.redact_step (Py.len txt) method.
Let cs := Py.chars_of txt.

Lemma length_between (a b : Z) :
  0 <= a <= b -> b <= Py.len txt ->
  Z.of_nat (List.length (Splice.between a b cs)) = b - a.
Proof.
  intros Hab Hb. unfold Splice.between.
  rewrite length_firstn, length_skipn. unfold cs.
  rewrite length_chars_of. unfold Py.len in Hb. lia.
Qed.

Lemma fold_length (l : list Openmed.PIIEntity) :
  StronglySorted (Py.key_desc Openmed.start) l ->
  Forall (Spans.proper txt) l ->
  Spans.non_overlapping l ->
  forall (B : Z) (R : list ascii),
    0 <= B <= Py.len txt ->
    Forall (fun e => Openmed.end_ e <= B) l ->
    Z.of_nat (List.length (fold_left step l (firstn (Z.to_nat B) cs ++ R)))
    = B + Z.of_nat (List.length R)
      - Spans.span_sum l + Splice.fragment_sum method l.
Proof.
  induction 1 as [|a l Hs IH Ha]; intros Hp Hno B R HB Hend.
  - cbn [fold_left Spans.span_sum Splice.fragment_sum].
    rewrite length_app, length_firstn. unfold cs.
    rewrite length_chars_of. unfold Py.len in HB. lia.
  - inversion Hp as [|? ? Hpa Hpl]; subst.
    inversion Hno as [|? ? Hna Hnl]; subst.
    inversion Hend as [|? ? Hea Hel]; subst.
    pose proof Hpa as [Ha0 [Hase Han]].
    cbn [fold_left Spans.span_sum Splice.fragment_sum].
    unfold step at 2. rewrite step_on_prefix by (assumption || lia).
    fold step. rewrite (IH Hpl Hnl (Openmed.start a)).
    + rewrite !length_app.
      rewrite !Nat2Z.inj_add, length_between by lia.
      rewrite length_chars_of. unfold Py.len, Spans.span_length. lia.
    + lia.
    + rewrite Forall_forall in Ha, Hna, Hpl |- *.
      intros b Hb. destruct (Hpl b Hb) as [? [? ?]].
      apply (not_overlap_ordered a b);
        [apply Hna; exact Hb | lia | lia | apply (Ha b Hb)].
Qed.

End SpliceLength.

Lemma fragment_sum_perm (method : Py.str) (l l' : list Openmed.PIIEntity) :
  Permutation l l' ->
  Splice.fragment_sum method l = Splice.fragment_sum method l'.
Proof.
  induction 1; simpl; lia.
Qed.

(** X2.  On entities that are in bounds, not empty and do not overlap,
    and for every method, the length of the result is the length of
    the text, less the lengths of the spans, plus the lengths of the
    fragments put in their place. *)
Theorem redact_manual_length :
  forall (txt method : Py.str) (E : list Openmed.PIIEntity),
    Forall (Spans.proper txt) E ->
    Spans.non_overlapping E ->
    Py.len (Redaction._redact_manual txt E method)
    = Py.len txt - Spans.span_sum E + Splice.fragment_sum method E.
Proof.
  intros txt method E Hp Hno.
  unfold Redaction._redact_manual.
  pose proof (sorted_desc_perm Openmed.start E) as Hperm.
  assert (Hp' : Forall (Spans.proper txt) (Py.sorted_desc Openmed.start E))
    by (eapply Permutation_Forall; eauto).
  pose proof (fold_length txt method _
                (sorted_desc_sorted Openmed.start E) Hp'
                (ForallOrdPairs_perm _ not_overlap_sym E _ Hperm Hno)
                (Py.len txt) []) as H.
  rewrite app_nil_r, firstn_all2 in H
    by (rewrite length_chars_of; unfold Py.len; lia).
  rewrite len_join, H.
  - rewrite <- (span_sum_perm _ _ Hperm), <- (fragment_sum_perm _ _ _ Hperm).
    simpl. lia.
  - unfold Py.len. lia.
  - eapply Forall_impl; [|exact Hp']. intros e [_ [_ He]]. exact He.
Qed.

Lemma redact_manual_length_witness :
  let E := [Examples.john; Examples.span "Doe" "last_name" 5 8] in
  Py.len (Redaction._redact_manual "John Doe" E "hash")
  = Py.len "John Doe" - Spans.span_sum E + Splice.fragment_sum "hash" E
  /\ Py.len "John Doe" - Spans.span_sum E + Splice.fragment_sum "hash" E = 17.
Proof.
  split; [|vm_compute; reflexivity].
  apply (redact_manual_length "John Doe" "hash").
  - repeat (apply Forall_cons); try apply Forall_nil;
      unfold Spans.proper, Py.len; simpl; lia.
  - repeat (apply FOP_cons); try apply FOP_nil;
      repeat (apply Forall_cons); try apply Forall_nil;
      intros [i H]; simpl in H; lia.
Defined.

(** ** The order in which the detector lists the entities *)

Section OrderFacts.

Context {A : Type} (key : A -> Z).

Lemma insert_desc_comm (x y : A) (l : list A) :
  key x <> key y ->
  Py.insert_desc key x (Py.insert_desc key y l)
  = Py.insert_desc key y (Py.insert_desc key x l).
Proof.
  intros Hxy. induction l as [|z l IH]; cbn [Py.insert_desc].
  - destruct (Z.leb_spec (key y) (key x)), (Z.leb_spec (key x) (key y));
      (reflexivity || lia).
  - destruct (Z.leb_spec (key z) (key y)) as [Hzy | Hzy],
             (Z.leb_spec (key z) (key x)) as [Hzx | Hzx];
      cbn [Py.insert_desc].
    + destruct (Z.leb_spec (key y) (key x)), (Z.leb_spec (key x) (key y));
        try lia.
      * cbn [Py.insert_desc].
        destruct (Z.leb_spec (key z) (key y)); [reflexivity | lia].
      * cbn [Py.insert_desc].
        destruct (Z.leb_spec (key z) (key x)); [reflexivity | lia].
    + destruct (Z.leb_spec (key y) (key x)); [lia|].
      destruct (Z.leb_spec (key z) (key x)); [lia|].
      destruct (Z.leb_spec (key z) (key y)); [reflexivity | lia].
    + destruct (Z.leb_spec (key x) (key y)); [lia|].
      destruct (Z.leb_spec (key z) (key y)); [lia|].
      destruct (Z.leb_spec (key z) (key x)); [reflexivity | lia].
    + destruct (Z.leb_spec (key z) (key x)); [lia|].
      destruct (Z.leb_spec (key z) (key y)); [lia|].
      now rewrite IH.
Qed.

(** Lists with pairwise distinct keys that are rearrangements of one
    another sort to the same list. *)
Lemma sorted_desc_of_perm (l l' : list A) :
  Permutation l l' ->
  ForallOrdPairs (fun a b => key a <> key b) l ->
  Py.sorted_desc key l = Py.sorted_desc key l'.
Proof.
  intros Hp.
  induction Hp as [|x l l' Hp IH|x y l|l l' l'' Hp1 IH1 Hp2 IH2]; intros Hd.
  - reflexivity.
  - inversion Hd; subst. cbn [Py.sorted_desc]. now rewrite IH.
  - inversion Hd as [|? ? Hy _]; subst. inversion Hy; subst.
    cbn [Py.sorted_desc]. now apply insert_desc_comm.
  - rewrite IH1 by exact Hd. apply IH2.
    apply (ForallOrdPairs_perm (fun a b => key a <> key b)) with (l := l);
      [intros a b H; congruence | exact Hp1 | exact Hd].
Qed.

End OrderFacts.

(** X3.  When no two entities start at the same offset, the result of
    [_redact_manual] does not depend on the order in which the
    entities are listed. *)
Theorem redact_manual_ignores_input_order :
  forall (txt method : Py.str) (E E' : list Openmed.PIIEntity),
    Permutation E E' ->
    Splice.distinct_starts E ->
    Redaction._redact_manual txt E method
    = Redaction._redact_manual txt E' method.
Proof.
  intros txt method E E' Hperm Hd.
  unfold Redaction._redact_manual.
  now rewrite (sorted_desc_of_perm Openmed.start E E' Hperm Hd).
Qed.

Lemma redact_manual_ignores_input_order_witness :
  let doe := Examples.span "Doe" "last_name" 5 8 in
  Redaction._redact_manual "John Doe" [Examples.john; doe] "mask"
  = Redaction._redact_manual "John Doe" [doe; Examples.john] "mask".
Proof.
  intros doe.
  apply (redact_manual_ignores_input_order "John Doe" "mask").
  - apply perm_swap.
  - repeat (apply FOP_cons); try apply FOP_nil;
      repeat (apply Forall_cons); try apply Forall_nil; simpl; lia.
Defined.

(** ** Methods without a fragment of their own *)

Lemma generate_replacement_masks (e : Openmed.PIIEntity) (method : Py.str) :
  method <> "remove" -> method <> "hash" ->
  Redaction._generate_replacement e method = Redaction.mask_fragment e.
Proof.
  intros Hr Hh. unfold Redaction._generate_replacement.
  apply String.eqb_neq in Hr. apply String.eqb_neq in Hh.
  rewrite Hr, Hh.
  destruct (String.eqb method "mask"), (String.eqb method "replace");
    reflexivity.
Qed.

Lemma fold_left_pointwise {A B} (f g : A -> B -> A) (l : list B) :
  (forall a b, f a b = g a b) ->
  forall a, fold_left f l a = fold_left g l a.
Proof.
  intros Hfg. induction l as [|b l IH]; intros a; simpl; [reflexivity|].
  now rewrite Hfg, IH.
Qed.

Lemma redact_manual_masks
    (txt method : Py.str) (E : list Openmed.PIIEntity) :
  method <> "remove" -> method <> "hash" ->
  Redaction._redact_manual txt E method
  = Redaction._redact_manual txt E "mask".
Proof.
  intros Hr Hh. unfold Redaction._redact_manual. f_equal.
  apply fold_left_pointwise. intros chars e.
  unfold Redaction.redact_step.
  rewrite (generate_replacement_masks e method Hr Hh).
  reflexivity.
Qed.

Lemma manual_path_of_redact_text
    (world : Openmed.Collaborators) (self : Redaction.RedactionService)
    (txt : Py.str) (c : Schemas.RedactionConfig) :
  Configs.manual c = true ->
  Redaction.redact_text world self txt c
  = (found <~ Redaction.call_extract_pii world txt
                (Redaction.model_name_of self c)
                (Schemas.confidence_threshold c)
                (Schemas.use_smart_merging c) ;;
     let kept :=
       Redaction._filter_entities (Openmed.entities found)
         (Schemas.entity_types c) (Schemas.exclude_entity_types c) in
     let final := map (fun e => Redaction._entity_to_info e None) kept in
     Openmed.ret
       {| Schemas.original_text := txt;
          Schemas.result_redacted_text :=
            Redaction._redact_manual txt kept
              (Schemas.method_value (Schemas.method c));
          Schemas.result_entities := final;
          Schemas.entity_count := Z.of_nat (List.length final);
          Schemas.mapping := None;
          Schemas.result_method := Schemas.method_value (Schemas.method c);
          Schemas.result_model := Redaction.model_name_of self c;
          Schemas.result_confidence_threshold :=
            Schemas.confidence_threshold c |}).
Proof.
  unfold Configs.manual, Redaction.redact_text. now intros ->.
Qed.

Lemma delegated_path_of_redact_text
    (world : Openmed.Collaborators) (self : Redaction.RedactionService)
    (txt : Py.str) (c : Schemas.RedactionConfig) :
  Configs.manual c = false ->
  Redaction.redact_text world self txt c
  = (result <~ Redaction.call_deidentify world txt
                 {| Openmed.kw_method := "replace";
                    Openmed.kw_model_name := Redaction.model_name_of self c;
                    Openmed.kw_confidence_threshold :=
                      Schemas.confidence_threshold c;
                    Openmed.kw_use_smart_merging :=
                      Schemas.use_smart_merging c;
                    Openmed.kw_date_shift_days := None;
                    Openmed.kw_keep_mapping :=
                      if Schemas.include_mapping c then Some true
                      else None |} ;;
     let entities :=
       map (fun e => Redaction._entity_to_info (Openmed.entity e)
                       (Openmed.entity_redacted_text e))
           (Redaction.entities_raw result) in
     Openmed.ret
       {| Schemas.original_text := txt;
          Schemas.result_redacted_text := Openmed.deidentified_text result;
          Schemas.result_entities := entities;
          Schemas.entity_count := Z.of_nat (List.length entities);
          Schemas.mapping :=
            if Schemas.include_mapping c then
              match Openmed.attr_mapping result with
              | Some (p :: ps) => Some (p :: ps)
              | _ => None
              end
            else None;
          Schemas.result_method := "replace";
          Schemas.result_model := Redaction.model_name_of self c;
          Schemas.result_confidence_threshold :=
            Schemas.confidence_threshold c |}).
Proof.
  unfold Configs.manual, Redaction.redact_text. intros H. rewrite H.
  apply orb_false_iff in H. destruct H as [_ H].
  apply negb_false_iff, String.eqb_eq in H. rewrite H. reflexivity.
Qed.

(** X4.  With the method "shift_dates", and with the method "replace"
    when a label filter is set, [redact_text] makes the same call and
    returns the same redacted text and entities as with the method
    "mask": no dates are shifted and no synthetic values are made,
    the spans get the placeholder [[label]]. *)
Theorem shift_dates_and_filtered_replace_mask :
  forall (world : Openmed.Collaborators) (self : Redaction.RedactionService)
         (txt : Py.str) (c : Schemas.RedactionConfig),
    Schemas.method c = Schemas.SHIFT_DATES
    \/ (Schemas.method c = Schemas.REPLACE
        /\ Redaction.filtering_needed c = true) ->
    let run := Redaction.redact_text world self txt c in
    let masked :=
      Redaction.redact_text world self txt
        (Configs.with_method c Schemas.MASK) in
    Openmed.calls run = Openmed.calls masked
    /\ match Openmed.outcome run, Openmed.outcome masked with
       | Py.Ok r, Py.Ok r' =>
           Schemas.result_redacted_text r = Schemas.result_redacted_text r'
           /\ Schemas.result_entities r = Schemas.result_entities r'
           /\ Schemas.mapping r = None
       | Py.Err e, Py.Err e' => e = e'
       | _, _ => False
       end.
Proof.
  intros world self txt c Hm run masked.
  assert (Hrun : Configs.manual c = true).
  { unfold Configs.manual.
    destruct Hm as [Hm | [Hm Hf]]; rewrite ?Hm, ?Hf; simpl;
      [apply orb_true_r | reflexivity]. }
  assert (Hmasked : Configs.manual (Configs.with_method c Schemas.MASK) = true).
  { unfold Configs.manual. simpl. apply orb_true_r. }
  unfold run, masked.
  rewrite (manual_path_of_redact_text world self txt c Hrun).
  rewrite (manual_path_of_redact_text world self txt _ Hmasked).
  unfold Redaction.call_extract_pii, Redaction.model_name_of.
  cbn [Configs.with_method Schemas.model Schemas.confidence_threshold
       Schemas.use_smart_merging Schemas.entity_types
       Schemas.exclude_entity_types Schemas.method Schemas.method_value].
  destruct (Openmed.extract_pii world txt _ _ _) as [found | e];
    cbn [Openmed.iobind Openmed.ret Openmed.calls Openmed.outcome fst snd
         Schemas.result_redacted_text Schemas.result_entities Schemas.mapping].
  - split; [reflexivity|]. split; [|split; reflexivity].
    apply redact_manual_masks;
      destruct Hm as [Hm | [Hm _]]; rewrite Hm; discriminate.
  - split; reflexivity.
Qed.

Lemma shift_dates_and_filtered_replace_mask_witness :
  let c := Examples.config_with Schemas.SHIFT_DATES None in
  Schemas.method c = Schemas.SHIFT_DATES
  /\ Openmed.calls
       (Redaction.redact_text Examples.world Examples.service "John Doe" c)
     = Openmed.calls
         (Redaction.redact_text Examples.world Examples.service "John Doe"
            (Configs.with_method c Schemas.MASK))
  /\ exists r,
       Openmed.outcome
         (Redaction.redact_text Examples.world Examples.service "John Doe" c)
       = Py.Ok r
       /\ Schemas.result_redacted_text r = "[first_name] Doe".
Proof.
  intros c. split; [reflexivity|]. split.
  - apply (shift_dates_and_filtered_replace_mask Examples.world
             Examples.service "John Doe" c).
    left. reflexivity.
  - eexists. split; vm_compute; reflexivity.
Defined.

(** ** [_filter_entities] *)

Section FilterFacts.

Lemma member_lower (label : Py.str) (types : list Py.str) :
  Redaction.member (Py.lower label) (map Py.lower types) = true
  <-> exists t, In t types /\ Configs.matches label t.
Proof.
  unfold Redaction.member, Configs.matches. rewrite existsb_exists. split.
  - intros [x [Hx Heq]]. apply in_map_iff in Hx.
    destruct Hx as [t [Ht Hin]]. exists t. split; [exact Hin|].
    apply String.eqb_eq in Heq. congruence.
  - intros [t [Hin Heq]]. exists (Py.lower t). split.
    + now apply in_map.
    + apply String.eqb_eq. congruence.
Qed.

Lemma filter_twice {A} (p q : A -> bool) (l : list A) :
  filter q (filter p l) = filter (fun x => p x && q x) l.
Proof.
  induction l as [|x l IH]; simpl; [reflexivity|].
  destruct (p x); simpl; [destruct (q x)|]; now rewrite IH.
Qed.

(** The two stages as one selection. *)
Lemma filter_entities_as_filter
    (E : list Openmed.PIIEntity) (inc exc : option (list Py.str)) :
  Redaction._filter_entities E inc exc
  = filter
      (fun e =>
         (negb (Redaction.truthy_opt inc)
          || Redaction.member (Py.lower (Openmed.label e))
               (map Py.lower (Redaction.types_of inc)))
         && (negb (Redaction.truthy_opt exc)
             || negb (Redaction.member (Py.lower (Openmed.label e))
                        (map Py.lower (Redaction.types_of exc))))) E.
Proof.
  unfold Redaction._filter_entities.
  destruct (Redaction.truthy_opt inc), (Redaction.truthy_opt exc);
    cbn [negb orb].
  - apply filter_twice.
  - apply filter_ext. intros e. now rewrite andb_true_r.
  - reflexivity.
  - induction E as [|e E IH]; cbn in *; [reflexivity | now f_equal].
Qed.

End FilterFacts.

(** X5.  [_filter_entities] keeps an entity exactly when its label
    matches one of the included types, if any are given, and matches
    none of the excluded types; labels and types are compared without
    regard to case.  An include list that is [None] or empty keeps
    every label, and a label that is both included and excluded is
    dropped. *)
Theorem filter_entities_keeps_matching_labels :
  forall (E : list Openmed.PIIEntity) (inc exc : option (list Py.str))
         (e : Openmed.PIIEntity),
    In e (Redaction._filter_entities E inc exc)
    <-> In e E
        /\ (Redaction.types_of inc = []
            \/ exists t, In t (Redaction.types_of inc)
                         /\ Configs.matches (Openmed.label e) t)
        /\ (forall t, In t (Redaction.types_of exc) ->
                      ~ Configs.matches (Openmed.label e) t).
Proof.
  intros E inc exc e.
  rewrite filter_entities_as_filter, filter_In, andb_true_iff, !orb_true_iff.
  rewrite !negb_true_iff, member_lower.
  assert (Hinc : Redaction.truthy_opt inc = false
                 <-> Redaction.types_of inc = []).
  { destruct inc as [[|x l]|]; simpl; split; intros H;
      (reflexivity || discriminate). }
  assert (Hexc : Redaction.truthy_opt exc = false ->
                 Redaction.types_of exc = []).
  { destruct exc as [[|x l]|]; simpl; intros H;
      (reflexivity || discriminate). }
  rewrite Hinc. split.
  - intros [Hin [Hi He]]. split; [exact Hin|]. split; [exact Hi|].
    intros t Ht Hm. destruct He as [He | He].
    + rewrite (Hexc He) in Ht. destruct Ht.
    + assert (Hmem : Redaction.member (Py.lower (Openmed.label e))
                       (map Py.lower (Redaction.types_of exc)) = true)
        by (apply member_lower; eauto).
      congruence.
  - intros [Hin [Hi He]]. split; [exact Hin|]. split; [exact Hi|].
    right.
    destruct (Redaction.member (Py.lower (Openmed.label e))
                (map Py.lower (Redaction.types_of exc))) eqn:Hmem;
      [|reflexivity].
    apply member_lower in Hmem. destruct Hmem as [t [Ht Hm]].
    exfalso. exact (He t Ht Hm).
Qed.

(** X6.  [_filter_entities] keeps the entities it keeps in their input
    order and with their multiplicity (it is a selection by a test on
    the entity alone), and filtering twice with the same lists is the
    same as filtering once. *)
Theorem filter_entities_selects_in_order :
  forall (E : list Openmed.PIIEntity) (inc exc : option (list Py.str)),
    (exists keep : Openmed.PIIEntity -> bool,
       forall E', Redaction._filter_entities E' inc exc = filter keep E')
    /\ Redaction._filter_entities
         (Redaction._filter_entities E inc exc) inc exc
       = Redaction._filter_entities E inc exc.
Proof.
  intros E inc exc. split.
  - eexists. intros E'. apply filter_entities_as_filter.
  - rewrite !filter_entities_as_filter, filter_twice.
    apply filter_ext. intros e. apply andb_diag.
Qed.

Lemma filter_entities_keeps_matching_labels_witness :
  let ssn := Examples.span "123-45-6789" "SSN" 9 20 in
  In ssn (Redaction._filter_entities [Examples.john; ssn]
            (Some ["ssn"; "email"]) (Some [])).
Proof.
  intros ssn.
  apply (proj2 (filter_entities_keeps_matching_labels
                  [Examples.john; ssn] (Some ["ssn"; "email"]) (Some [])
                  ssn)).
  split; [right; left; reflexivity|]. split.
  - right. exists "ssn". split; [left; reflexivity | reflexivity].
  - intros t [].
Defined.

(** ** What [redact_text] depends on *)

Section FrameFacts.

Variable txt : Py.str.

Lemma manual_same (c c' : Schemas.RedactionConfig) :
  Configs.same_detection_settings c c' ->
  Configs.manual c = Configs.manual c'.
Proof.
  intros [_ [_ [_ [Hm [Hi [He _]]]]]].
  unfold Configs.manual, Redaction.filtering_needed.
  now rewrite Hm, Hi, He.
Qed.

Lemma model_name_same (self : Redaction.RedactionService)
    (c c' : Schemas.RedactionConfig) :
  Configs.same_detection_settings c c' ->
  Redaction.model_name_of self c = Redaction.model_name_of self c'.
Proof.
  intros [Hm _]. unfold Redaction.model_name_of. now rewrite Hm.
Qed.

End FrameFacts.

(** X7.  [redact_text] reads neither [date_shift_days], nor
    [output_format], nor [device], nor what [torch] reports: two
    configurations that agree on the other fields give the same calls
    and the same result.  In particular the number of days set for
    "shift_dates" reaches no collaborator. *)
Theorem redact_text_ignores_shift_days_and_device :
  forall (world world' : Openmed.Collaborators)
         (self : Redaction.RedactionService) (txt : Py.str)
         (c c' : Schemas.RedactionConfig),
    Configs.same_openmed world world' ->
    Configs.same_detection_settings c c' ->
    Redaction.redact_text world self txt c
    = Redaction.redact_text world' self txt c'.
Proof.
  intros world world' self txt c c' [Hx Hd] Hsame.
  pose proof (manual_same c c' Hsame) as Hman.
  pose proof (model_name_same self c c' Hsame) as Hname.
  destruct Hsame as [_ [Ht [Hs [Hm [Hi [He Hmap]]]]]].
  destruct (Configs.manual c) eqn:Hc.
  - rewrite (manual_path_of_redact_text world self txt c Hc).
    rewrite (manual_path_of_redact_text world' self txt c') by congruence.
    unfold Redaction.call_extract_pii.
    now rewrite Hx, Hname, Ht, Hs, Hm, Hi, He.
  - rewrite (delegated_path_of_redact_text world self txt c Hc).
    rewrite (delegated_path_of_redact_text world' self txt c') by congruence.
    unfold Redaction.call_deidentify.
    now rewrite Hd, Hname, Ht, Hs, Hmap.
Qed.

Lemma redact_text_ignores_shift_days_and_device_witness :
  let c := Examples.config_with Schemas.SHIFT_DATES None in
  let c' :=
    {| Schemas.model := Schemas.model c;
       Schemas.confidence_threshold := Schemas.confidence_threshold c;
       Schemas.use_smart_merging := Schemas.use_smart_merging c;
       Schemas.method := Schemas.SHIFT_DATES;
       Schemas.date_shift_days := Some 180;
       Schemas.entity_types := None;
       Schemas.exclude_entity_types := None;
       Schemas.include_mapping := false;
       Schemas.output_format := Schemas.JSON;
       Schemas.device := Schemas.CUDA |} in
  Redaction.redact_text Examples.world Examples.service "John Doe" c
  = Redaction.redact_text Examples.world Examples.service "John Doe" c'.
Proof.
  intros c c'.
  apply (redact_text_ignores_shift_days_and_device Examples.world
           Examples.world Examples.service "John Doe" c c').
  - split; reflexivity.
  - repeat split; reflexivity.
Defined.

Lemma iobind_pointwise {A B} (c : Openmed.io A) (k k' : A -> Openmed.io B) :
  (forall a, k a = k' a) -> Openmed.iobind c k = Openmed.iobind c k'.
Proof.
  intros H. destruct c as [log [a | e]]; simpl; [|reflexivity].
  now rewrite H.
Qed.

(** X8.  The active model of the service is used only for a
    configuration whose [model] is the empty string: with any other
    configuration, [set_active_model] changes nothing in what
    [redact_text], [extract_entities] and [redact_batch] call and
    return; with an empty [model] the model named in the call is the
    active one. *)
Theorem active_model_only_for_empty_model :
  forall (world : Openmed.Collaborators) (self : Redaction.RedactionService)
         (model_name : Py.str) (c : Schemas.RedactionConfig),
    (Schemas.model c <> "" ->
     forall txt texts ids start_time end_time,
       Redaction.redact_text world
         (Configs.set_active_model self model_name) txt c
       = Redaction.redact_text world self txt c
       /\ Redaction.extract_entities world
            (Configs.set_active_model self model_name) txt c
          = Redaction.extract_entities world self txt c
       /\ Redaction.redact_batch world
            (Configs.set_active_model self model_name) texts ids c
            start_time end_time
          = Redaction.redact_batch world self texts ids c
              start_time end_time)
    /\ (Schemas.model c = "" ->
        Redaction.model_name_of
          (Configs.set_active_model self model_name) c = model_name).
Proof.
  intros world self model_name c. split.
  - intros Hmodel.
    assert (Hname : Redaction.model_name_of
                      (Configs.set_active_model self model_name) c
                    = Redaction.model_name_of self c).
    { unfold Redaction.model_name_of.
      destruct (Schemas.model c); [congruence | reflexivity]. }
    assert (Htext : forall txt,
              Redaction.redact_text world
                (Configs.set_active_model self model_name) txt c
              = Redaction.redact_text world self txt c).
    { intros txt. unfold Redaction.redact_text. now rewrite Hname. }
    intros txt texts ids start_time end_time.
    split; [apply Htext|]. split.
    + unfold Redaction.extract_entities. now rewrite Hname.
    + unfold Redaction.redact_batch. f_equal.
      generalize (match ids with
                  | Some l => l
                  | None => map Redaction.item_id (seq 0 (List.length texts))
                  end).
      intros l.
      generalize {| Redaction.acc_results := [];
                    Redaction.acc_failed := 0;
                    Redaction.acc_total_entities := 0 |}.
      generalize 0%nat.
      induction texts as [|t rest IH]; intros i st; [reflexivity|].
      cbn [Redaction.batch_loop]. unfold Redaction.batch_item.
      rewrite Htext. apply iobind_pointwise.
      intros st'. apply IH.
  - intros Hmodel. unfold Redaction.model_name_of. now rewrite Hmodel.
Qed.

Lemma active_model_only_for_empty_model_witness :
  let c := Examples.config_with Schemas.MASK None in
  let unnamed :=
    {| Schemas.model := "";
       Schemas.confidence_threshold := 6 # 10;
       Schemas.use_smart_merging := true;
       Schemas.method := Schemas.MASK;
       Schemas.date_shift_days := None;
       Schemas.entity_types := None;
       Schemas.exclude_entity_types := None;
       Schemas.include_mapping := false;
       Schemas.output_format := Schemas.SAME;
       Schemas.device := Schemas.AUTO |} in
  Redaction.redact_text Examples.world
    (Configs.set_active_model Examples.service "openmed/other") "John Doe" c
  = Redaction.redact_text Examples.world Examples.service "John Doe" c
  /\ Redaction.model_name_of
       (Configs.set_active_model Examples.service "openmed/other") unnamed
     = "openmed/other".
Proof.
  intros c unnamed. split.
  - apply (proj1 (active_model_only_for_empty_model Examples.world
                    Examples.service "openmed/other" c));
      [discriminate | exact [] | exact None | exact 0%Q | exact 0%Q].
  - apply (proj2 (active_model_only_for_empty_model Examples.world
                    Examples.service "openmed/other" unnamed)).
    reflexivity.
Defined.

(** X9.  Whatever [redact_text] returns carries the text it was given,
    a count equal to the number of entities listed, the method and the
    model that were used; a mapping is present only on the delegated
    path with [include_mapping] set: on the manual path none is
    returned even when it was asked for. *)
Theorem redact_text_result_shape :
  forall (world : Openmed.Collaborators) (self : Redaction.RedactionService)
         (txt : Py.str) (c : Schemas.RedactionConfig)
         (r : Schemas.RedactionResult),
    Openmed.outcome (Redaction.redact_text world self txt c) = Py.Ok r ->
    Schemas.original_text r = txt
    /\ Schemas.entity_count r
       = Z.of_nat (List.length (Schemas.result_entities r))
    /\ Schemas.result_method r = Schemas.method_value (Schemas.method c)
    /\ Schemas.result_model r = Redaction.model_name_of self c
    /\ (Schemas.mapping r <> None ->
        Configs.manual c = false /\ Schemas.include_mapping c = true).
Proof.
  intros world self txt c r Hok.
  destruct (Configs.manual c) eqn:Hc.
  - rewrite (manual_path_of_redact_text world self txt c Hc) in Hok.
    unfold Redaction.call_extract_pii, Openmed.iobind, Openmed.outcome in Hok.
    destruct (Openmed.extract_pii world txt _ _ _); simpl in Hok;
      [|discriminate].
    inversion Hok; subst r; simpl.
    repeat split; congruence.
  - rewrite (delegated_path_of_redact_text world self txt c Hc) in Hok.
    unfold Redaction.call_deidentify, Openmed.iobind, Openmed.outcome in Hok.
    destruct (Openmed.deidentify world txt _); simpl in Hok; [|discriminate].
    inversion Hok; subst r; simpl.
    assert (Hmethod : Schemas.method_value (Schemas.method c) = "replace").
    { unfold Configs.manual in Hc. apply orb_false_iff in Hc.
      destruct Hc as [_ Hc]. now apply negb_false_iff, String.eqb_eq in Hc. }
    split; [reflexivity|]. split; [reflexivity|].
    split; [now rewrite Hmethod|]. split; [reflexivity|].
    intros Hmap. split; [reflexivity|].
    destruct (Schemas.include_mapping c); [reflexivity | congruence].
Qed.

Lemma redact_text_result_shape_witness :
  exists r,
    Openmed.outcome
      (Redaction.redact_text Examples.world Examples.service "John Doe"
         (Examples.config_with Schemas.HASH None))
    = Py.Ok r
    /\ Schemas.original_text r = "John Doe"
    /\ Schemas.entity_count r = 1.
Proof.
  eexists. split; [vm_compute; reflexivity|].
  destruct (redact_text_result_shape Examples.world Examples.service
              "John Doe" (Examples.config_with Schemas.HASH None) _
              eq_refl) as [Htext [Hcount _]].
  split; [exact Htext | exact Hcount].
Defined.

(** X10.  [extract_entities] always calls [extract_pii] and nothing
    else.  For a configuration that [redact_text] handles on the
    manual path it makes the same call as [redact_text] and returns
    the entities [redact_text] lists, or raises what it raises: the
    preview shows exactly what gets redacted. *)
Theorem extract_entities_previews_manual_path :
  forall (world : Openmed.Collaborators) (self : Redaction.RedactionService)
         (txt : Py.str) (c : Schemas.RedactionConfig),
    Openmed.calls (Redaction.extract_entities world self txt c)
    = [Openmed.CallExtractPii txt (Redaction.model_name_of self c)
         (Schemas.confidence_threshold c) (Schemas.use_smart_merging c)]
    /\ (Configs.manual c = true ->
        Openmed.calls (Redaction.extract_entities world self txt c)
        = Openmed.calls (Redaction.redact_text world self txt c)
        /\ Openmed.outcome (Redaction.extract_entities world self txt c)
           = match Openmed.outcome
                     (Redaction.redact_text world self txt c) with
             | Py.Ok r => Py.Ok (Schemas.result_entities r)
             | Py.Err e => Py.Err e
             end).
Proof.
  intros world self txt c.
  assert (Hcalls : Openmed.calls (Redaction.extract_entities world self txt c)
                   = [Openmed.CallExtractPii txt
                        (Redaction.model_name_of self c)
                        (Schemas.confidence_threshold c)
                        (Schemas.use_smart_merging c)]).
  { unfold Redaction.extract_entities, Redaction.call_extract_pii,
      Openmed.iobind, Openmed.calls.
    destruct (Openmed.extract_pii world txt _ _ _); reflexivity. }
  split; [exact Hcalls|].
  intros Hc. rewrite Hcalls.
  rewrite (manual_path_of_redact_text world self txt c Hc).
  unfold Redaction.extract_entities, Redaction.call_extract_pii,
    Openmed.iobind, Openmed.calls, Openmed.outcome.
  destruct (Openmed.extract_pii world txt _ _ _); split; reflexivity.
Qed.

Lemma extract_entities_previews_manual_path_witness :
  let c := Examples.config_with Schemas.MASK None in
  Openmed.outcome
    (Redaction.extract_entities Examples.world Examples.service "John Doe" c)
  = match Openmed.outcome
            (Redaction.redact_text Examples.world Examples.service
               "John Doe" c) with
    | Py.Ok r => Py.Ok (Schemas.result_entities r)
    | Py.Err e => Py.Err e
    end.
Proof.
  intros c.
  apply (proj2 (extract_entities_previews_manual_path Examples.world
                  Examples.service "John Doe" c)).
  reflexivity.
Defined.

(** ** The calls of a batch *)

Section BatchCalls.

Variable world : Openmed.Collaborators.
Variable self : Redaction.RedactionService.
Variable config : Schemas.RedactionConfig.

Lemma calls_iobind {A B} (c : Openmed.io A) (k : A -> Openmed.io B) :
  Openmed.calls (Openmed.iobind c k)
  = Openmed.calls c
    ++ match Openmed.outcome c with
       | Py.Ok a => Openmed.calls (k a)
       | Py.Err _ => []
       end.
Proof.
  destruct c as [log [a | e]]; simpl.
  - destruct (k a); reflexivity.
  - now rewrite app_nil_r.
Qed.

(** An iteration makes the calls of [redact_text] and no other. *)
Lemma calls_batch_item (ids : list Py.str) (i : nat) (txt : Py.str)
    (st : Redaction.batch_state) :
  Openmed.calls (Redaction.batch_item world self ids config i txt st)
  = Openmed.calls (Redaction.redact_text world self txt config).
Proof.
  unfold Redaction.batch_item, Openmed.try_except.
  destruct (Redaction.redact_text world self txt config)
    as [log [result | e]]; simpl; [apply app_nil_r|].
  unfold Py.index. destruct (nth_error ids i); simpl; apply app_nil_r.
Qed.

Lemma calls_batch_loop (ids texts : list Py.str) :
  forall (i : nat) (st : Redaction.batch_state),
    (i + List.length texts <= List.length ids)%nat ->
    Openmed.calls (Redaction.batch_loop world self ids config i texts st)
    = flat_map
        (fun t => Openmed.calls (Redaction.redact_text world self t config))
        texts.
Proof.
  induction texts as [|txt rest IH]; intros i st Hlen; [reflexivity|].
  cbn [Redaction.batch_loop flat_map List.length] in *.
  rewrite calls_iobind, calls_batch_item. f_equal.
  rewrite outcome_batch_item.
  destruct (Openmed.outcome (Redaction.redact_text world self txt config)).
  - apply IH. lia.
  - destruct (nth_error ids i) eqn:Hid.
    + apply IH. lia.
    + apply nth_error_None in Hid. lia.
Qed.

End BatchCalls.

(** X11.  With [ids] absent, or with an id for every text,
    [redact_batch] attempts every text once, in order, whether earlier
    texts failed or not: its calls are those of [redact_text] on each
    text, one after the other. *)
Theorem redact_batch_attempts_every_text :
  forall (world : Openmed.Collaborators) (self : Redaction.RedactionService)
         (config : Schemas.RedactionConfig) (texts : list Py.str)
         (ids : option (list Py.str)) (start_time end_time : Q),
    (ids = None
     \/ exists l, ids = Some l /\ (List.length texts <= List.length l)%nat) ->
    Openmed.calls
      (Redaction.redact_batch world self texts ids config start_time end_time)
    = flat_map
        (fun t => Openmed.calls (Redaction.redact_text world self t config))
        texts.
Proof.
  intros world self config texts ids start_time end_time Hids.
  unfold Redaction.redact_batch. rewrite calls_iobind.
  assert (Hlen : (0 + List.length texts
                  <= List.length
                       match ids with
                       | Some l => l
                       | None => map Redaction.item_id
                                   (seq 0 (List.length texts))
                       end)%nat).
  { destruct Hids as [-> | [l [-> Hl]]]; simpl.
    - now rewrite length_default_ids.
    - exact Hl. }
  rewrite calls_batch_loop by exact Hlen.
  rewrite batch_loop_isolated by exact Hlen.
  simpl. apply app_nil_r.
Qed.

Lemma redact_batch_attempts_every_text_witness :
  Openmed.calls
    (Redaction.redact_batch Examples.world Examples.service
       ["b"; "John Doe"] None (Examples.config_with Schemas.MASK None) 0 1)
  = [Openmed.CallExtractPii "b" Examples.small_model (6 # 10) true;
     Openmed.CallExtractPii "John Doe" Examples.small_model (6 # 10) true].
Proof.
  rewrite (redact_batch_attempts_every_text Examples.world Examples.service
             (Examples.config_with Schemas.MASK None) ["b"; "John Doe"] None
             0 1 (or_introl eq_refl)).
  reflexivity.
Defined.

(** ** What [create_redacted_document] hands back *)

Lemma append_cancel (s a b : Py.str) :
  String.append s a = String.append s b -> a = b.
Proof.
  induction s as [|c s IH]; simpl; intros H; [exact H|].
  inversion H. auto.
Qed.

Lemma redacted_name_ext (stem a b : Py.str) :
  DocumentHandler.redacted_name stem a = DocumentHandler.redacted_name stem b ->
  a = b.
Proof.
  unfold DocumentHandler.redacted_name. intros H.
  apply append_cancel in H. now apply append_cancel in H.
Qed.

Section Produced.

Variable fitz : Fitz.API.
Variable docx : Docx.API.

Lemma in_place_name (doc : Fitz.Document fitz) (stem : Py.str)
    (entities : list Schemas.EntityInfo) (method : Py.str)
    (r : Py.bytes * Py.str) :
  DocumentHandler.in_place fitz doc stem entities method = Py.Ok r ->
  snd r = DocumentHandler.redacted_name stem ".pdf".
Proof.
  unfold DocumentHandler.in_place, Py.bind.
  destruct (DocumentHandler.for_each _ _ _) as [doc'|]; [|discriminate].
  destruct (Fitz.tobytes fitz doc') as [out|]; [|discriminate].
  destruct (Fitz.close fitz doc'); [|discriminate].
  intros H. now inversion H.
Qed.

Lemma reconstruct_name (doc : Fitz.Document fitz) (text stem : Py.str)
    (r : Py.bytes * Py.str) :
  DocumentHandler.reconstruct fitz doc text stem = Py.Ok r ->
  snd r = DocumentHandler.redacted_name stem ".pdf".
Proof.
  unfold DocumentHandler.reconstruct, Py.bind.
  destruct (Fitz.close fitz doc); [|discriminate].
  destruct (Fitz.open_new fitz) as [doc0|]; [|discriminate].
  destruct (Fitz.new_page fitz doc0) as [p|]; [|discriminate].
  destruct (Fitz.new_shape fitz (fst p) (snd p)); [|discriminate].
  destruct (DocumentHandler.for_each _ _ _) as [[[doc1 pg] y]|];
    [|discriminate].
  destruct (Fitz.tobytes fitz doc1) as [out|]; [|discriminate].
  destruct (Fitz.close fitz doc1); [|discriminate].
  intros H. now inversion H.
Qed.

(** The PDF branch: a PDF name, or the text under a [.txt] name. *)
Lemma create_redacted_pdf_cases (content : Py.bytes) (text stem : Py.str)
    (entities : list Schemas.EntityInfo) (method : Py.str) :
  let produced :=
    DocumentHandler._create_redacted_pdf fitz content text stem entities
      method in
  snd produced = DocumentHandler.redacted_name stem ".pdf"
  \/ produced = (Py.encode_utf8 text,
                 DocumentHandler.redacted_name stem ".txt").
Proof.
  unfold DocumentHandler._create_redacted_pdf.
  destruct (negb (Py.truthy_list entities)); [left; reflexivity|].
  destruct (DocumentHandler.pdf_try_body fitz content text stem entities
              method) as [r | e] eqn:Hbody; [left | right; reflexivity].
  unfold DocumentHandler.pdf_try_body, Py.bind in Hbody.
  destruct (Fitz.open_stream fitz content) as [doc|]; [|discriminate].
  destruct (Py.truthy_list entities).
  - exact (in_place_name _ _ _ _ _ Hbody).
  - exact (reconstruct_name _ _ _ _ Hbody).
Qed.

Lemma create_redacted_docx_cases (text stem : Py.str) :
  let produced := DocumentHandler._create_redacted_docx docx text stem in
  snd produced = DocumentHandler.redacted_name stem ".docx"
  \/ produced = (Py.encode_utf8 text,
                 DocumentHandler.redacted_name stem ".txt").
Proof.
  unfold DocumentHandler._create_redacted_docx.
  destruct (DocumentHandler.docx_try_body docx text stem) as [r | e] eqn:Hbody;
    [left | right; reflexivity].
  unfold DocumentHandler.docx_try_body, Py.bind in Hbody.
  destruct (Docx.new_document docx) as [doc|]; [|discriminate].
  destruct (DocumentHandler.for_each _ _ _) as [doc'|]; [|discriminate].
  destruct (Docx.save docx doc') as [out|]; [|discriminate].
  now inversion Hbody.
Qed.

End Produced.

(** X12.  Whatever its inputs, [create_redacted_document] returns a
    name made of the stem of the file name, [_redacted] and one of the
    extensions .pdf, .docx, .txt, .md and .json; and whenever the name
    is neither the .pdf nor the .docx one, the payload is the redacted
    text encoded as UTF-8. *)
Theorem redacted_document_name_and_payload :
  forall (fitz : Fitz.API) (docx : Docx.API)
         (original_content : Py.bytes) (filename redacted_text : Py.str)
         (output_format : option Py.str)
         (entities : option (list Schemas.EntityInfo)) (method : Py.str),
    let stem := Pathlib.stem filename in
    let produced :=
      DocumentHandler.create_redacted_document fitz docx original_content
        filename redacted_text output_format entities method in
    (exists ext,
       In ext [".pdf"; ".docx"; ".txt"; ".md"; ".json"]
       /\ snd produced = String.append stem (String.append "_redacted" ext))
    /\ (snd produced = String.append stem "_redacted.pdf"
        \/ snd produced = String.append stem "_redacted.docx"
        \/ fst produced = Py.encode_utf8 redacted_text).
Proof.
  intros fitz docx original_content filename redacted_text output_format
         entities method stem produced.
  unfold produced, DocumentHandler.create_redacted_document.
  fold stem.
  set (file_type := DocumentHandler.override_file_type _ _).
  set (ents := match entities with Some (e :: es) => e :: es | _ => [] end).
  destruct (String.eqb file_type "pdf").
  { destruct (create_redacted_pdf_cases fitz original_content redacted_text
                stem ents method) as [H | H].
    - split; [exists ".pdf"; simpl; tauto | left; exact H].
    - rewrite H. split; [exists ".txt"; simpl; tauto | right; right; reflexivity]. }
  destruct (String.eqb file_type "docx").
  { destruct (create_redacted_docx_cases docx redacted_text stem)
      as [H | H].
    - split; [exists ".docx"; simpl; tauto | right; left; exact H].
    - rewrite H. split; [exists ".txt"; simpl; tauto | right; right; reflexivity]. }
  destruct (String.eqb file_type "txt" || String.eqb file_type "md").
  { split; [|right; right; reflexivity].
    destruct (String.eqb file_type "md");
      [exists ".md" | exists ".txt"]; simpl; tauto. }
  destruct (String.eqb file_type "json").
  { split; [exists ".json"; simpl; tauto | right; right; reflexivity]. }
  split; [exists ".txt"; simpl; tauto | right; right; reflexivity].
Qed.

(** ** Marking a PDF in place *)

Section MarkingFacts.

Lemma for_each_skip {A S} (body : S -> A -> Py.result S) (p : A -> bool) :
  (forall s a, p a = false -> body s a = Py.Ok s) ->
  forall l s,
    DocumentHandler.for_each body l s
    = DocumentHandler.for_each body (filter p l) s.
Proof.
  intros Hskip. induction l as [|a l IH]; intros s; [reflexivity|].
  cbn [filter DocumentHandler.for_each].
  destruct (p a) eqn:Hp.
  - cbn [DocumentHandler.for_each]. unfold Py.bind.
    destruct (body s a); [apply IH | reflexivity].
  - rewrite (Hskip s a Hp). simpl. apply IH.
Qed.

Lemma for_each_pointwise {A S} (f g : S -> A -> Py.result S) :
  (forall s a, f s a = g s a) ->
  forall l s, DocumentHandler.for_each f l s = DocumentHandler.for_each g l s.
Proof.
  intros Hfg. induction l as [|a l IH]; intros s; [reflexivity|].
  cbn [DocumentHandler.for_each]. rewrite Hfg. unfold Py.bind.
  destruct (g s a); [apply IH | reflexivity].
Qed.

Variable fitz : Fitz.API.

Lemma mark_entity_blank (method : Py.str) (pno : nat)
    (doc : Fitz.Document fitz) (e : Schemas.EntityInfo) :
  Extraction.searchable e = false ->
  DocumentHandler.mark_entity fitz method pno doc e = Py.Ok doc.
Proof.
  unfold Extraction.searchable, DocumentHandler.mark_entity. intros H.
  rewrite <- negb_andb, H. reflexivity.
Qed.

Lemma in_place_without_blank (doc : Fitz.Document fitz) (stem : Py.str)
    (E : list Schemas.EntityInfo) (method : Py.str) :
  DocumentHandler.in_place fitz doc stem E method
  = DocumentHandler.in_place fitz doc stem
      (filter Extraction.searchable E) method.
Proof.
  unfold DocumentHandler.in_place. f_equal.
  apply for_each_pointwise. intros d pno.
  unfold DocumentHandler.mark_page. f_equal.
  apply for_each_skip. intros s a. apply mark_entity_blank.
Qed.

End MarkingFacts.

(** X13.  Entities whose text is empty or white space are never
    searched for: marking a PDF in place gives the same result with
    or without them.  As long as one entity with a text remains,
    [_create_redacted_pdf] returns the same with or without them. *)
Theorem blank_entities_are_never_searched :
  forall (fitz : Fitz.API) (original_content : Py.bytes)
         (redacted_text stem : Py.str)
         (E : list Schemas.EntityInfo) (method : Py.str),
    (forall doc,
       DocumentHandler.in_place fitz doc stem E method
       = DocumentHandler.in_place fitz doc stem
           (filter Extraction.searchable E) method)
    /\ (filter Extraction.searchable E <> [] ->
        DocumentHandler._create_redacted_pdf fitz original_content
          redacted_text stem E method
        = DocumentHandler._create_redacted_pdf fitz original_content
            redacted_text stem (filter Extraction.searchable E) method).
Proof.
  intros fitz original_content redacted_text stem E method.
  split; [intros doc; apply in_place_without_blank|].
  intros Hsome.
  assert (HE : Py.truthy_list E = true).
  { destruct E; [contradiction | reflexivity]. }
  assert (HF : Py.truthy_list (filter Extraction.searchable E) = true).
  { destruct (filter Extraction.searchable E); [contradiction | reflexivity]. }
  unfold DocumentHandler._create_redacted_pdf, DocumentHandler.pdf_try_body.
  rewrite HE, HF. cbn [negb]. unfold Py.bind.
  destruct (Fitz.open_stream fitz original_content) as [doc|]; [|reflexivity].
  now rewrite in_place_without_blank.
Qed.

Lemma blank_entities_are_never_searched_witness :
  let blank :=
    {| Schemas.text := "  "; Schemas.label := "first_name";
       Schemas.confidence := 9 # 10; Schemas.start := 4; Schemas.end_ := 6;
       Schemas.redacted_text := None |} in
  DocumentHandler._create_redacted_pdf (Examples.toy_fitz false)
    Examples.pdf_bytes "[first_name] Doe" "report"
    [blank; Examples.john_info] "mask"
  = DocumentHandler._create_redacted_pdf (Examples.toy_fitz false)
      Examples.pdf_bytes "[first_name] Doe" "report"
      (filter Extraction.searchable [blank; Examples.john_info]) "mask".
Proof.
  intros blank.
  apply (proj2 (blank_entities_are_never_searched (Examples.toy_fitz false)
                  Examples.pdf_bytes "[first_name] Doe" "report"
                  [blank; Examples.john_info] "mask")).
  vm_compute. discriminate.
Defined.

(** X14.  The token drawn over a redaction box is the fragment
    [_generate_replacement] gives for the same entity: the [[label]]
    placeholder for "replace", the eight digits of the digest for
    "hash".  For every other method nothing is drawn. *)
Theorem pdf_overlay_is_the_text_fragment :
  forall (e : Openmed.PIIEntity) (redacted : option Py.str)
         (method : Py.str),
    let info := Redaction._entity_to_info e redacted in
    (method = "replace" \/ method = "hash" ->
     DocumentHandler.annot_text method info
     = Some (Redaction._generate_replacement e method))
    /\ (method <> "replace" -> method <> "hash" ->
        DocumentHandler.annot_text method info = None).
Proof.
  intros e redacted method info. split.
  - intros [-> | ->]; reflexivity.
  - intros Hr Hh. unfold DocumentHandler.annot_text.
    apply String.eqb_neq in Hr. apply String.eqb_neq in Hh.
    now rewrite Hr, Hh.
Qed.

Lemma pdf_overlay_is_the_text_fragment_witness :
  DocumentHandler.annot_text "hash" Examples.john_info = Some "61409aa1"
  /\ DocumentHandler.annot_text "mask" Examples.john_info = None.
Proof.
  unfold Examples.john_info. split.
  - rewrite (proj1 (pdf_overlay_is_the_text_fragment Examples.john None
                      "hash") (or_intror eq_refl)).
    vm_compute. reflexivity.
  - apply (proj2 (pdf_overlay_is_the_text_fragment Examples.john None
                    "mask")); discriminate.
Defined.

(** ** Text extraction *)

Lemma truthy_str_iff (s : Py.str) : Py.truthy_str s = true <-> s <> "".
Proof.
  destruct s; simpl; split; intros H; (reflexivity || congruence).
Qed.

Section ExtractionFacts.

Variable fitz : Fitz.API.
Variable readers : Extraction.Readers fitz.

(** The guard and the handler the three extractors share. *)
Lemma reraise_guarded (prefix : Py.str) (c : Extraction.outcome Py.str) :
  (forall text, c = inl text -> Extraction.has_content text) ->
  match Extraction.reraise_as_value_error prefix c with
  | inl text => Extraction.has_content text
  | inr e => exists msg, e = Extraction.ValueError msg
  end.
Proof.
  intros H. destruct c as [text | e]; simpl; [now apply H | eauto].
Qed.

Lemma content_guard (text : Py.str) (e : Extraction.raised) (t : Py.str) :
  (if negb (Py.truthy_str (Py.strip text))
   then Extraction.raise e else Extraction.returned text) = inl t ->
  Extraction.has_content t.
Proof.
  destruct (Py.truthy_str (Py.strip text)) eqn:Hs; simpl;
    unfold Extraction.raise, Extraction.returned; intros H;
    [|discriminate].
  inversion H; subst. now apply truthy_str_iff.
Qed.

Lemma extract_from_pdf_guarded (content : Py.bytes) :
  match Extraction._extract_from_pdf fitz readers content with
  | inl text => Extraction.has_content text
  | inr e => exists msg, e = Extraction.ValueError msg
  end.
Proof.
  apply reraise_guarded. intros text.
  unfold Extraction.and_then.
  destruct (Extraction.foreign (Fitz.open_stream fitz content)) as [doc|];
    [|discriminate].
  destruct (Extraction.page_blocks fitz readers doc _ _) as [parts|];
    [|discriminate].
  destruct (Extraction.foreign (Fitz.close fitz doc)); [|discriminate].
  apply content_guard.
Qed.

Lemma extract_from_docx_guarded (content : Py.bytes) :
  match Extraction._extract_from_docx fitz readers content with
  | inl text => Extraction.has_content text
  | inr e => exists msg, e = Extraction.ValueError msg
  end.
Proof.
  apply reraise_guarded. intros text.
  unfold Extraction.and_then.
  destruct (Extraction.foreign (Extraction.paragraph_texts readers content));
    [|discriminate].
  apply content_guard.
Qed.

Lemma extract_from_text_guarded (content : Py.bytes) :
  match Extraction._extract_from_text fitz readers content with
  | inl text => Extraction.has_content text
  | inr e => exists msg, e = Extraction.ValueError msg
  end.
Proof.
  apply reraise_guarded. intros text. apply content_guard.
Qed.

End ExtractionFacts.

(** X15.  Whatever the file and whatever the readers do,
    [extract_text] either returns a text with a character that is not
    white space, or raises a [ValueError]: nothing else is raised, and
    no blank text is returned, so the test for an empty text its
    callers make after it never fires. *)
Theorem extract_text_returns_content_or_value_error :
  forall (fitz : Fitz.API) (readers : Extraction.Readers fitz)
         (file_content : Py.bytes) (filename : Py.str),
    match Extraction.extract_text fitz readers file_content filename with
    | inl text => Extraction.has_content text
    | inr e => exists msg, e = Extraction.ValueError msg
    end.
Proof.
  intros fitz readers file_content filename.
  unfold Extraction.extract_text.
  destruct (String.eqb _ "pdf"); [apply extract_from_pdf_guarded|].
  destruct (String.eqb _ "docx"); [apply extract_from_docx_guarded|].
  destruct (_ || _); [apply extract_from_text_guarded|].
  simpl. eauto.
Qed.

(** ** The suffix of a file name *)

Section SuffixFacts.

Let dot : ascii := "."%char.

Lemma rfind_dot_from_spec (s : Py.str) :
  forall (i : nat) (found : option nat) (j : nat),
    Pathlib.rfind_dot_from i s found = Some j ->
    (found = Some j /\ ~ In dot (list_ascii_of_string s))
    \/ exists pre post,
         s = String.append pre (String dot post)
         /\ j = (i + String.length pre)%nat
         /\ ~ In dot (list_ascii_of_string post).
Proof.
  induction s as [|c s IH]; intros i found j H; simpl in H.
  - left. split; [exact H | intros []].
  - apply IH in H. destruct H as [[Hf Hno] | [pre [post [Hs [Hj Hno]]]]].
    + destruct (Ascii.eqb c ".") eqn:Hc.
      * apply Ascii.eqb_eq in Hc. subst c. inversion Hf; subst.
        right. exists "", s. simpl. split; [reflexivity|]. split; [lia|].
        exact Hno.
      * left. split; [exact Hf|]. simpl. intros [Hin | Hin]; [|tauto].
        apply Ascii.eqb_neq in Hc. unfold dot in Hin. congruence.
    + right. exists (String c pre), post. simpl.
      split; [now rewrite Hs|]. split; [lia | exact Hno].
Qed.

Lemma substring_all (t : Py.str) :
  String.substring 0 (String.length t) t = t.
Proof.
  induction t as [|c t IH]; simpl; [reflexivity | now rewrite IH].
Qed.

Lemma substring_after (pre t : Py.str) (n : nat) :
  String.substring (String.length pre) n (String.append pre t)
  = String.substring 0 n t.
Proof.
  induction pre as [|c pre IH]; simpl; [reflexivity | exact IH].
Qed.

Lemma length_append (a b : Py.str) :
  String.length (String.append a b) = (String.length a + String.length b)%nat.
Proof.
  induction a as [|c a IH]; simpl; [reflexivity | now rewrite IH].
Qed.

(** A suffix is empty, or a dot followed by at least one character
    and no further dot. *)
Lemma suffix_shape (p : Py.str) :
  Pathlib.suffix p = ""
  \/ exists post,
       Pathlib.suffix p = String dot post
       /\ post <> ""
       /\ ~ In dot (list_ascii_of_string post).
Proof.
  unfold Pathlib.suffix, Pathlib.suffix_at.
  set (nm := Pathlib.name p).
  destruct (Pathlib.rfind_dot nm) as [i|] eqn:Hfind; [|left; reflexivity].
  destruct ((0 <? i) && (i <? String.length nm - 1))%nat eqn:Hrange;
    [|left; reflexivity].
  right.
  apply rfind_dot_from_spec in Hfind.
  destruct Hfind as [[Hf _] | [pre [post [Hs [Hj Hno]]]]]; [discriminate|].
  simpl in Hj. subst i. exists post.
  apply andb_true_iff in Hrange. destruct Hrange as [_ Hlt].
  apply Nat.ltb_lt in Hlt.
  rewrite Hs in Hlt |- *. rewrite length_append in Hlt |- *.
  simpl in Hlt |- *.
  split; [|split; [|exact Hno]].
  - rewrite substring_after.
    replace (String.length pre + S (String.length post) - String.length pre)%nat
      with (S (String.length post)) by lia.
    simpl. now rewrite substring_all.
  - intros ->. simpl in Hlt. lia.
Qed.

Lemma lower_char_dot (c : ascii) : Py.lower_char c = dot -> c = dot.
Proof.
  destruct c as [[] [] [] [] [] [] [] []]; vm_compute; intros H;
    (reflexivity || discriminate).
Qed.

Lemma lower_keeps_no_dot (s : Py.str) :
  ~ In dot (list_ascii_of_string s) ->
  ~ In dot (list_ascii_of_string (Py.lower s)).
Proof.
  induction s as [|c s IH]; simpl; [tauto|].
  intros Hno [Hc | Hin].
  - apply Hno. left. now apply lower_char_dot.
  - apply IH; tauto.
Qed.

Lemma lower_empty (s : Py.str) : Py.lower s = "" -> s = "".
Proof. destruct s; simpl; [reflexivity | discriminate]. Qed.

Lemma lstrip_dot_no_dot (s : Py.str) :
  ~ In dot (list_ascii_of_string s) -> Py.lstrip_dot s = s.
Proof.
  destruct s as [|c s]; [reflexivity|]. simpl. intros Hno.
  destruct c as [[] [] [] [] [] [] [] []]; try reflexivity.
  exfalso. apply Hno. left. reflexivity.
Qed.

(** The file type of a name, by the shape of its extension in lower
    case: nothing, or a dot and the type. *)
Lemma file_type_of_extension (filename : Py.str) :
  let ext := Py.lower (Pathlib.suffix filename) in
  (ext = "" /\ DocumentHandler.get_file_type filename = "")
  \/ exists kind,
       ext = String dot kind
       /\ kind <> ""
       /\ ~ In dot (list_ascii_of_string kind)
       /\ DocumentHandler.get_file_type filename
          = if String.eqb kind "doc" || String.eqb kind "docx"
            then "docx" else kind.
Proof.
  intros ext. unfold DocumentHandler.get_file_type. fold ext.
  destruct (suffix_shape filename) as [He | [post [He [Hne Hno]]]];
    unfold ext; rewrite He.
  - left. split; reflexivity.
  - right. exists (Py.lower post).
    assert (Hno' := lower_keeps_no_dot post Hno).
    split; [reflexivity|]. split.
    + intros H. apply lower_empty in H. contradiction.
    + split; [exact Hno'|].
      cbn [Py.lower].
      change (Py.lower_char dot) with dot.
      change (String.eqb (String dot (Py.lower post)) ".doc")
        with (String.eqb (Py.lower post) "doc").
      change (String.eqb (String dot (Py.lower post)) ".docx")
        with (String.eqb (Py.lower post) "docx").
      destruct (_ || _); [reflexivity|].
      cbn [Py.lstrip_dot]. now apply lstrip_dot_no_dot.
Qed.

End SuffixFacts.

(** X16.  [is_supported] and the dispatch of [extract_text] agree on
    every file name.  A supported name reaches the extractor of its
    extension in lower case: the PDF one for .pdf, the DOCX one for
    .docx and .doc, the text one for .txt and .md.  A name that is not
    supported makes [extract_text] raise
    [ValueError("Unsupported file type: ...")] without reading the
    content. *)
Theorem extract_text_dispatch_agrees_with_is_supported :
  forall (fitz : Fitz.API) (readers : Extraction.Readers fitz)
         (file_content : Py.bytes) (filename : Py.str),
    let ext := Py.lower (Pathlib.suffix filename) in
    let extracted :=
      Extraction.extract_text fitz readers file_content filename in
    (Extraction.is_supported filename = true ->
     (ext = ".pdf"
      /\ extracted = Extraction._extract_from_pdf fitz readers file_content)
     \/ ((ext = ".docx" \/ ext = ".doc")
         /\ extracted
            = Extraction._extract_from_docx fitz readers file_content)
     \/ ((ext = ".txt" \/ ext = ".md")
         /\ extracted
            = Extraction._extract_from_text fitz readers file_content))
    /\ (Extraction.is_supported filename = false ->
        extracted
        = Extraction.raise
            (Extraction.ValueError
               (String.append "Unsupported file type: "
                  (DocumentHandler.get_file_type filename)))).
Proof.
  intros fitz readers file_content filename ext extracted.
  unfold extracted, Extraction.extract_text, Extraction.is_supported.
  fold ext.
  destruct (file_type_of_extension filename)
    as [[He Ht] | [kind [He [Hne [Hno Ht]]]]]; fold ext in He;
    rewrite He, Ht.
  - split; [discriminate | reflexivity].
  - change (Redaction.member (String "." kind) Extraction.SUPPORTED_EXTENSIONS)
      with (String.eqb kind "pdf" || (String.eqb kind "docx"
            || (String.eqb kind "doc" || (String.eqb kind "txt"
            || (String.eqb kind "md" || false))))).
    destruct (String.eqb_spec kind "pdf") as [-> | Hpdf].
    { split; [intros _; left; split; reflexivity | discriminate]. }
    destruct (String.eqb_spec kind "docx") as [-> | Hdocx].
    { split; [intros _; right; left; split; [left|]; reflexivity
             | discriminate]. }
    destruct (String.eqb_spec kind "doc") as [-> | Hdoc].
    { split; [intros _; right; left; split; [right|]; reflexivity
             | discriminate]. }
    cbn [orb].
    destruct (String.eqb_spec kind "txt") as [-> | Htxt].
    { split; [intros _; right; right; split; [left|]; reflexivity
             | discriminate]. }
    destruct (String.eqb_spec kind "md") as [-> | Hmd].
    { split; [intros _; right; right; split; [right|]; reflexivity
             | discriminate]. }
    apply String.eqb_neq in Hpdf, Hdocx, Htxt, Hmd.
    cbn [orb]. rewrite ?Hpdf, ?Hdocx, ?Htxt, ?Hmd. cbn [orb].
    split; [discriminate | reflexivity].
Qed.

Lemma extract_text_dispatch_agrees_with_is_supported_witness :
  let readers : Extraction.Readers (Examples.toy_fitz false) :=
    {| Extraction.get_text := fun doc page_num => Py.Ok "John Doe";
       Extraction.paragraph_texts := fun content => Py.Ok ["John Doe"];
       Extraction.decode_utf8 := fun content => None |} in
  Extraction.is_supported "notes/Visit.DOC" = true
  /\ Extraction.extract_text (Examples.toy_fitz false) readers
       Examples.pdf_bytes "notes/Visit.DOC"
     = inl "John Doe"
  /\ Extraction.is_supported "table.csv" = false
  /\ Extraction.extract_text (Examples.toy_fitz false) readers
       Examples.pdf_bytes "table.csv"
     = inr (Extraction.ValueError "Unsupported file type: csv").
Proof.
  intros readers.
  destruct (extract_text_dispatch_agrees_with_is_supported
              (Examples.toy_fitz false) readers Examples.pdf_bytes
              "notes/Visit.DOC") as [Hyes _].
  destruct (extract_text_dispatch_agrees_with_is_supported
              (Examples.toy_fitz false) readers Examples.pdf_bytes
              "table.csv") as [_ Hno].
  split; [reflexivity|]. split.
  - destruct (Hyes eq_refl) as [[H _] | [[_ H] | [[H | H] _]]];
      try discriminate H.
    rewrite H. reflexivity.
  - split; [reflexivity|]. rewrite (Hno eq_refl). reflexivity.
Defined.

(** ** Reading back what the handler wrote *)

Lemma decode_two_byte_char (c : ascii) (rest : Py.bytes) :
  Readers.decode_two_byte (Py.utf8_char c ++ rest)
  = option_map (String c) (Readers.decode_two_byte rest).
Proof.
  destruct c as [[] [] [] [] [] [] [] []]; reflexivity.
Qed.

Lemma decode_two_byte_encode : 
  Extraction.decodes_what_is_encoded Readers.decode_two_byte.
Proof.
  intros s. induction s as [|c s IH]; [reflexivity|].
  cbn [Py.encode_utf8]. now rewrite decode_two_byte_char, IH.
Qed.

(** X17.  With a decoder that undoes the UTF-8 encoding, every payload
    [create_redacted_document] returns under a name other than the
    .pdf and .docx ones is read back by [_extract_from_text] as the
    redacted text itself, provided that text is not blank. *)
Theorem text_payload_reads_back :
  forall (fitz : Fitz.API) (docx : Docx.API)
         (readers : Extraction.Readers fitz)
         (original_content : Py.bytes) (filename redacted_text : Py.str)
         (output_format : option Py.str)
         (entities : option (list Schemas.EntityInfo)) (method : Py.str),
    Extraction.decodes_what_is_encoded (Extraction.decode_utf8 readers) ->
    Extraction.has_content redacted_text ->
    let produced :=
      DocumentHandler.create_redacted_document fitz docx original_content
        filename redacted_text output_format entities method in
    snd produced <> String.append (Pathlib.stem filename) "_redacted.pdf" ->
    snd produced <> String.append (Pathlib.stem filename) "_redacted.docx" ->
    Extraction._extract_from_text fitz readers (fst produced)
    = inl redacted_text.
Proof.
  intros fitz docx readers original_content filename redacted_text
         output_format entities method Hdec Hcontent produced Hpdf Hdocx.
  destruct (redacted_document_name_and_payload fitz docx original_content
              filename redacted_text output_format entities method)
    as [_ [H | [H | H]]]; fold produced in H; try contradiction.
  rewrite H. unfold Extraction._extract_from_text. cbv zeta.
  rewrite (Hdec redacted_text).
  apply truthy_str_iff in Hcontent. rewrite Hcontent. reflexivity.
Qed.

Lemma text_payload_reads_back_witness :
  let produced :=
    DocumentHandler.create_redacted_document (Examples.toy_fitz false)
      Examples.toy_docx Examples.pdf_bytes "notes.md" "[first_name] Doe"
      None (Some [Examples.john_info]) "mask" in
  snd produced = "notes_redacted.md"
  /\ Extraction._extract_from_text (Examples.toy_fitz false) Readers.toy
       (fst produced)
     = inl "[first_name] Doe".
Proof.
  intros produced. split; [reflexivity|].
  apply (text_payload_reads_back (Examples.toy_fitz false) Examples.toy_docx
           Readers.toy Examples.pdf_bytes "notes.md" "[first_name] Doe"
           None (Some [Examples.john_info]) "mask").
  - exact decode_two_byte_encode.
  - vm_compute. discriminate.
  - vm_compute. discriminate.
  - vm_compute. discriminate.
Defined.

(** ** What the extractors raise and return *)

(** X18.  [_extract_from_text] rejects no file for its encoding: a
    content the UTF-8 decoder refuses is read as Latin-1.  It returns
    the decoded text, and the only error it raises is
    [ValueError("Failed to process text file: File is empty.")], for a
    text that is empty or white space. *)
Theorem text_files_fail_only_when_blank :
  forall (fitz : Fitz.API) (readers : Extraction.Readers fitz)
         (content : Py.bytes),
    let text :=
      match Extraction.decode_utf8 readers content with
      | Some t => t
      | None => Extraction.decode_latin1 content
      end in
    (Extraction.has_content text ->
     Extraction._extract_from_text fitz readers content = inl text)
    /\ (~ Extraction.has_content text ->
        Extraction._extract_from_text fitz readers content
        = inr (Extraction.ValueError
                 "Failed to process text file: File is empty.")).
Proof.
  intros fitz readers content text.
  unfold Extraction._extract_from_text. fold text.
  unfold Extraction.has_content. split; intros H.
  - apply truthy_str_iff in H. rewrite H. reflexivity.
  - destruct (Py.truthy_str (Py.strip text)) eqn:Hs; [|reflexivity].
    apply truthy_str_iff in Hs. contradiction.
Qed.

Lemma text_files_fail_only_when_blank_witness :
  let garbled := [Byte.x4a; Byte.xff; Byte.x6e] in
  Extraction.decode_utf8 Readers.toy garbled = None
  /\ Extraction._extract_from_text (Examples.toy_fitz false) Readers.toy
       garbled
     = inl (Extraction.decode_latin1 garbled)
  /\ Extraction._extract_from_text (Examples.toy_fitz false) Readers.toy
       (Py.encode_utf8 "  ")
     = inr (Extraction.ValueError
              "Failed to process text file: File is empty.").
Proof.
  intros garbled. split; [reflexivity|]. split.
  - apply (proj1 (text_files_fail_only_when_blank (Examples.toy_fitz false)
                    Readers.toy garbled)).
    vm_compute. discriminate.
  - apply (proj2 (text_files_fail_only_when_blank (Examples.toy_fitz false)
                    Readers.toy (Py.encode_utf8 "  "))).
    vm_compute. intros H. apply H. reflexivity.
Defined.

Section PdfExtraction.

Variable fitz : Fitz.API.
Variable readers : Extraction.Readers fitz.

Lemma page_blocks_blank (doc : Fitz.Document fitz) (page_nums : list nat) :
  Forall (fun page_num =>
            exists text,
              Extraction.get_text readers doc page_num = Py.Ok text
              /\ ~ Extraction.has_content text) page_nums ->
  forall parts,
    Extraction.page_blocks fitz readers doc page_nums parts = inl parts.
Proof.
  induction 1 as [|n l [text [Hget Hblank]] Hl IH]; intros parts;
    [reflexivity|].
  cbn [Extraction.page_blocks]. rewrite Hget. simpl.
  destruct (Py.truthy_str (Py.strip text)) eqn:Hs; [|apply IH].
  apply truthy_str_iff in Hs. contradiction.
Qed.

Lemma page_blocks_are_blocks (doc : Fitz.Document fitz)
    (page_nums : list nat) :
  forall parts parts',
    Forall (fun s => exists n t, s = Extraction.page_block n t) parts ->
    Extraction.page_blocks fitz readers doc page_nums parts = inl parts' ->
    Forall (fun s => exists n t, s = Extraction.page_block n t) parts'.
Proof.
  induction page_nums as [|n l IH]; intros parts parts' Hparts H.
  - inversion H; subst. exact Hparts.
  - cbn [Extraction.page_blocks] in H.
    destruct (Extraction.get_text readers doc n) as [text|]; simpl in H;
      [|discriminate].
    apply IH in H; [exact H|].
    destruct (Py.truthy_str (Py.strip text)); [|exact Hparts].
    apply Forall_app. split; [exact Hparts|].
    constructor; [eauto | constructor].
Qed.

End PdfExtraction.

Lemma prefix_append (p s : Py.str) : String.prefix p (String.append p s) = true.
Proof.
  induction p as [|c p IH]; simpl; [now destruct s|].
  destruct (ascii_dec c c); [exact IH | congruence].
Qed.

Lemma prefix_same_head (c : ascii) (p s : Py.str) :
  String.prefix (String c p) (String c s) = String.prefix p s.
Proof.
  simpl. destruct (ascii_dec c c); [reflexivity | congruence].
Qed.

Lemma append_assoc (a b c : Py.str) :
  String.append (String.append a b) c = String.append a (String.append b c).
Proof.
  induction a as [|x a IH]; simpl; [reflexivity | now rewrite IH].
Qed.

(** X19.  A PDF that opens and closes but has no page with text (a
    scan, or no page at all) makes [_extract_from_pdf] raise
    [ValueError] with the message of its own "No text found" error
    behind the prefix of its handler. *)
Theorem scanned_pdf_is_rejected :
  forall (fitz : Fitz.API) (readers : Extraction.Readers fitz)
         (content : Py.bytes) (doc : Fitz.Document fitz),
    Fitz.open_stream fitz content = Py.Ok doc ->
    Fitz.close fitz doc = Py.Ok tt ->
    (forall page_num,
       (page_num < Fitz.page_count fitz doc)%nat ->
       exists text,
         Extraction.get_text readers doc page_num = Py.Ok text
         /\ ~ Extraction.has_content text) ->
    Extraction._extract_from_pdf fitz readers content
    = inr (Extraction.ValueError
             ("Failed to process PDF: No text found in PDF. "
              ++ "Scanned documents (images) are not supported.")%string).
Proof.
  intros fitz readers content doc Hopen Hclose Hpages.
  unfold Extraction._extract_from_pdf. rewrite Hopen. simpl.
  rewrite page_blocks_blank.
  - simpl. rewrite Hclose. reflexivity.
  - apply Forall_forall. intros n Hn. apply in_seq in Hn.
    apply Hpages. lia.
Qed.

Lemma scanned_pdf_is_rejected_witness :
  let readers : Extraction.Readers (Examples.toy_fitz false) :=
    {| Extraction.get_text := fun doc page_num => Py.Ok "   ";
       Extraction.paragraph_texts := fun content => Py.Ok [];
       Extraction.decode_utf8 := fun content => None |} in
  Extraction.extract_text (Examples.toy_fitz false) readers
    Examples.pdf_bytes "scan.pdf"
  = inr (Extraction.ValueError
           ("Failed to process PDF: No text found in PDF. "
            ++ "Scanned documents (images) are not supported.")%string).
Proof.
  intros readers.
  apply (scanned_pdf_is_rejected (Examples.toy_fitz false) readers
           Examples.pdf_bytes [["John Doe"]]).
  - reflexivity.
  - reflexivity.
  - intros page_num _. exists "   ". split; [reflexivity|].
    vm_compute. intros H. apply H. reflexivity.
Defined.

(** X20.  The text [_extract_from_pdf] returns always begins with a
    page marker, "--- Page ": the text that goes to detection and
    redaction is not the text of the pages alone. *)
Theorem pdf_text_begins_with_page_marker :
  forall (fitz : Fitz.API) (readers : Extraction.Readers fitz)
         (content : Py.bytes) (text : Py.str),
    Extraction._extract_from_pdf fitz readers content = inl text ->
    Py.startswith text "--- Page " = true.
Proof.
  intros fitz readers content text.
  unfold Extraction._extract_from_pdf, Extraction.and_then.
  destruct (Extraction.foreign (Fitz.open_stream fitz content)) as [doc|];
    [|discriminate].
  destruct (Extraction.page_blocks fitz readers doc _ [])
    as [parts|] eqn:Hparts; [|discriminate].
  destruct (Extraction.foreign (Fitz.close fitz doc)); [|discriminate].
  apply page_blocks_are_blocks in Hparts; [|constructor].
  destruct parts as [|b rest]; [discriminate|].
  inversion Hparts as [|? ? [n [t Hb]] _]; subst.
  destruct (Py.truthy_str _); cbn [negb]; [|discriminate].
  unfold Extraction.returned, Extraction.reraise_as_value_error.
  intros H. injection H as Htext. subst text.
  unfold Py.startswith, Extraction.page_block.
  destruct rest; cbn [String.concat].
  - apply prefix_append.
  - repeat rewrite prefix_same_head. apply (prefix_append "").
Qed.

Lemma pdf_text_begins_with_page_marker_witness :
  Extraction._extract_from_pdf (Examples.toy_fitz false) Readers.toy
    Examples.pdf_bytes
  = inl (String.append "--- Page 1 ---" (String Py.newline "John Doe"))
  /\ Py.startswith
       (String.append "--- Page 1 ---" (String Py.newline "John Doe"))
       "--- Page " = true.
Proof.
  assert (H : Extraction._extract_from_pdf (Examples.toy_fitz false)
                Readers.toy Examples.pdf_bytes
              = inl (String.append "--- Page 1 ---"
                       (String Py.newline "John Doe")))
    by (vm_compute; reflexivity).
  split; [exact H|].
  exact (pdf_text_begins_with_page_marker (Examples.toy_fitz false)
           Readers.toy Examples.pdf_bytes _ H).
Defined.

(** ** Blank texts and paragraphs *)

Section StripFacts.

Lemma chars_of_append (a b : Py.str) :
  list_ascii_of_string (String.append a b)
  = list_ascii_of_string a ++ list_ascii_of_string b.
Proof.
  induction a as [|c a IH]; simpl; [reflexivity | now rewrite IH].
Qed.

Lemma lstrip_all_space (s : Py.str) :
  (forall c, In c (list_ascii_of_string s) -> Py.isspace c = true) ->
  Py.lstrip s = "".
Proof.
  induction s as [|c s IH]; intros H; [reflexivity|].
  simpl. rewrite (H c) by (left; reflexivity).
  apply IH. intros c' Hc'. apply H. now right.
Qed.

Lemma lstrip_spaces (s : Py.str) :
  (forall c, In c (list_ascii_of_string (Py.lstrip s)) ->
             Py.isspace c = true) ->
  forall c, In c (list_ascii_of_string s) -> Py.isspace c = true.
Proof.
  induction s as [|a s IH]; intros H c Hc; [destruct Hc|].
  simpl in H. destruct (Py.isspace a) eqn:Ha.
  - destruct Hc as [<- | Hc]; [exact Ha | now apply IH].
  - now apply H.
Qed.

Lemma rstrip_empty (r : Py.str) :
  Py.rstrip r = "" ->
  forall c, In c (list_ascii_of_string r) -> Py.isspace c = true.
Proof.
  induction r as [|a r IH]; intros H c Hc; [destruct Hc|].
  simpl in H. destruct (Py.rstrip r) eqn:Hr; [|discriminate].
  destruct (Py.isspace a) eqn:Ha; [|discriminate].
  destruct Hc as [<- | Hc]; [exact Ha | now apply IH].
Qed.

(** A text strips to nothing exactly when all its characters are
    white space. *)
Lemma strip_blank_iff (s : Py.str) :
  Py.strip s = ""
  <-> forall c, In c (list_ascii_of_string s) -> Py.isspace c = true.
Proof.
  unfold Py.strip. split.
  - intros H. apply lstrip_spaces. now apply rstrip_empty.
  - intros H. now rewrite lstrip_all_space.
Qed.

Lemma chars_in_concat (sep p : Py.str) (ps : list Py.str) (c : ascii) :
  In p ps -> In c (list_ascii_of_string p) ->
  In c (list_ascii_of_string (String.concat sep ps)).
Proof.
  induction ps as [|q ps IH]; intros Hp Hc; [destruct Hp|].
  destruct Hp as [-> | Hp].
  - destruct ps; cbn [String.concat]; [exact Hc|].
    rewrite chars_of_append. apply in_or_app. now left.
  - destruct ps as [|q' ps']; [destruct Hp|].
    cbn [String.concat]. rewrite !chars_of_append.
    apply in_or_app. right. apply in_or_app. right. now apply IH.
Qed.

Lemma split_single_line (p : Py.str) :
  Extraction.single_line p -> DocumentHandler.split_paragraphs p = [p].
Proof.
  unfold Extraction.single_line, Py.chars_of.
  induction p as [|c p IH]; intros Hno; [reflexivity|].
  assert (Hc : Ascii.eqb c Py.newline = false).
  { apply Ascii.eqb_neq. intros ->. apply Hno. now left. }
  cbn [DocumentHandler.split_paragraphs]. rewrite Hc. cbn [andb].
  rewrite IH by (intros H; apply Hno; now right).
  destruct p; reflexivity.
Qed.

Lemma split_first_paragraph (p rest : Py.str) :
  Extraction.single_line p ->
  DocumentHandler.split_paragraphs
    (String.append p (String.append Extraction.blank_line_separator rest))
  = p :: DocumentHandler.split_paragraphs rest.
Proof.
  unfold Extraction.single_line, Py.chars_of.
  induction p as [|c p IH]; intros Hno.
  - cbn [String.append Extraction.blank_line_separator
         DocumentHandler.split_paragraphs].
    rewrite Ascii.eqb_refl. reflexivity.
  - assert (Hc : Ascii.eqb c Py.newline = false).
    { apply Ascii.eqb_neq. intros ->. apply Hno. now left. }
    cbn [String.append DocumentHandler.split_paragraphs].
    rewrite Hc. cbn [andb].
    rewrite IH by (intros H; apply Hno; now right).
    destruct (String.append p _); reflexivity.
Qed.

(** Paragraphs without a newline, joined by blank lines, split back
    into themselves. *)
Lemma split_joined_paragraphs (p : Py.str) (ps : list Py.str) :
  Forall Extraction.single_line (p :: ps) ->
  DocumentHandler.split_paragraphs
    (String.concat Extraction.blank_line_separator (p :: ps))
  = p :: ps.
Proof.
  revert p. induction ps as [|q ps IH]; intros p H.
  - inversion H; subst. now apply split_single_line.
  - inversion H as [|? ? Hp Hrest]; subst.
    change (String.concat Extraction.blank_line_separator (p :: q :: ps))
      with (String.append p
              (String.append Extraction.blank_line_separator
                 (String.concat Extraction.blank_line_separator (q :: ps)))).
    rewrite split_first_paragraph by exact Hp.
    now rewrite IH.
Qed.

Lemma for_each_pointwise_in {A S} (f g : S -> A -> Py.result S)
    (l : list A) :
  (forall s a, In a l -> f s a = g s a) ->
  forall s, DocumentHandler.for_each f l s = DocumentHandler.for_each g l s.
Proof.
  induction l as [|a l IH]; intros Hfg s; [reflexivity|].
  cbn [DocumentHandler.for_each].
  rewrite Hfg by (left; reflexivity). unfold Py.bind.
  destruct (g s a); [|reflexivity].
  apply IH. intros s' a' Ha'. apply Hfg. now right.
Qed.

End StripFacts.

(** X21.  A DOCX package whose paragraphs hold no newline character
    and are not all blank is extracted to a text that
    [_create_redacted_docx] splits back into exactly the paragraphs
    that are not blank, in their order; if nothing is redacted, these
    are the paragraphs it adds to the new document. *)
Theorem docx_paragraphs_survive_extraction :
  forall (fitz : Fitz.API) (readers : Extraction.Readers fitz)
         (docx : Docx.API) (content : Py.bytes) (texts : list Py.str)
         (stem : Py.str),
    Extraction.paragraph_texts readers content = Py.Ok texts ->
    Forall Extraction.single_line texts ->
    let kept := filter (fun p => Py.truthy_str (Py.strip p)) texts in
    kept <> [] ->
    exists extracted,
      Extraction._extract_from_docx fitz readers content = inl extracted
      /\ DocumentHandler.split_paragraphs extracted = kept
      /\ DocumentHandler.docx_try_body docx extracted stem
         = (doc <- Docx.new_document docx ;;
            doc' <- DocumentHandler.for_each (Docx.add_paragraph docx)
                      kept doc ;;
            output <- Docx.save docx doc' ;;
            Py.Ok (output, DocumentHandler.redacted_name stem ".docx")).
Proof.
  intros fitz readers docx content texts stem Hread Hlines kept Hkept.
  assert (Hkept_lines : Forall Extraction.single_line kept).
  { apply Forall_forall. intros p Hp. apply filter_In in Hp.
    rewrite Forall_forall in Hlines. now apply Hlines. }
  assert (Hsplit : DocumentHandler.split_paragraphs
                     (String.concat Extraction.blank_line_separator kept)
                   = kept).
  { destruct kept as [|p ps]; [contradiction|].
    now apply split_joined_paragraphs. }
  assert (Hcontent : Py.truthy_str
                       (Py.strip
                          (String.concat Extraction.blank_line_separator kept))
                     = true).
  { apply truthy_str_iff. intros Hblank.
    destruct kept as [|p ps] eqn:Hk; [contradiction|].
    assert (Hp : In p (filter (fun p => Py.truthy_str (Py.strip p)) texts))
      by (fold kept; rewrite Hk; now left).
    apply filter_In in Hp. destruct Hp as [_ Hp].
    apply truthy_str_iff in Hp. apply Hp.
    apply strip_blank_iff. intros c Hc.
    apply (proj1 (strip_blank_iff _) Hblank).
    apply chars_in_concat with (p := p); [now left | exact Hc]. }
  exists (String.concat Extraction.blank_line_separator kept).
  split; [|split].
  - unfold Extraction._extract_from_docx. rewrite Hread. simpl.
    fold kept. now rewrite Hcontent.
  - exact Hsplit.
  - unfold DocumentHandler.docx_try_body. rewrite Hsplit.
    unfold Py.bind.
    destruct (Docx.new_document docx) as [doc|]; [|reflexivity].
    rewrite (for_each_pointwise_in _ (Docx.add_paragraph docx) kept);
      [reflexivity|].
    intros d para Hin. apply filter_In in Hin. destruct Hin as [_ Hin].
    now rewrite Hin.
Qed.

Lemma docx_paragraphs_survive_extraction_witness :
  exists extracted,
    Extraction._extract_from_docx (Examples.toy_fitz false) Readers.toy
      Examples.pdf_bytes
    = inl extracted
    /\ DocumentHandler.split_paragraphs extracted = ["John Doe"; "Born 1970"].
Proof.
  destruct (docx_paragraphs_survive_extraction (Examples.toy_fitz false)
              Readers.toy Examples.toy_docx Examples.pdf_bytes
              ["John Doe"; "  "; "Born 1970"] "visit" eq_refl)
    as [extracted [Hex [Hsplit _]]].
  - repeat (apply Forall_cons); try apply Forall_nil;
      vm_compute; intros H; repeat (destruct H as [H | H]; try discriminate H);
      exact H.
  - vm_compute. discriminate.
  - exists extracted. split; [exact Hex | exact Hsplit].
Defined.

(* ===================================================================== *)
(** ** The helpers of the document endpoints *)
(* ===================================================================== *)

(** *** Entity types from a form field *)

Lemma rstrip_cons (c : ascii) (s : Py.str) :
  Py.rstrip (String c s)
  = match Py.rstrip s with
    | EmptyString => if Py.isspace c then EmptyString
                     else String c EmptyString
    | r => String c r
    end.
Proof. reflexivity. Qed.

Lemma lstrip_head (s : Py.str) (c : ascii) (r : Py.str) :
  Py.lstrip s = String c r -> Py.isspace c = false.
Proof.
  induction s as [|a s IH]; simpl; [discriminate|].
  destruct (Py.isspace a) eqn:Ha; [exact IH|].
  intros H. inversion H. subst. exact Ha.
Qed.

Lemma rstrip_idem (s : Py.str) : Py.rstrip (Py.rstrip s) = Py.rstrip s.
Proof.
  induction s as [|c s IH]; [reflexivity|].
  rewrite rstrip_cons. destruct (Py.rstrip s) as [|c' r'] eqn:Hr.
  - destruct (Py.isspace c) eqn:Hc; [reflexivity|].
    rewrite rstrip_cons. cbn [Py.rstrip]. now rewrite Hc.
  - rewrite rstrip_cons, IH. reflexivity.
Qed.

Lemma rstrip_head (c : ascii) (r : Py.str) :
  Py.isspace c = false -> exists r', Py.rstrip (String c r) = String c r'.
Proof.
  intros Hc. rewrite rstrip_cons, Hc.
  destruct (Py.rstrip r); eauto.
Qed.

Lemma strip_idem (s : Py.str) : Py.strip (Py.strip s) = Py.strip s.
Proof.
  unfold Py.strip. destruct (Py.lstrip s) as [|c r] eqn:Hl; [reflexivity|].
  pose proof (lstrip_head _ _ _ Hl) as Hc.
  destruct (rstrip_head c r Hc) as [r' Hr'].
  rewrite Hr'. cbn [Py.lstrip]. rewrite Hc, <- Hr'. apply rstrip_idem.
Qed.

Lemma lstrip_chars (s : Py.str) (c : ascii) :
  In c (list_ascii_of_string (Py.lstrip s)) -> In c (list_ascii_of_string s).
Proof.
  induction s as [|a s IH]; [trivial|].
  cbn [Py.lstrip]. destruct (Py.isspace a); [|trivial].
  intros H. right. now apply IH.
Qed.

Lemma rstrip_chars (s : Py.str) (c : ascii) :
  In c (list_ascii_of_string (Py.rstrip s)) -> In c (list_ascii_of_string s).
Proof.
  induction s as [|a s IH]; [trivial|].
  rewrite rstrip_cons. destruct (Py.rstrip s) as [|c' r'] eqn:Hr.
  - destruct (Py.isspace a); intros H; [destruct H|].
    destruct H as [<- | []]. now left.
  - intros [<- | H]; [now left | right; now apply IH].
Qed.

Lemma strip_chars (s : Py.str) (c : ascii) :
  In c (list_ascii_of_string (Py.strip s)) -> In c (list_ascii_of_string s).
Proof.
  unfold Py.strip. intros H. now apply lstrip_chars, rstrip_chars.
Qed.

(** The characters of the pieces of a split are those of the text
    other than the separator. *)
Lemma split_on_pieces (sep : ascii) (s p : Py.str) (c : ascii) :
  In p (Py.split_on sep s) -> In c (list_ascii_of_string p) ->
  In c (list_ascii_of_string s) /\ c <> sep.
Proof.
  revert p. induction s as [|a s IH]; intros p Hp Hc.
  - destruct Hp as [<- | []]. destruct Hc.
  - cbn [Py.split_on] in Hp. destruct (Ascii.eqb a sep) eqn:Ha.
    + destruct Hp as [<- | Hp]; [destruct Hc|].
      destruct (IH p Hp Hc) as [H1 H2]. split; [now right | exact H2].
    + apply Ascii.eqb_neq in Ha.
      destruct (Py.split_on sep s) as [|q qs].
      * destruct Hp as [<- | []]. destruct Hc as [<- | []].
        split; [now left | exact Ha].
      * destruct Hp as [<- | Hp].
        -- destruct Hc as [<- | Hc]; [split; [now left | exact Ha]|].
           destruct (IH q (or_introl eq_refl) Hc) as [H1 H2].
           split; [now right | exact H2].
        -- destruct (IH p (or_intror Hp) Hc) as [H1 H2].
           split; [now right | exact H2].
Qed.

Lemma split_on_covers (sep : ascii) (s : Py.str) (c : ascii) :
  In c (list_ascii_of_string s) -> c <> sep ->
  exists p, In p (Py.split_on sep s) /\ In c (list_ascii_of_string p).
Proof.
  induction s as [|a s IH]; intros Hc Hsep; [destruct Hc|].
  cbn [Py.split_on]. destruct (Ascii.eqb a sep) eqn:Ha.
  - apply Ascii.eqb_eq in Ha. subst a.
    destruct Hc as [Hc | Hc]; [congruence|].
    destruct (IH Hc Hsep) as [p [Hp Hcp]]. exists p. split; [now right | exact Hcp].
  - destruct (Py.split_on sep s) as [|q qs].
    + destruct Hc as [<- | Hc].
      * exists (String a ""). split; left; reflexivity.
      * destruct (IH Hc Hsep) as [p [[] _]].
    + destruct Hc as [<- | Hc].
      * exists (String a q). split; left; reflexivity.
      * destruct (IH Hc Hsep) as [p [[<- | Hp] Hcp]].
        -- exists (String a q). split; [now left | now right].
        -- exists p. split; [now right | exact Hcp].
Qed.

Lemma filter_nil_iff {A} (f : A -> bool) (l : list A) :
  filter f l = [] <-> forall x, In x l -> f x = false.
Proof.
  induction l as [|a l IH]; simpl.
  - split; [intros _ x [] | reflexivity].
  - destruct (f a) eqn:Ha; split.
    + discriminate.
    + intros H. rewrite (H a) in Ha by now left. discriminate.
    + intros H x [<- | Hx]; [exact Ha | now apply IH].
    + intros H. apply IH. intros x Hx. apply H. now right.
Qed.

Lemma truthy_str_false (s : Py.str) : Py.truthy_str s = false <-> s = "".
Proof. destruct s; simpl; split; congruence. Qed.

(** What [_parse_entity_types] makes of a field that is not empty. *)
Lemma parse_entity_types_some (s : Py.str) :
  s <> "" ->
  Api._parse_entity_types (Some s)
  = Some (map Py.strip
            (filter (fun t => Py.truthy_str (Py.strip t))
               (Py.split_on ","%char s))).
Proof.
  intros Hs. unfold Api._parse_entity_types.
  destruct s; [congruence | reflexivity].
Qed.

(** A field of commas and white space only has no entity type. *)
Lemma parse_entity_types_nil (s : Py.str) :
  map Py.strip
    (filter (fun t => Py.truthy_str (Py.strip t)) (Py.split_on ","%char s))
  = []
  <-> forall c, In c (Py.chars_of s) -> c = ","%char \/ Py.isspace c = true.
Proof.
  unfold Py.chars_of. split.
  - intros H c Hc. apply map_eq_nil in H.
    destruct (Ascii.eqb_spec c ","%char) as [-> | Hne]; [now left | right].
    destruct (split_on_covers _ _ _ Hc Hne) as [p [Hp Hcp]].
    pose proof (proj1 (filter_nil_iff _ _) H p Hp) as Hblank.
    apply truthy_str_false in Hblank.
    exact (proj1 (strip_blank_iff p) Hblank c Hcp).
  - intros H.
    replace (filter _ _) with (@nil Py.str); [reflexivity|].
    symmetry. apply filter_nil_iff. intros p Hp.
    apply truthy_str_false, strip_blank_iff. intros c Hc.
    destruct (split_on_pieces _ _ _ _ Hp Hc) as [Hin Hne].
    destruct (H c Hin) as [-> | Hsp]; [congruence | exact Hsp].
Qed.

(** X22.  For a form field that is not empty, [_parse_entity_types]
    returns a list (never [None]) of names that are not empty, carry
    no white space at either end and contain no comma; the list is
    empty exactly when the field is made of commas and white space
    only. *)
Theorem parse_entity_types_cleans_the_field :
  forall s : Py.str,
    s <> "" ->
    exists types,
      Api._parse_entity_types (Some s) = Some types
      /\ Forall (fun t => t <> "" /\ Py.strip t = t
                          /\ ~ In ","%char (Py.chars_of t)) types
      /\ (types = [] <->
          forall c, In c (Py.chars_of s) ->
                    c = ","%char \/ Py.isspace c = true).
Proof.
  intros s Hs. eexists. split; [apply (parse_entity_types_some s Hs)|].
  split; [|apply parse_entity_types_nil].
  apply Forall_forall. intros t Ht.
  apply in_map_iff in Ht. destruct Ht as [p [<- Hp]].
  apply filter_In in Hp. destruct Hp as [Hp Htruthy].
  split; [now apply truthy_str_iff|]. split; [apply strip_idem|].
  unfold Py.chars_of. intros Hc. apply strip_chars in Hc.
  destruct (split_on_pieces _ _ _ _ Hp Hc) as [_ Hne]. congruence.
Qed.

Lemma parse_entity_types_cleans_the_field_witness :
  " NAME, ,email" <> ""
  /\ exists types,
       Api._parse_entity_types (Some " NAME, ,email") = Some types
       /\ Forall (fun t => t <> "" /\ Py.strip t = t
                           /\ ~ In ","%char (Py.chars_of t)) types
       /\ (types = [] <->
           forall c, In c (Py.chars_of " NAME, ,email") ->
                     c = ","%char \/ Py.isspace c = true).
Proof.
  split; [discriminate|].
  apply (parse_entity_types_cleans_the_field " NAME, ,email"). discriminate.
Defined.

(** X23.  A field [entity_types] made of commas and white space only
    (but not empty) switches synthetic replacement off without
    filtering anything: with the method "replace", [redact_text] on
    the configuration of [redact_document] makes the one call and
    gives the redacted text and entities that the method "mask" gives
    without the field. *)
Theorem blank_entity_types_field_masks_everything :
  forall (world : Openmed.Collaborators) (self : Redaction.RedactionService)
         (txt model : Py.str) (threshold : Q) (include_mapping : bool)
         (output_format : Schemas.OutputFormat) (s : Py.str),
    s <> "" ->
    (forall c, In c (Py.chars_of s) ->
               c = ","%char \/ Py.isspace c = true) ->
    let run :=
      Redaction.redact_text world self txt
        (Api.form_config model threshold Schemas.REPLACE include_mapping
           output_format (Some s)) in
    let masked :=
      Redaction.redact_text world self txt
        (Api.form_config model threshold Schemas.MASK include_mapping
           output_format None) in
    Openmed.calls run = Openmed.calls masked
    /\ (forall kwargs, ~ In (Openmed.CallDeidentify txt kwargs)
                            (Openmed.calls run))
    /\ match Openmed.outcome run, Openmed.outcome masked with
       | Py.Ok r, Py.Ok r' =>
           Schemas.result_redacted_text r = Schemas.result_redacted_text r'
           /\ Schemas.result_entities r = Schemas.result_entities r'
       | Py.Err e, Py.Err e' => e = e'
       | _, _ => False
       end.
Proof.
  intros world self txt model threshold include_mapping output_format s
         Hs Hblank run masked.
  assert (Hparse : Api._parse_entity_types (Some s) = Some []).
  { rewrite (parse_entity_types_some s Hs). f_equal.
    now apply parse_entity_types_nil. }
  unfold run, masked.
  rewrite (manual_path_of_redact_text world self txt _)
    by (unfold Configs.manual, Redaction.filtering_needed, Api.form_config;
        cbn [Schemas.entity_types]; now rewrite Hparse).
  rewrite (manual_path_of_redact_text world self txt
             (Api.form_config model threshold Schemas.MASK include_mapping
                output_format None))
    by reflexivity.
  unfold Redaction.call_extract_pii, Redaction.model_name_of, Api.form_config.
  cbn [Schemas.model Schemas.confidence_threshold
       Schemas.use_smart_merging Schemas.entity_types
       Schemas.exclude_entity_types Schemas.method Schemas.method_value].
  rewrite Hparse.
  destruct (Openmed.extract_pii world txt _ _ _) as [found | e];
    cbn [Openmed.iobind Openmed.ret Openmed.calls Openmed.outcome fst snd
         Schemas.result_redacted_text Schemas.result_entities app].
  - split; [reflexivity|]. split; [intros kwargs [H | []]; discriminate|].
    split; [|reflexivity].
    apply redact_manual_masks; discriminate.
  - split; [reflexivity|]. split; [intros kwargs [H | []]; discriminate|].
    reflexivity.
Qed.

Lemma blank_entity_types_field_masks_everything_witness :
  let run :=
    Redaction.redact_text Examples.world Examples.service "John Doe"
      (Api.form_config "m" (6 # 10) Schemas.REPLACE false Schemas.SAME
         (Some ", ")) in
  let masked :=
    Redaction.redact_text Examples.world Examples.service "John Doe"
      (Api.form_config "m" (6 # 10) Schemas.MASK false Schemas.SAME None) in
  Openmed.calls run = Openmed.calls masked
  /\ (forall kwargs, ~ In (Openmed.CallDeidentify "John Doe" kwargs)
                          (Openmed.calls run))
  /\ match Openmed.outcome run, Openmed.outcome masked with
     | Py.Ok r, Py.Ok r' =>
         Schemas.result_redacted_text r = Schemas.result_redacted_text r'
         /\ Schemas.result_entities r = Schemas.result_entities r'
     | Py.Err e, Py.Err e' => e = e'
     | _, _ => False
     end.
Proof.
  apply (blank_entity_types_field_masks_everything Examples.world
           Examples.service "John Doe" "m" (6 # 10) false Schemas.SAME ", ").
  - discriminate.
  - intros c Hc. cbn in Hc.
    destruct Hc as [<- | [<- | []]]; [left | right]; reflexivity.
Defined.

(** *** The MIME type of a redacted document *)

Lemma split_on_last_piece (sep : ascii) (s t : Py.str) :
  Py.split_on sep t = [t] ->
  exists f fs,
    Py.split_on sep (String.append s (String sep t)) = (f :: fs) ++ [t].
Proof.
  intros Ht. induction s as [|c s [f [fs IH]]].
  - exists "", []. cbn [String.append Py.split_on].
    rewrite Ascii.eqb_refl, Ht. reflexivity.
  - cbn [String.append Py.split_on]. rewrite IH.
    destruct (Ascii.eqb c sep).
    + exists "", (f :: fs). reflexivity.
    + exists (String c f), fs. reflexivity.
Qed.

(** The type looked up for a name that ends in a dot and one of the
    keys of the table. *)
Lemma content_type_of_key (s kind mime : Py.str) :
  In (kind, mime) Api.content_types ->
  Api._get_content_type (String.append s (String "."%char kind)) = mime.
Proof.
  intros Hin. unfold Api._get_content_type.
  assert (Hkind : Py.split_on "."%char kind = [kind]).
  { unfold Api.content_types in Hin.
    repeat (destruct Hin as [Hin | Hin];
            [inversion Hin; subst; reflexivity|]).
    destruct Hin. }
  destruct (split_on_last_piece "."%char s kind Hkind) as [f [fs Hsplit]].
  rewrite Hsplit, last_last.
  unfold Api.content_types in Hin.
  repeat (destruct Hin as [Hin | Hin];
          [inversion Hin; subst; reflexivity|]).
  destruct Hin.
Qed.

Lemma content_type_of_redacted_name (stem kind mime : Py.str) :
  In (kind, mime) Api.content_types ->
  Api._get_content_type
    (DocumentHandler.redacted_name stem (String "."%char kind)) = mime.
Proof.
  intros Hin. unfold DocumentHandler.redacted_name.
  rewrite <- append_assoc. now apply content_type_of_key.
Qed.

(** The names [create_redacted_document] can return. *)
Lemma produced_name_cases (fitz : Fitz.API) (docx : Docx.API)
    (original_content : Py.bytes) (filename redacted_text : Py.str)
    (output_format : option Py.str)
    (entities : option (list Schemas.EntityInfo)) (method : Py.str) :
  exists kind,
    In kind ["pdf"; "docx"; "txt"; "md"; "json"]
    /\ snd (DocumentHandler.create_redacted_document fitz docx
              original_content filename redacted_text output_format
              entities method)
       = DocumentHandler.redacted_name (Pathlib.stem filename)
           (String "."%char kind).
Proof.
  unfold DocumentHandler.create_redacted_document.
  set (stem := Pathlib.stem filename).
  set (file_type := DocumentHandler.override_file_type _ _).
  set (ents := match entities with Some (e :: es) => e :: es | _ => [] end).
  destruct (String.eqb file_type "pdf").
  { destruct (create_redacted_pdf_cases fitz original_content redacted_text
                stem ents method) as [H | H].
    - exists "pdf". split; [simpl; tauto | exact H].
    - rewrite H. exists "txt". split; [simpl; tauto | reflexivity]. }
  destruct (String.eqb file_type "docx").
  { destruct (create_redacted_docx_cases docx redacted_text stem)
      as [H | H].
    - exists "docx". split; [simpl; tauto | exact H].
    - rewrite H. exists "txt". split; [simpl; tauto | reflexivity]. }
  destruct (String.eqb file_type "txt" || String.eqb file_type "md").
  { destruct (String.eqb file_type "md");
      [exists "md" | exists "txt"]; split; simpl; tauto. }
  destruct (String.eqb file_type "json").
  { exists "json". split; [simpl; tauto | reflexivity]. }
  exists "txt". split; [simpl; tauto | reflexivity].
Qed.

(** X24.  Every file name [create_redacted_document] returns has an
    entry in the table of [_get_content_type], whatever dots the
    original name has: the media type of the response of
    [redact_document] is the one of the extension produced and never
    the fallback [application/octet-stream]. *)
Theorem redacted_document_content_type :
  forall (fitz : Fitz.API) (docx : Docx.API)
         (original_content : Py.bytes) (filename redacted_text : Py.str)
         (output_format : option Py.str)
         (entities : option (list Schemas.EntityInfo)) (method : Py.str),
    let redacted_filename :=
      snd (DocumentHandler.create_redacted_document fitz docx
             original_content filename redacted_text output_format
             entities method) in
    let content_type := Api._get_content_type redacted_filename in
    content_type <> "application/octet-stream"
    /\ exists kind,
         In (kind, content_type) Api.content_types
         /\ redacted_filename
            = String.append (Pathlib.stem filename)
                (String.append "_redacted" (String "."%char kind)).
Proof.
  intros fitz docx original_content filename redacted_text output_format
         entities method redacted_filename content_type.
  destruct (produced_name_cases fitz docx original_content filename
              redacted_text output_format entities method)
    as [kind [Hkind Hname]].
  fold redacted_filename in Hname.
  assert (Hentry : exists mime, In (kind, mime) Api.content_types
                                /\ mime <> "application/octet-stream").
  { unfold Api.content_types.
    repeat (destruct Hkind as [<- | Hkind];
            [eexists; split; [simpl; tauto | discriminate]|]).
    destruct Hkind. }
  destruct Hentry as [mime [Hin Hne]].
  assert (Htype : content_type = mime).
  { unfold content_type. rewrite Hname.
    now apply content_type_of_redacted_name. }
  rewrite Htype. split; [exact Hne|].
  exists kind. split; [exact Hin | exact Hname].
Qed.

(** *** The statistics of [analyze_document] *)

Lemma dict_get_set {V} (d : list (Py.str * V)) (k k' : Py.str) (v def : V) :
  Api.dict_get (Api.dict_set d k v) k' def
  = if String.eqb k k' then v else Api.dict_get d k' def.
Proof.
  induction d as [|[a w] d IH]; cbn [Api.dict_set Api.dict_get].
  - reflexivity.
  - destruct (String.eqb a k) eqn:Hak; cbn [Api.dict_get].
    + apply String.eqb_eq in Hak. subst a.
      destruct (String.eqb k k'); reflexivity.
    + rewrite IH. destruct (String.eqb a k') eqn:Hak';
        [|reflexivity].
      apply String.eqb_eq in Hak'. subst a. now rewrite String.eqb_sym, Hak.
Qed.

Lemma sum_counts_set (d : list (Py.str * Z)) (k : Py.str) (v : Z) :
  Api.sum_counts (Api.dict_set d k v)
  = Api.sum_counts d - Api.dict_get d k 0 + v.
Proof.
  induction d as [|[a w] d IH]; cbn [Api.dict_set Api.dict_get Api.sum_counts].
  - lia.
  - destruct (String.eqb a k); cbn [Api.sum_counts]; lia.
Qed.

Lemma keys_set {V} (d : list (Py.str * V)) (k : Py.str) (v : V) (k' : Py.str) :
  In k' (map fst (Api.dict_set d k v)) <-> k' = k \/ In k' (map fst d).
Proof.
  induction d as [|[a w] d IH]; cbn [Api.dict_set map fst In].
  - intuition congruence.
  - destruct (String.eqb a k) eqn:Hak; cbn [map fst In].
    + apply String.eqb_eq in Hak. subst a. intuition congruence.
    + rewrite IH. tauto.
Qed.

Lemma keys_set_nodup {V} (d : list (Py.str * V)) (k : Py.str) (v : V) :
  NoDup (map fst d) -> NoDup (map fst (Api.dict_set d k v)).
Proof.
  induction d as [|[a w] d IH]; cbn [Api.dict_set map fst]; intros Hd.
  - constructor; [intros [] | constructor].
  - destruct (String.eqb a k) eqn:Hak; cbn [map fst]; [exact Hd|].
    inversion Hd as [|? ? Hnotin Hd']. subst.
    constructor; [|now apply IH].
    intros Hin. apply keys_set in Hin. destruct Hin as [-> | Hin].
    + now rewrite String.eqb_refl in Hak.
    + contradiction.
Qed.

Lemma occurrences_cons (label : Py.str) (e : Schemas.EntityInfo)
    (entities : list Schemas.EntityInfo) :
  Api.occurrences label (e :: entities)
  = (if String.eqb (Schemas.label e) label then 1 else 0)
    + Api.occurrences label entities.
Proof.
  unfold Api.occurrences. cbn [filter].
  destruct (String.eqb (Schemas.label e) label); cbn [List.length]; lia.
Qed.

(** The loop, from any dictionary it may have reached. *)
Lemma count_labels_from (entities : list Schemas.EntityInfo) :
  forall stats : list (Py.str * Z),
    NoDup (map fst stats) ->
    let final := fold_left Api.count_label entities stats in
    NoDup (map fst final)
    /\ (forall label,
          Api.dict_get final label 0
          = Api.dict_get stats label 0 + Api.occurrences label entities)
    /\ Api.sum_counts final
       = Api.sum_counts stats + Z.of_nat (List.length entities)
    /\ (forall label,
          In label (map fst final)
          <-> In label (map fst stats)
              \/ exists e, In e entities /\ Schemas.label e = label).
Proof.
  induction entities as [|e entities IH]; intros stats Hd; cbn [fold_left].
  - split; [exact Hd|]. split; [intros; unfold Api.occurrences; simpl; lia|].
    split; [simpl; lia|].
    intros label. split; [tauto | intros [H | [e [[] _]]]; exact H].
  - destruct (IH (Api.count_label stats e)
                (keys_set_nodup stats _ _ Hd))
      as [Hnodup [Hget [Hsum Hkeys]]].
    split; [exact Hnodup|]. split; [|split].
    + intros label. rewrite Hget, occurrences_cons.
      unfold Api.count_label. rewrite dict_get_set.
      destruct (String.eqb (Schemas.label e) label) eqn:Hl; [|lia].
      apply String.eqb_eq in Hl. subst label. lia.
    + rewrite Hsum. unfold Api.count_label. rewrite sum_counts_set.
      cbn [List.length]. lia.
    + intros label. rewrite Hkeys. unfold Api.count_label.
      rewrite keys_set. split.
      * intros [[-> | H] | [e' [He' Hl]]].
        -- right. exists e. split; [now left | reflexivity].
        -- now left.
        -- right. exists e'. split; [now right | exact Hl].
      * intros [H | [e' [[<- | He'] Hl]]].
        -- left. now right.
        -- left. left. now symmetry.
        -- right. exists e'. split; assumption.
Qed.

(** X25.  In the result of [analyze_document], [by_type] has one
    entry for each label that occurs (labels compared exactly, case
    included), its count is the number of entities with that label,
    and the counts add up to [total_entities]. *)
Theorem analysis_counts_every_entity_once :
  forall (name : Py.str) (entities : list Schemas.EntityInfo),
    let result := Api.analysis name entities in
    NoDup (map fst (Api.by_type result))
    /\ (forall label,
          Api.dict_get (Api.by_type result) label 0
          = Api.occurrences label entities)
    /\ (forall label count,
          In (label, count) (Api.by_type result) ->
          count = Api.occurrences label entities /\ 1 <= count)
    /\ Api.sum_counts (Api.by_type result) = Api.total_entities result.
Proof.
  intros name entities result.
  destruct (count_labels_from entities [] (NoDup_nil _))
    as [Hnodup [Hget [Hsum Hkeys]]].
  unfold result, Api.analysis. cbn [Api.by_type Api.total_entities].
  set (stats := fold_left Api.count_label entities []) in *.
  split; [exact Hnodup|]. split; [exact Hget|]. split; [|exact Hsum].
  intros label count Hin.
  assert (Hcount : Api.dict_get stats label 0 = count).
  { clear - Hnodup Hin. induction stats as [|[a w] d IH]; [destruct Hin|].
    cbn [Api.dict_get]. cbn [map fst] in Hnodup.
    inversion Hnodup as [|? ? Hnotin Hd]. subst.
    destruct Hin as [Heq | Hin].
    - inversion Heq. subst. now rewrite String.eqb_refl.
    - destruct (String.eqb a label) eqn:Hal; [|now apply IH].
      apply String.eqb_eq in Hal. subst a. exfalso. apply Hnotin.
      apply in_map_iff. exists (label, count). split; [reflexivity | exact Hin]. }
  rewrite Hget in Hcount. cbn [Api.dict_get] in Hcount. split; [lia|].
  assert (Hkey : In label (map fst stats)).
  { apply in_map_iff. exists (label, count). split; [reflexivity | exact Hin]. }
  apply Hkeys in Hkey. destruct Hkey as [[] | [e [He Hl]]].
  assert (Hpos : 1 <= Api.occurrences label entities); [|lia].
  clear - He Hl. unfold Api.occurrences.
  assert (Hf : In e (filter (fun e0 => String.eqb (Schemas.label e0) label)
                       entities)).
  { apply filter_In. split; [exact He|]. subst label. apply String.eqb_refl. }
  destruct (filter _ entities); [destruct Hf|]. cbn [List.length]. lia.
Qed.

Lemma insert_str_in (x y : Py.str) (l : list Py.str) :
  In y (Api.insert_str x l) <-> y = x \/ In y l.
Proof.
  induction l as [|a l IH]; cbn [Api.insert_str In].
  - intuition congruence.
  - destruct (String.leb x a); cbn [In]; [intuition congruence|].
    rewrite IH. tauto.
Qed.

Lemma sorted_str_in (y : Py.str) (l : list Py.str) :
  In y (Api.sorted_str l) <-> In y l.
Proof.
  induction l as [|a l IH]; cbn [Api.sorted_str In]; [tauto|].
  rewrite insert_str_in, IH. intuition congruence.
Qed.

Lemma insert_str_nodup (x : Py.str) (l : list Py.str) :
  ~ In x l -> NoDup l -> NoDup (Api.insert_str x l).
Proof.
  induction l as [|a l IH]; cbn [Api.insert_str]; intros Hx Hl.
  - constructor; [intros [] | constructor].
  - destruct (String.leb x a); [now constructor|].
    inversion Hl as [|? ? Ha Hl']. subst.
    constructor.
    + intros Hin. apply insert_str_in in Hin.
      destruct Hin as [-> | Hin]; [apply Hx; now left | contradiction].
    + apply IH; [|exact Hl']. intros Hin. apply Hx. now right.
Qed.

Lemma sorted_str_nodup (l : list Py.str) :
  NoDup l -> NoDup (Api.sorted_str l).
Proof.
  induction l as [|a l IH]; intros Hl; cbn [Api.sorted_str]; [constructor|].
  inversion Hl as [|? ? Ha Hl']. subst.
  apply insert_str_nodup; [|now apply IH].
  intros Hin. apply Ha. now apply sorted_str_in.
Qed.

Lemma insert_str_sorted (x : Py.str) (l : list Py.str) :
  Sorted (fun a b => String.leb a b = true) l ->
  Sorted (fun a b => String.leb a b = true) (Api.insert_str x l).
Proof.
  induction l as [|a l IH]; cbn [Api.insert_str]; intros Hl.
  - constructor; constructor.
  - destruct (String.leb x a) eqn:Hxa.
    + constructor; [exact Hl | constructor; exact Hxa].
    + inversion Hl as [|? ? Hl' Hhd]. subst.
      constructor; [now apply IH|].
      assert (Hax : String.leb a x = true).
      { destruct (String.leb_total a x) as [H | H]; [exact H | congruence]. }
      destruct l as [|b l]; cbn [Api.insert_str].
      * constructor. exact Hax.
      * destruct (String.leb x b); constructor; [exact Hax|].
        now inversion Hhd.
Qed.

Lemma sorted_str_sorted (l : list Py.str) :
  Sorted (fun a b => String.leb a b = true) (Api.sorted_str l).
Proof.
  induction l as [|a l IH]; cbn [Api.sorted_str]; [constructor|].
  now apply insert_str_sorted.
Qed.

(** X26.  In the result of [analyze_document], [all_types] lists
    exactly the labels that occur among the entities, each once, in
    ascending order of their code points. *)
Theorem analysis_lists_each_label_once_in_order :
  forall (name : Py.str) (entities : list Schemas.EntityInfo),
    let result := Api.analysis name entities in
    (forall label,
       In label (Api.all_types result)
       <-> exists e, In e entities /\ Schemas.label e = label)
    /\ NoDup (Api.all_types result)
    /\ Sorted (fun a b => String.leb a b = true) (Api.all_types result)
    /\ Z.of_nat (List.length (Api.all_types result))
       <= Api.total_entities result.
Proof.
  intros name entities result.
  destruct (count_labels_from entities [] (NoDup_nil _))
    as [Hnodup [Hget [Hsum Hkeys]]].
  unfold result, Api.analysis. cbn [Api.all_types Api.total_entities].
  set (stats := fold_left Api.count_label entities []) in *.
  assert (Hmem : forall label,
             In label (Api.sorted_str (map fst stats))
             <-> exists e, In e entities /\ Schemas.label e = label).
  { intros label. rewrite sorted_str_in, Hkeys. cbn [map In]. tauto. }
  split; [exact Hmem|].
  split; [now apply sorted_str_nodup|].
  split; [apply sorted_str_sorted|].
  apply inj_le.
  rewrite <- (length_map Schemas.label entities).
  apply NoDup_incl_length; [now apply sorted_str_nodup|].
  intros label Hin. apply Hmem in Hin. destruct Hin as [e [He <-]].
  now apply in_map.
Qed.

(* ===================================================================== *)
(** ** The loop of the [batch] command *)
(* ===================================================================== *)

Section BatchFacts.

Variable world : Openmed.Collaborators.
Variable fitz : Fitz.API.
Variable docx : Docx.API.
Variable readers : Extraction.Readers fitz.
Variable files : Cli.Files.
Variable service : Redaction.RedactionService.
Variable config : Schemas.RedactionConfig.

Let tally : Type := Cli.tally files.
Let batch_try := Cli.batch_try world fitz docx readers files service config.
Let batch_file := Cli.batch_file world fitz docx readers files service config.

(** [redact_text] makes one call, whichever way it goes. *)
Lemma redact_text_calls_once (txt : Py.str) :
  List.length
    (Openmed.calls (Redaction.redact_text world service txt config)) = 1%nat.
Proof.
  destruct (Configs.manual config) eqn:Hm.
  - rewrite (manual_path_of_redact_text world service txt config Hm).
    unfold Redaction.call_extract_pii.
    destruct (Openmed.extract_pii world txt _ _ _); reflexivity.
  - rewrite (delegated_path_of_redact_text world service txt config Hm).
    unfold Redaction.call_deidentify.
    destruct (Openmed.deidentify world txt _); reflexivity.
Qed.

(** The text [extract_text] returns is never blank. *)
Lemma extracted_text_not_blank (content : Py.bytes) (name text : Py.str) :
  Extraction.extract_text fitz readers content name = inl text ->
  Py.truthy_str (Py.strip text) = true.
Proof.
  intros H. apply truthy_str_iff. fold (Extraction.has_content text).
  assert (Hguard :
            match Extraction.extract_text fitz readers content name with
            | inl text => Extraction.has_content text
            | inr e => exists msg, e = Extraction.ValueError msg
            end).
  { unfold Extraction.extract_text.
    destruct (String.eqb _ "pdf"); [apply extract_from_pdf_guarded|].
    destruct (String.eqb _ "docx"); [apply extract_from_docx_guarded|].
    destruct (_ || _); [apply extract_from_text_guarded|].
    simpl. eauto. }
  now rewrite H in Hguard.
Qed.

(** What the body of the [try] can do to the counters. *)
Lemma batch_try_effect (st : tally) (file_path : Py.str) :
  let '(st', how) := batch_try st file_path in
  how <> Cli.Skipped
  /\ Cli.success st' = Cli.success st
  /\ Cli.failed st' = Cli.failed st
  /\ (List.length (Cli.calls st') <= S (List.length (Cli.calls st)))%nat.
Proof.
  unfold batch_try, Cli.batch_try.
  destruct (Cli.read_bytes files _ _) as [content|];
    [|repeat split; [discriminate | lia]].
  destruct (Extraction.extract_text fitz readers content _)
    as [text|] eqn:Htext;
    [|repeat split; [discriminate | lia]].
  rewrite (extracted_text_not_blank _ _ _ Htext). cbn [negb].
  pose proof (redact_text_calls_once text) as Hone.
  destruct (Openmed.outcome _) as [result|];
    cbn [Cli.total_entities Cli.success Cli.failed Cli.on_disk Cli.calls].
  - destruct (DocumentHandler.create_redacted_document _ _ _ _ _ _ _ _)
      as [redacted_content new_filename].
    destruct (Cli.write_bytes files _ _ _);
      cbn [Cli.total_entities Cli.success Cli.failed Cli.on_disk Cli.calls];
      (repeat split; [discriminate | rewrite length_app, Hone; lia]).
  - repeat split; [discriminate | rewrite length_app, Hone; lia].
Qed.

(** One turn of the loop counts a supported file once, as a success
    or as a failure, and leaves the counters alone otherwise. *)
Lemma batch_file_effect (st : tally) (file_path : Py.str) :
  let st' := batch_file st file_path in
  let n := if Extraction.is_supported (Pathlib.name file_path) then 1 else 0 in
  Cli.success st' + Cli.failed st' = Cli.success st + Cli.failed st + n
  /\ Cli.success st <= Cli.success st'
  /\ Cli.failed st <= Cli.failed st'
  /\ Z.of_nat (List.length (Cli.calls st'))
     <= Z.of_nat (List.length (Cli.calls st)) + n.
Proof.
  unfold batch_file, Cli.batch_file.
  destruct (Extraction.is_supported _); cbn [negb]; [|cbv zeta; lia].
  pose proof (batch_try_effect st file_path) as H.
  unfold batch_try in H.
  destruct (Cli.batch_try _ _ _ _ _ _ _ _ _) as [st' how].
  destruct H as [Hhow [Hs [Hf Hc]]].
  destruct how; [| congruence |];
    cbn [Cli.total_entities Cli.success Cli.failed Cli.on_disk Cli.calls];
    lia.
Qed.

Lemma batch_loop_effect (found : list Py.str) :
  forall st : tally,
    let final := fold_left batch_file found st in
    let n := Z.of_nat (List.length (Cli.supported found)) in
    Cli.success final + Cli.failed final
    = Cli.success st + Cli.failed st + n
    /\ Cli.success st <= Cli.success final
    /\ Cli.failed st <= Cli.failed final
    /\ Z.of_nat (List.length (Cli.calls final))
       <= Z.of_nat (List.length (Cli.calls st)) + n.
Proof.
  induction found as [|file_path found IH]; intros st; cbn [fold_left].
  - cbn. lia.
  - pose proof (batch_file_effect st file_path) as H1.
    pose proof (IH (batch_file st file_path)) as H2.
    cbv zeta in H1, H2. cbv zeta.
    unfold Cli.supported in *. cbn [filter].
    destruct (Extraction.is_supported (Pathlib.name file_path));
      cbn [List.length]; lia.
Qed.

End BatchFacts.

(** X27.  The [batch] command accounts for every file of a supported
    type exactly once: at the end [success + failed] is the number of
    supported files among those found, whatever the file system, the
    readers and the detector do; files of other types are counted
    nowhere; and the detector is called at most once per supported
    file.  (The test for a blank text after [extract_text] never
    fires, so no supported file is passed over.) *)
Theorem batch_counts_every_supported_file :
  forall (world : Openmed.Collaborators) (fitz : Fitz.API) (docx : Docx.API)
         (readers : Extraction.Readers fitz) (files : Cli.Files)
         (service : Redaction.RedactionService)
         (config : Schemas.RedactionConfig) (start : Cli.disk files)
         (found : list Py.str),
    let final :=
      Cli.batch world fitz docx readers files service config start found in
    Cli.success final + Cli.failed final
    = Z.of_nat (List.length (Cli.supported found))
    /\ 0 <= Cli.success final
    /\ 0 <= Cli.failed final
    /\ (List.length (Cli.calls final)
        <= List.length (Cli.supported found))%nat.
Proof.
  intros world fitz docx readers files service config start found final.
  pose proof (batch_loop_effect world fitz docx readers files service config
                found
                {| Cli.total_entities := 0; Cli.success := 0;
                   Cli.failed := 0; Cli.on_disk := start;
                   Cli.calls := [] |}) as H.
  cbv zeta in H.
  cbn [Cli.total_entities Cli.success Cli.failed Cli.on_disk Cli.calls
       List.length] in H.
  unfold final, Cli.batch. lia.
Qed.

Section BatchWithoutOutput.

Variable world : Openmed.Collaborators.
Variable fitz : Fitz.API.
Variable docx : Docx.API.
Variable readers : Extraction.Readers fitz.
Variable files : Cli.Files.
Variable service : Redaction.RedactionService.
Variable config : Schemas.RedactionConfig.

Hypothesis no_write : Cli.refuses_writes files.

Let batch_file := Cli.batch_file world fitz docx readers files service config.
Let detected := Cli.detected world fitz readers files service config.

(** When no write goes through, a supported file is a failure, and
    its entities are in the total all the same. *)
Lemma batch_file_without_output (st : Cli.tally files) (file_path : Py.str) :
  let st' := batch_file st file_path in
  let n := if Extraction.is_supported (Pathlib.name file_path) then 1 else 0 in
  Cli.success st' = Cli.success st
  /\ Cli.failed st' = Cli.failed st + n
  /\ Cli.on_disk st' = Cli.on_disk st
  /\ Cli.total_entities st'
     = Cli.total_entities st
       + (if Extraction.is_supported (Pathlib.name file_path)
          then detected (Cli.on_disk st) file_path else 0).
Proof.
  unfold batch_file, Cli.batch_file, detected, Cli.detected.
  destruct (Extraction.is_supported _); cbn [negb];
    [|cbv zeta; repeat split; lia].
  unfold Cli.batch_try.
  destruct (Cli.read_bytes files _ _) as [content|];
    [|cbn [Cli.total_entities Cli.success Cli.failed Cli.on_disk];
      repeat split; lia].
  destruct (Extraction.extract_text fitz readers content _)
    as [text|] eqn:Htext;
    [|cbn [Cli.total_entities Cli.success Cli.failed Cli.on_disk];
      repeat split; lia].
  rewrite (extracted_text_not_blank _ _ _ _ _ Htext). cbn [negb].
  destruct (Openmed.outcome _) as [result|];
    [|cbn [Cli.total_entities Cli.success Cli.failed Cli.on_disk];
      repeat split; lia].
  cbn [Cli.total_entities Cli.success Cli.failed Cli.on_disk Cli.calls].
  destruct (DocumentHandler.create_redacted_document _ _ _ _ _ _ _ _)
    as [redacted_content new_filename].
  destruct (no_write (Cli.on_disk st) new_filename redacted_content)
    as [e He].
  rewrite He.
  cbn [Cli.total_entities Cli.success Cli.failed Cli.on_disk].
  repeat split; lia.
Qed.

Lemma batch_loop_without_output (found : list Py.str) :
  forall st : Cli.tally files,
    let final := fold_left batch_file found st in
    Cli.success final = Cli.success st
    /\ Cli.failed final
       = Cli.failed st + Z.of_nat (List.length (Cli.supported found))
    /\ Cli.on_disk final = Cli.on_disk st
    /\ Cli.total_entities final
       = Cli.total_entities st
         + Cli.detected_total world fitz readers files service config
             (Cli.on_disk st) found.
Proof.
  induction found as [|file_path found IH]; intros st; cbn [fold_left].
  - cbn. repeat split; lia.
  - pose proof (batch_file_without_output st file_path) as H1.
    pose proof (IH (batch_file st file_path)) as H2.
    cbv zeta in H1, H2. cbv zeta.
    destruct H1 as [Hs [Hf [Hd Ht]]]. destruct H2 as [Hs' [Hf' [Hd' Ht']]].
    rewrite Hs', Hf', Hd', Ht', Hs, Hf, Hd, Ht.
    unfold Cli.detected_total, Cli.supported. cbn [filter].
    destruct (Extraction.is_supported (Pathlib.name file_path));
      cbn [List.length fold_right]; fold detected;
      repeat split; lia.
Qed.

End BatchWithoutOutput.

(** X28.  [batch] adds the entities of a file to [total_entities]
    before it builds and writes the output, so the total also counts
    files that end as failures: in an output directory that refuses
    every write, no file succeeds and every supported file fails, yet
    [total_entities] is the number of entities detected in all the
    supported files. *)
Theorem batch_total_counts_files_without_output :
  forall (world : Openmed.Collaborators) (fitz : Fitz.API) (docx : Docx.API)
         (readers : Extraction.Readers fitz) (files : Cli.Files)
         (service : Redaction.RedactionService)
         (config : Schemas.RedactionConfig) (start : Cli.disk files)
         (found : list Py.str),
    Cli.refuses_writes files ->
    let final :=
      Cli.batch world fitz docx readers files service config start found in
    Cli.success final = 0
    /\ Cli.failed final = Z.of_nat (List.length (Cli.supported found))
    /\ Cli.total_entities final
       = Cli.detected_total world fitz readers files service config start
           found.
Proof.
  intros world fitz docx readers files service config start found Hno final.
  pose proof (batch_loop_without_output world fitz docx readers files service
                config Hno found
                {| Cli.total_entities := 0; Cli.success := 0;
                   Cli.failed := 0; Cli.on_disk := start;
                   Cli.calls := [] |}) as H.
  cbv zeta in H.
  cbn [Cli.total_entities Cli.success Cli.failed Cli.on_disk] in H.
  destruct H as [Hs [Hf [_ Ht]]].
  unfold final, Cli.batch. repeat split; [exact Hs | lia | lia].
Qed.

Lemma batch_total_counts_files_without_output_witness :
  let files := Disks.read_only (Py.encode_utf8 "John Doe") in
  let final :=
    Cli.batch Examples.world (Examples.toy_fitz false) Examples.toy_docx
      Readers.toy files Examples.service
      (Examples.config_with Schemas.MASK None) tt
      ["in/notes.txt"; "in/photo.png"] in
  Cli.refuses_writes files
  /\ Cli.success final = 0
  /\ Cli.failed final = 1
  /\ Cli.total_entities final = 1.
Proof.
  intros files final.
  assert (Hno : Cli.refuses_writes files).
  { intros d name content. eexists. reflexivity. }
  split; [exact Hno|].
  exact (batch_total_counts_files_without_output Examples.world
           (Examples.toy_fitz false) Examples.toy_docx Readers.toy files
           Examples.service (Examples.config_with Schemas.MASK None) tt
           ["in/notes.txt"; "in/photo.png"] Hno).
Defined.
